(** * ReactOS shell32: the file-system shell folder (CFSFolder, CFileSysEnum)

    A shallow embedding of the parts of the file-system folder that the
    specification talks about: the directory enumerator
    [CFileSysEnum::Initialize], the attribute classifier
    [SHELL32_GetFSItemAttributes], and the folder operations
    [ParseDisplayName], [CompareIDs], [GetAttributesOf] and [SetNameOf].

    Conventions.
    - A DWORD is a [Z] in [0, 2^32); [~x] is written [dw_not x].
    - An HRESULT is the signed 32-bit value as a [Z]; [SUCCEEDED hr] is
      [0 <= hr].  A BOOL is a Rocq [bool]; where the source returns a BOOL
      through an HRESULT the conversion [BOOL_to_LONG] is written out.
    - WCHAR strings are [string]s; a possibly-NULL pointer is an [option].
    - An out-parameter is an [option]: [None] is a NULL pointer, [Some v] a
      pointer to a cell holding [v]; the function returns the final cells.
    - Memory allocation never fails. *)

From Stdlib Require Import ZArith List String Ascii Bool Lia.
Import ListNotations.

Local Open Scope Z_scope.
Local Open Scope bool_scope.

(** ** Platform constants

    Modelled from the spec: the numeric values of the constants of the
    platform headers (winnt.h, winerror.h, shobjidl.h, pidl.h) are not in
    src/; they are the public values of those headers. *)

Module Win32.

Definition MAX_PATH : nat := 260.

(* HRESULT *)
Definition S_OK : Z := 0.
Definition S_FALSE : Z := 1.
Definition E_INVALIDARG : Z := 0x80070057 - 0x100000000.
Definition E_FAIL : Z := 0x80004005 - 0x100000000.
Definition ERROR_FILE_NOT_FOUND : Z := 2.
Definition ERROR_ACCESS_DENIED : Z := 5.
Definition ERROR_NO_MORE_FILES : Z := 18.

Definition SUCCEEDED (hr : Z) : bool := 0 <=? hr.
Definition FAILED (hr : Z) : bool := hr <? 0.
(* HRESULT_FROM_WIN32 for a non-zero Win32 error code *)
Definition HRESULT_FROM_WIN32 (e : Z) : Z :=
  if e <=? 0 then e
  else Z.lor (Z.land e 0xFFFF) 0x80070000 - 0x100000000.

Definition BOOL_to_LONG (b : bool) : Z := if b then 1 else 0.

(* DWORD arithmetic *)
Definition DWORD_ALL : Z := 0xFFFFFFFF.
Definition dw_not (x : Z) : Z := Z.lxor (Z.land x DWORD_ALL) DWORD_ALL.
(* a DWORD value converted to a 32-bit int *)
Definition to_int (x : Z) : Z :=
  let m := x mod 0x100000000 in
  if m <? 0x80000000 then m else m - 0x100000000.
(* a bit test as C's [x & m] in a condition *)
Definition tst (x m : Z) : bool := negb (Z.land x m =? 0).

(* file attributes *)
Definition FILE_ATTRIBUTE_READONLY : Z := 0x1.
Definition FILE_ATTRIBUTE_HIDDEN : Z := 0x2.
Definition FILE_ATTRIBUTE_SYSTEM : Z := 0x4.
Definition FILE_ATTRIBUTE_DIRECTORY : Z := 0x10.

(* SHCONTF *)
Definition SHCONTF_FOLDERS : Z := 0x20.
Definition SHCONTF_NONFOLDERS : Z := 0x40.
Definition SHCONTF_INCLUDEHIDDEN : Z := 0x80.

(* SHGDN *)
Definition SHGDN_NORMAL : Z := 0x0.
Definition SHGDN_INFOLDER : Z := 0x1.
Definition SHGDN_FORPARSING : Z := 0x8000.

(* SFGAO *)
Definition SFGAO_CANCOPY : Z := 0x1.
Definition SFGAO_CANMOVE : Z := 0x2.
Definition SFGAO_CANLINK : Z := 0x4.
Definition SFGAO_STORAGE : Z := 0x8.
Definition SFGAO_CANRENAME : Z := 0x10.
Definition SFGAO_CANDELETE : Z := 0x20.
Definition SFGAO_HASPROPSHEET : Z := 0x40.
Definition SFGAO_DROPTARGET : Z := 0x100.
Definition SFGAO_LINK : Z := 0x10000.
Definition SFGAO_READONLY : Z := 0x40000.
Definition SFGAO_HIDDEN : Z := 0x80000.
Definition SFGAO_STREAM : Z := 0x400000.
Definition SFGAO_STORAGEANCESTOR : Z := 0x800000.
Definition SFGAO_VALIDATE : Z := 0x1000000.
Definition SFGAO_FILESYSANCESTOR : Z := 0x10000000.
Definition SFGAO_FOLDER : Z := 0x20000000.
Definition SFGAO_FILESYSTEM : Z := 0x40000000.
Definition SFGAO_HASSUBFOLDER : Z := 0x80000000.

(* item-identifier type bytes *)
Definition PT_DRIVE2 : Z := 0x25.
Definition PT_DRIVE1 : Z := 0x29.
Definition PT_DRIVE3 : Z := 0x2A.
Definition PT_DRIVE : Z := 0x2F.
Definition PT_FOLDER1 : Z := 0x30.
Definition PT_FOLDER : Z := 0x31.
Definition PT_VALUE : Z := 0x32.

(* SHChangeNotify events *)
Definition SHCNE_RENAMEITEM : Z := 0x1.
Definition SHCNE_RENAMEFOLDER : Z := 0x20000.

End Win32.
Import Win32.

(** ** Strings *)

Module Str.

Definition wcslen (s : string) : nat := String.length s.

(* wcscmp(a, b) == 0 *)
Definition wcs_eq (a b : string) : bool := String.eqb a b.

(* lstrcpynW(dst, src, n): at most n-1 characters of src *)
Definition lstrcpynW (src : string) (n : nat) : string :=
  String.substring 0 (n - 1) src.

(* lstrcpynW(buf + len, src, n) where len = wcslen(buf): the copy lands
   on the terminator of buf; with n = 0 nothing is written *)
Definition lstrcpynW_at_end (buf src : string) (n : nat) : string :=
  String.append buf (lstrcpynW src n).

Definition towlower (c : ascii) : Z :=
  let n := Z.of_N (N_of_ascii c) in
  if (65 <=? n) && (n <=? 90) then n + 32 else n.

(* wcsicmp: difference of the first pair of characters that differ after
   lower-casing; the terminator counts as 0 *)
Fixpoint wcsicmp (a b : string) : Z :=
  match a, b with
  | EmptyString, EmptyString => 0
  | EmptyString, String d _ => 0 - towlower d
  | String c _, EmptyString => towlower c
  | String c a', String d b' =>
      if towlower c =? towlower d then wcsicmp a' b'
      else towlower c - towlower d
  end.

Definition backslash : ascii := Ascii.ascii_of_nat 92.
Definition dot_char : ascii := Ascii.ascii_of_nat 46.
Definition space_char : ascii := Ascii.ascii_of_nat 32.

(* a backslash or a space occurs in s *)
Fixpoint has_sep (s : string) : bool :=
  match s with
  | EmptyString => false
  | String c s' =>
      Ascii.eqb c backslash || Ascii.eqb c space_char || has_sep s'
  end.

(** Modelled from the spec: PathFindExtensionW (shlwapi) is not in src/.
    The extension is the substring that starts at the last dot of the
    path, unless a backslash or a space follows that dot; the empty
    string when there is none. *)
Fixpoint PathFindExtensionW (s : string) : string :=
  match s with
  | EmptyString => EmptyString
  | String c s' =>
      match PathFindExtensionW s' with
      | EmptyString =>
          if Ascii.eqb c dot_char && negb (has_sep s') then s
          else EmptyString
      | r => r
      end
  end.

End Str.
Import Str.

(** ** Item identifiers

    The layout of an item identifier (pidl.h) is not in src/.  The record
    keeps the fields the file-system folder reads: the type byte
    [mkid.abID[0]], the [u.file] members, and the wide name of the trailing
    FileStructW block when the identifier carries one. *)

Record ITEMID : Type := mkITEMID {
  abID0 : Z;                 (* mkid.abID[0]: PT_FOLDER, PT_VALUE, ... *)
  dwFileSize : Z;            (* u.file.dwFileSize, DWORD *)
  uFileDate : Z;             (* u.file.uFileDate, WORD *)
  uFileTime : Z;             (* u.file.uFileTime, WORD *)
  uFileAttribs : Z;          (* u.file.uFileAttribs, WORD *)
  wszName : option string    (* FileStructW.wszName *)
}.

(* An identifier list: the items root to leaf.  A NULL list and the empty
   list are both [[]] where the source does not tell them apart. *)
Definition PIDL : Type := list ITEMID.

(* A directory-scan record.  The write time is kept already split into
   the DOS date and time words the identifier stores. *)
Record WIN32_FIND_DATAW : Type := mkFIND_DATA {
  dwFileAttributes : Z;
  ftLastWriteDate : Z;
  ftLastWriteTime : Z;
  nFileSizeLow : Z;
  cFileName : string
}.

Module Pidl.

(** Modelled from the spec: _ILGetDataPointer (pidl.c) is not in src/.
    It is the view of the first item of a list, NULL for a NULL or an
    empty list. *)
Definition _ILGetDataPointer (pidl : PIDL) : option ITEMID :=
  match pidl with
  | [] => None
  | i :: _ => Some i
  end.

(** Modelled from the spec: the kind tests _ILIsFolder, _ILIsValue and
    _ILIsDrive (pidl.c) are not in src/.  They recognise an identifier by
    its type tag: Folder, File and Drive-root. *)
Definition _ILIsFolder (pidl : PIDL) : bool :=
  match _ILGetDataPointer pidl with
  | Some d => (abID0 d =? PT_FOLDER) || (abID0 d =? PT_FOLDER1)
  | None => false
  end.

Definition _ILIsValue (pidl : PIDL) : bool :=
  match _ILGetDataPointer pidl with
  | Some d => abID0 d =? PT_VALUE
  | None => false
  end.

Definition _ILIsDrive (pidl : PIDL) : bool :=
  match _ILGetDataPointer pidl with
  | Some d => (abID0 d =? PT_DRIVE) || (abID0 d =? PT_DRIVE1)
              || (abID0 d =? PT_DRIVE2) || (abID0 d =? PT_DRIVE3)
  | None => false
  end.

(** Modelled from the spec: _ILGetFileStructW (pidl.c) is not in src/.
    It extracts the name, exact case as stored, of a File or Folder
    identifier; NULL for any other identifier or when no name block is
    there. *)
Definition _ILGetFileStructW (pidl : PIDL) : option string :=
  match _ILGetDataPointer pidl with
  | Some d => if _ILIsValue pidl || _ILIsFolder pidl then wszName d
              else None
  | None => None
  end.

(** Modelled from the spec: _ILGetFileAttributes(pidl, NULL, 0) (pidl.c)
    is not in src/.  It is the raw attribute bitmask of a File or Folder
    identifier, 0 for any other. *)
Definition _ILGetFileAttributes (pidl : PIDL) : Z :=
  match _ILGetDataPointer pidl with
  | Some d => if _ILIsValue pidl || _ILIsFolder pidl then uFileAttribs d
              else 0
  | None => 0
  end.

(** Modelled from the spec: _ILGetExtension (pidl.c) is not in src/.  It
    is the extension substring of the name, the text after the last dot;
    FALSE when the identifier has no name or the name has no extension. *)
Definition _ILGetExtension (pidl : PIDL) : option string :=
  match _ILGetFileStructW pidl with
  | Some name =>
      match PathFindExtensionW name with
      | String _ ext => Some ext
      | EmptyString => None
      end
  | None => None
  end.

(** Modelled from the spec: ILFindLastID is not in src/.  It is the view
    of the last segment of a list: the list that starts at its last
    item. *)
Fixpoint ILFindLastID (pidl : PIDL) : PIDL :=
  match pidl with
  | [] => []
  | [i] => [i]
  | _ :: rest => ILFindLastID rest
  end.

(** Modelled from the spec: _ILCreateFromFindDataW (pidl.c) is not in
    src/.  It maps a directory-scan record (name, attributes, size,
    write time) to a Folder or File identifier depending on the
    directory bit. *)
Definition _ILCreateFromFindDataW (wfd : WIN32_FIND_DATAW) : ITEMID :=
  {| abID0 := if tst (dwFileAttributes wfd) FILE_ATTRIBUTE_DIRECTORY
              then PT_FOLDER else PT_VALUE;
     dwFileSize := nFileSizeLow wfd;
     uFileDate := ftLastWriteDate wfd;
     uFileTime := ftLastWriteTime wfd;
     uFileAttribs := Z.land (dwFileAttributes wfd) 0xFFFF;
     wszName := Some (cFileName wfd) |}.

End Pidl.
Import Pidl.

(** ** The directory enumerator: CFileSysEnum *)

Module Enum.

(* An open search handle: the records FindNextFileW has still to return,
   and the error GetLastError reports once they are used up. *)
Record FindHandle : Type := mkHandle {
  pending : list WIN32_FIND_DATAW;
  final_error : Z
}.

(** Modelled from the spec: CEnumIDListBase::AddToEnumList is not in
    src/; it appends the identifier to the result set and reports
    success. *)
Definition AddToEnumList (pidl : ITEMID) (enum : list ITEMID)
  : bool * list ITEMID :=
  (true, (enum ++ [pidl])%list).

(* the body of the do-loop up to the test of [succeeded] *)
Definition scan_entry (dwFlags : Z) (stffile : WIN32_FIND_DATAW)
           (succeeded : bool) (enum : list ITEMID) : bool * list ITEMID :=
  if negb (tst (dwFileAttributes stffile) FILE_ATTRIBUTE_HIDDEN)
     || tst dwFlags SHCONTF_INCLUDEHIDDEN
  then
    if tst (dwFileAttributes stffile) FILE_ATTRIBUTE_DIRECTORY
       && tst dwFlags SHCONTF_FOLDERS
       && negb (wcs_eq (cFileName stffile) ".")
       && negb (wcs_eq (cFileName stffile) "..")
    then
      let pidl := _ILCreateFromFindDataW stffile in
      let (ok, enum') := AddToEnumList pidl enum in
      (succeeded && ok, enum')
    else if negb (tst (dwFileAttributes stffile) FILE_ATTRIBUTE_DIRECTORY)
            && tst dwFlags SHCONTF_NONFOLDERS
    then
      let pidl := _ILCreateFromFindDataW stffile in
      let (ok, enum') := AddToEnumList pidl enum in
      (succeeded && ok, enum')
    else (succeeded, enum)
  else (succeeded, enum).

(* do { ... } while (succeeded && !findFinished), by recursion on the
   records the handle still holds *)
Fixpoint scan_loop (dwFlags : Z) (stffile : WIN32_FIND_DATAW)
         (rest : list WIN32_FIND_DATAW) (err : Z)
         (succeeded : bool) (enum : list ITEMID) : bool * list ITEMID :=
  let (succeeded, enum) := scan_entry dwFlags stffile succeeded enum in
  if succeeded then
    match rest with
    | next :: rest' => scan_loop dwFlags next rest' err succeeded enum
    | [] =>
        if err =? ERROR_NO_MORE_FILES
        then (succeeded, enum)           (* findFinished = TRUE *)
        else (false, enum)               (* succeeded = FALSE *)
    end
  else (succeeded, enum).

Section Initialize.

(* shlwapi and kernel32, not in src/ *)
Variable PathAddBackslashW : string -> string.
Variable FindFirstFileW : string -> option (WIN32_FIND_DATAW * FindHandle).

(* the search pattern: the path, a backslash, and "*.*" *)
Definition search_pattern (lpszPath : string) : string :=
  String.append (PathAddBackslashW lpszPath) "*.*".

(* HRESULT CFileSysEnum::Initialize(LPWSTR lpszPath, DWORD dwFlags):
   the returned value and the enumerator's list afterwards *)
Definition Initialize (lpszPath : option string) (dwFlags : Z)
  : Z * list ITEMID :=
  match lpszPath with
  | None => (BOOL_to_LONG false, [])
  | Some EmptyString => (BOOL_to_LONG false, [])
  | Some path =>
      match FindFirstFileW (search_pattern path) with
      | Some (stffile, hFile) =>
          let (succeeded, enum) :=
            scan_loop dwFlags stffile (pending hFile)
                      (final_error hFile) true [] in
          (BOOL_to_LONG succeeded, enum)
      | None => (BOOL_to_LONG true, [])
      end
  end.

(* the records one scan of the directory returns, in scan order *)
Definition scanned (lpszPath : option string) : list WIN32_FIND_DATAW :=
  match lpszPath with
  | None => []
  | Some EmptyString => []
  | Some path =>
      match FindFirstFileW (search_pattern path) with
      | Some (first, hFile) => first :: pending hFile
      | None => []
      end
  end.

End Initialize.

(** Modelled from the spec: the template ShellObjectCreatorInit
    (shellutils.h), through which CFSFolder::EnumObjects builds the
    enumerator, is not in src/.  EnumObjects delegates to Initialize and
    hands the enumerator out unless the HRESULT it got is a failure. *)
Definition EnumObjects
           (PathAddBackslashW : string -> string)
           (FindFirstFileW : string -> option (WIN32_FIND_DATAW * FindHandle))
           (sPathTarget : option string) (dwFlags : Z)
  : Z * option (list ITEMID) :=
  let (hResult, enum) :=
    Initialize PathAddBackslashW FindFirstFileW sPathTarget dwFlags in
  if FAILED hResult then (hResult, None) else (S_OK, Some enum).

(** The content-mask filter as the specification words it: skip a hidden
    entry unless the mask includes hidden ones; take a directory when the
    mask requests folders and it is neither "." nor ".."; take anything
    else when the mask requests non-folders. *)
Definition is_hidden (e : WIN32_FIND_DATAW) : bool :=
  tst (dwFileAttributes e) FILE_ATTRIBUTE_HIDDEN.
Definition is_directory (e : WIN32_FIND_DATAW) : bool :=
  tst (dwFileAttributes e) FILE_ATTRIBUTE_DIRECTORY.
Definition passes_mask (dwFlags : Z) (e : WIN32_FIND_DATAW) : bool :=
  if is_hidden e && negb (tst dwFlags SHCONTF_INCLUDEHIDDEN) then false
  else if is_directory e
       then tst dwFlags SHCONTF_FOLDERS
            && negb (String.eqb (cFileName e) ".")
            && negb (String.eqb (cFileName e) "..")
       else tst dwFlags SHCONTF_NONFOLDERS.

End Enum.

(** ** The attribute classifier: SHELL32_GetFSItemAttributes *)

Module Attr.

(* pEnumIL->Skip(1) == S_OK: the enumerator holds at least one item *)
Definition Skip1_is_S_OK (enum : list ITEMID) : bool :=
  match enum with
  | [] => false
  | _ :: _ => true
  end.

Section Classifier.

(* The folder [psf] the item lives in, through the two calls the probe
   makes on it: psf->BindToObject(pidl, 0, IID_IShellFolder) gives the
   child folder when it succeeds, and psf2->EnumObjects(0, SHCONTF_FOLDERS)
   the child's folder enumerator when it succeeds. *)
Variable SF : Type.
Variable BindToObject : PIDL -> option SF.
Variable EnumObjects_FOLDERS : SF -> option (list ITEMID).

(* HRESULT SHELL32_GetFSItemAttributes(psf, pidl, pdwAttributes): the
   returned value and the final *pdwAttributes *)
Definition SHELL32_GetFSItemAttributes (pidl : PIDL) (pdwAttributes : Z)
  : Z * Z :=
  if negb (_ILIsFolder pidl) && negb (_ILIsValue pidl) then
    (S_OK, Z.land pdwAttributes SFGAO_CANLINK)
  else
    let dwFileAttributes := _ILGetFileAttributes pidl in
    (* Set common attributes *)
    let dwShellAttributes :=
      Z.lor SFGAO_CANCOPY (Z.lor SFGAO_CANMOVE (Z.lor SFGAO_CANLINK
      (Z.lor SFGAO_CANRENAME (Z.lor SFGAO_CANDELETE (Z.lor SFGAO_HASPROPSHEET
      (Z.lor SFGAO_DROPTARGET SFGAO_FILESYSTEM)))))) in
    let dwShellAttributes :=
      if tst dwFileAttributes FILE_ATTRIBUTE_DIRECTORY then
        Z.lor dwShellAttributes
          (Z.lor SFGAO_FOLDER (Z.lor SFGAO_HASSUBFOLDER
          (Z.lor SFGAO_FILESYSANCESTOR (Z.lor SFGAO_STORAGEANCESTOR
           SFGAO_STORAGE))))
      else Z.lor dwShellAttributes SFGAO_STREAM in
    let dwShellAttributes :=
      if tst dwFileAttributes FILE_ATTRIBUTE_HIDDEN
      then Z.lor dwShellAttributes SFGAO_HIDDEN else dwShellAttributes in
    let dwShellAttributes :=
      if tst dwFileAttributes FILE_ATTRIBUTE_READONLY
      then Z.lor dwShellAttributes SFGAO_READONLY else dwShellAttributes in
    let dwShellAttributes :=
      if tst SFGAO_LINK pdwAttributes then
        match _ILGetExtension pidl with
        | Some ext =>
            if wcsicmp ext "lnk" =? 0
            then Z.lor dwShellAttributes SFGAO_LINK else dwShellAttributes
        | None => dwShellAttributes
        end
      else dwShellAttributes in
    let dwShellAttributes :=
      if tst SFGAO_HASSUBFOLDER pdwAttributes then
        match BindToObject pidl with
        | Some psf2 =>
            match EnumObjects_FOLDERS psf2 with
            | Some pEnumIL =>
                if Skip1_is_S_OK pEnumIL
                then Z.lor dwShellAttributes SFGAO_HASSUBFOLDER
                else dwShellAttributes
            | None => dwShellAttributes
            end
        | None => dwShellAttributes
        end
      else dwShellAttributes in
    (S_OK, dwShellAttributes).

End Classifier.

End Attr.

(** ** The folder object: CFSFolder *)

Record CFSFolder : Type := mkFolder {
  pidlRoot : option PIDL;
  sPathTarget : option string
}.

(* a path pointer read as text; the source copies sPathTarget unguarded,
   a NULL one reads as the empty string here *)
Definition path_text (p : option string) : string :=
  match p with
  | Some s => s
  | None => EmptyString
  end.

(* a NULL identifier list reads as the empty one *)
Definition pidl_or_null (p : option PIDL) : PIDL :=
  match p with
  | Some l => l
  | None => []
  end.

(** Modelled from the spec: _ILCreateFromPathW (pidl.c) is not in src/.
    It stats the path; when the path does not exist it fails with
    NotFound and leaves the output alone, otherwise it returns the
    identifier made from the file record. *)
Definition _ILCreateFromPathW (stat : string -> option WIN32_FIND_DATAW)
           (szPath : string) (ppidl : option PIDL) : Z * option PIDL :=
  match stat szPath with
  | None => (HRESULT_FROM_WIN32 ERROR_FILE_NOT_FOUND, ppidl)
  | Some stffile => (S_OK, Some [_ILCreateFromFindDataW stffile])
  end.

Module Parse.

(* the text up to the first backslash, and what follows that backslash
   (NULL when there is no backslash) *)
Fixpoint split_element (s : string) : string * option string :=
  match s with
  | EmptyString => (EmptyString, None)
  | String c s' =>
      if Ascii.eqb c backslash then (EmptyString, Some s')
      else let (e, next) := split_element s' in (String c e, next)
  end.

(** Modelled from the spec: GetNextElementW (shlfolder.cpp) is not in
    src/.  It splits the text on the path separator: the first segment is
    copied out (at most dwOut - 1 characters) and the remainder after the
    separator is returned, NULL when no separator follows. *)
Definition GetNextElementW (pszNext : string) (dwOut : nat)
  : string * option string :=
  match pszNext with
  | EmptyString => (EmptyString, None)
  | _ =>
      let (e, next) := split_element pszNext in
      (lstrcpynW e (Nat.min dwOut (wcslen e + 1)), next)
  end.

(* what the caller's IBindCtx answers when asked for its file-system bind
   data *)
Inductive BindCtx : Type :=
| NoBindData             (* GetObjectParam fails *)
| NotFileSysBindData     (* QueryInterface(IFileSystemBindData) fails *)
| NoFindData             (* GetFindData fails *)
| FindData (wfd : WIN32_FIND_DATAW).

(* lstrcpynW(&wfd.cFileName[0], path, MAX_PATH) *)
Definition copy_cFileName (wfd : WIN32_FIND_DATAW) (path : string)
  : WIN32_FIND_DATAW :=
  {| dwFileAttributes := dwFileAttributes wfd;
     ftLastWriteDate := ftLastWriteDate wfd;
     ftLastWriteTime := ftLastWriteTime wfd;
     nFileSizeLow := nFileSizeLow wfd;
     cFileName := lstrcpynW path MAX_PATH |}.

(* LPITEMIDLIST SHELL32_CreatePidlFromBindCtx(IBindCtx *pbc, LPCWSTR path) *)
Definition SHELL32_CreatePidlFromBindCtx (pbc : option BindCtx)
           (path : string) : option PIDL :=
  match pbc with
  | None => None
  | Some NoBindData => None
  | Some NotFileSysBindData => None
  | Some NoFindData => None
  | Some (FindData wfd) =>
      let wfd := copy_cFileName wfd path in
      Some [_ILCreateFromFindDataW wfd]
  end.

(* pidlTemp->mkid.abID[0] = v *)
Definition set_abID0 (pidl : PIDL) (v : Z) : PIDL :=
  match pidl with
  | [] => []
  | i :: rest =>
      {| abID0 := v;
         dwFileSize := dwFileSize i;
         uFileDate := uFileDate i;
         uFileTime := uFileTime i;
         uFileAttribs := uFileAttribs i;
         wszName := wszName i |} :: rest
  end.

(* the out-parameters and the returned value *)
Record Result : Type := mkResult {
  r_hr : Z;
  r_ppidl : option (option PIDL);
  r_pchEaten : option Z;
  r_pdwAttributes : option Z
}.

Section ParseDisplayName.

Variable PathAddBackslashW : string -> string.
(* the file system, as _ILCreateFromPathW sees it *)
Variable stat : string -> option WIN32_FIND_DATAW.
(* SHELL32_ParseNextElement(this, hwndOwner, pbc, &pidlTemp, szNext,
   pchEaten, pdwAttributes) of shlfolder.cpp: the returned value and the
   final pidlTemp, *pchEaten and *pdwAttributes *)
Variable SHELL32_ParseNextElement :
  CFSFolder -> option BindCtx -> option PIDL -> string ->
  option Z -> option Z -> Z * option PIDL * option Z * option Z.
(* this->BindToObject and the child's EnumObjects, as the classifier's
   probe calls them *)
Variable SF : Type.
Variable BindToObject : CFSFolder -> PIDL -> option SF.
Variable EnumObjects_FOLDERS : SF -> option (list ITEMID).


Definition ParseDisplayName (this : CFSFolder) (pbc : option BindCtx)
           (lpszDisplayName : option string)
           (pchEaten : option Z) (ppidl : option (option PIDL))
           (pdwAttributes : option Z) : Result :=
  match ppidl with
  | None => mkResult E_INVALIDARG None pchEaten pdwAttributes
  | Some _ =>
      match lpszDisplayName with
      | None => mkResult E_INVALIDARG (Some None) pchEaten pdwAttributes
      | Some text =>
          let pchEaten := match pchEaten with
                          | Some _ => Some 0
                          | None => None
                          end in
          match text with
          | EmptyString =>
              (* hr is still E_INVALIDARG *)
              mkResult E_INVALIDARG (Some None) pchEaten pdwAttributes
          | _ =>
              (* get the next element *)
              let (szElement, szNext) := GetNextElementW text MAX_PATH in
              let (hr, pidlTemp) :=
                match SHELL32_CreatePidlFromBindCtx pbc szElement with
                | Some pidlTemp =>
                    (S_OK,
                     Some (match szNext with
                           | Some _ => set_abID0 pidlTemp PT_FOLDER
                           | None => pidlTemp
                           end))
                | None =>
                    (* build the full pathname to the element *)
                    let szPath :=
                      lstrcpynW (path_text (sPathTarget this))
                                (MAX_PATH - 1) in
                    let szPath := PathAddBackslashW szPath in
                    let len := wcslen szPath in
                    let szPath :=
                      lstrcpynW_at_end szPath szElement (MAX_PATH - len) in
                    (* get the pidl *)
                    _ILCreateFromPathW stat szPath None
                end in
              let '(hr, pidlTemp, pchEaten, pdwAttributes) :=
                if SUCCEEDED hr then
                  match szNext with
                  | Some (String c rest) =>
                      (* try to analyse the next element *)
                      SHELL32_ParseNextElement this pbc pidlTemp
                        (String c rest) pchEaten pdwAttributes
                  | _ =>
                      (* it's the last element *)
                      match pdwAttributes with
                      | Some a =>
                          if negb (a =? 0) then
                            let (hr', a') :=
                              Attr.SHELL32_GetFSItemAttributes
                                SF (BindToObject this) EnumObjects_FOLDERS
                                (pidl_or_null pidlTemp) a in
                            (hr', pidlTemp, pchEaten, Some a')
                          else (hr, pidlTemp, pchEaten, pdwAttributes)
                      | None => (hr, pidlTemp, pchEaten, pdwAttributes)
                      end
                  end
                else (hr, pidlTemp, pchEaten, pdwAttributes) in
              if SUCCEEDED hr
              then mkResult hr (Some pidlTemp) pchEaten pdwAttributes
              else mkResult hr (Some None) pchEaten pdwAttributes
          end
      end
  end.

End ParseDisplayName.

End Parse.

Module Compare.

Definition GENERICSHELLVIEWCOLUMNS : Z := 6.

Definition LOWORD (l : Z) : Z := Z.land l 0xFFFF.

Definition S_LESSTHAN : Z := 0xFFFF.
Definition S_EQUAL : Z := S_OK.
Definition S_GREATERTHAN : Z := S_FALSE.

(** Modelled from the spec: the macro MAKE_COMPARE_HRESULT (shellutils.h)
    is not in src/.  The comparison result is one of negative, zero and
    positive: the macro keeps the sign of its int argument, as the success
    codes S_LESSTHAN (code 0xFFFF, -1 as a short), S_EQUAL and
    S_GREATERTHAN. *)
Definition MAKE_COMPARE_HRESULT (x : Z) : Z :=
  if x >? 0 then S_GREATERTHAN
  else if x <? 0 then S_LESSTHAN
  else S_EQUAL.

(* how a caller reads a comparison result: (short)HRESULT_CODE(hr) *)
Definition compare_result (hr : Z) : Z :=
  let code := Z.land hr 0xFFFF in
  if code <? 0x8000 then code else code - 0x10000.

(* the u.file block of the first item; all zero for a NULL data pointer,
   which CompareIDs never reads *)
Definition file_of (pidl : PIDL) : ITEMID :=
  match _ILGetDataPointer pidl with
  | Some d => d
  | None => mkITEMID 0 0 0 0 0 None
  end.

Section CompareIDs.

(* the generic comparators of shlfolder.cpp *)
Variable SHELL32_CompareDetails : Z -> PIDL -> PIDL -> Z.
Variable SHELL32_CompareChildren : Z -> PIDL -> PIDL -> Z.

Definition CompareIDs (lParam : Z) (pidl1 pidl2 : PIDL) : Z :=
  let pData1 := file_of pidl1 in
  let pData2 := file_of pidl2 in
  let bIsFolder1 := _ILIsFolder pidl1 in
  let bIsFolder2 := _ILIsFolder pidl2 in
  match _ILGetFileStructW pidl1, _ILGetFileStructW pidl2 with
  | Some wszName1, Some wszName2 =>
      if LOWORD lParam >=? GENERICSHELLVIEWCOLUMNS then E_INVALIDARG
      else if negb (Bool.eqb bIsFolder1 bIsFolder2) then
        (* the Folder gets sorted first *)
        MAKE_COMPARE_HRESULT (if bIsFolder1 then -1 else 1)
      else
        let finish (result : Z) : Z :=
          if result =? 0
          then SHELL32_CompareChildren lParam pidl1 pidl2
          else MAKE_COMPARE_HRESULT result in
        match LOWORD lParam with
        | 0 => (* Name *)
            finish (wcsicmp wszName1 wszName2)
        | 1 => (* Comments *)
            finish 0
        | 2 => (* Type *)
            let pExtension1 := PathFindExtensionW wszName1 in
            let pExtension2 := PathFindExtensionW wszName2 in
            finish (wcsicmp pExtension1 pExtension2)
        | 3 => (* Size: a DWORD difference stored in an int *)
            finish (to_int (dwFileSize pData1 - dwFileSize pData2))
        | 4 => (* Modified *)
            let result := uFileDate pData1 - uFileDate pData2 in
            let result :=
              if result =? 0
              then uFileTime pData1 - uFileTime pData2 else result in
            finish result
        | 5 => (* Attributes *)
            SHELL32_CompareDetails lParam pidl1 pidl2
        | _ => E_INVALIDARG (* not reached: LOWORD(lParam) < 6 here *)
        end
  | _, _ => E_INVALIDARG
  end.

End CompareIDs.

End Compare.

Module Attributes.

Section GetAttributesOf.

Variable SF : Type.
Variable BindToObject : CFSFolder -> PIDL -> option SF.
Variable EnumObjects_FOLDERS : SF -> option (list ITEMID).
(* SHBindToParent(pidlRoot, IID_IShellFolder, &psfParent, NULL): the
   returned value; and psfParent->GetAttributesOf(1, &rpidl, rgfInOut) of
   the parent it binds to: the returned value and the final *rgfInOut *)
Variable SHBindToParent : option PIDL -> Z.
Variable Parent_GetAttributesOf : option PIDL -> PIDL -> Z -> Z * Z.

Definition GetFSItemAttributes (this : CFSFolder) (pidl : PIDL) (rgf : Z)
  : Z :=
  snd (Attr.SHELL32_GetFSItemAttributes
         SF (BindToObject this) EnumObjects_FOLDERS pidl rgf).

(* while (cidl > 0 && *apidl) { ...; apidl++; cidl--; }
   An array shorter than cidl ends the loop where the source would read
   past it. *)
Fixpoint items_loop (this : CFSFolder) (cidl : nat)
         (apidl : list (option PIDL)) (rgf : Z) : Z :=
  match cidl, apidl with
  | S cidl', Some pidl :: apidl' =>
      let rgf :=
        if _ILIsFolder pidl || _ILIsValue pidl
        then GetFSItemAttributes this pidl rgf
        else rgf in
      items_loop this cidl' apidl' rgf
  | _, _ => rgf
  end.

(* HRESULT CFSFolder::GetAttributesOf(cidl, apidl, rgfInOut): the returned
   value and the final *rgfInOut *)
Definition GetAttributesOf (this : CFSFolder) (cidl : nat)
           (apidl : option (list (option PIDL))) (rgfInOut : option Z)
  : Z * option Z :=
  match rgfInOut with
  | None => (E_INVALIDARG, None)
  | Some rgf =>
      if negb (Nat.eqb cidl 0) && match apidl with None => true | _ => false end
      then (E_INVALIDARG, Some rgf)
      else
        let rgf := if rgf =? 0 then dw_not 0 else rgf in
        let (hr, rgf) :=
          if Nat.eqb cidl 0 then
            let rpidl := ILFindLastID (pidl_or_null (pidlRoot this)) in
            if _ILIsFolder rpidl || _ILIsValue rpidl then
              (S_OK, GetFSItemAttributes this rpidl rgf)
            else if _ILIsDrive rpidl then
              let hr := SHBindToParent (pidlRoot this) in
              if SUCCEEDED hr
              then Parent_GetAttributesOf (pidlRoot this) rpidl rgf
              else (hr, rgf)
            else (S_OK, rgf)
          else
            (S_OK,
             items_loop this cidl
               (match apidl with Some l => l | None => [] end) rgf) in
        (* make sure SFGAO_VALIDATE is cleared *)
        (hr, Some (Z.land rgf (dw_not SFGAO_VALIDATE)))
  end.

End GetAttributesOf.

End Attributes.

Module Rename.

Section HideExtension.

(* The registry, through the queries SHELL_FS_HideExtension makes:
   the DWORD HideFileExt under HKCU\...\Explorer\Advanced when the key
   opens and the value reads; the class name registered for an extension
   under HKCR; and whether that class's key opens and holds a NeverShowExt
   value. *)
Variable reg_HideFileExt : option Z.
Variable reg_ClassOf : string -> option string.
Variable reg_NeverShowExt : string -> bool.

(* BOOL SHELL_FS_HideExtension(LPWSTR szPath) *)
Definition SHELL_FS_HideExtension (szPath : string) : bool :=
  let doHide : Z :=
    match reg_HideFileExt with
    | Some dwData => dwData
    | None => 0          (* The default value is FALSE *)
    end in
  let doHide :=
    if doHide =? 0 then
      let ext := PathFindExtensionW szPath in
      match ext with
      | EmptyString => doHide
      | _ =>
          match reg_ClassOf ext with
          | Some classname =>
              if reg_NeverShowExt classname then 1 else doHide
          | None => doHide
          end
      end
    else doHide in
  negb (doHide =? 0).

End HideExtension.

(* a rename notification: SHChangeNotify(event, SHCNF_PATHW, old, new) *)
Record Notification : Type := mkNotify {
  wEventId : Z;
  old_path : string;
  new_path : string
}.

(* the returned value, the final *pPidlOut, the file system afterwards and
   the notifications sent *)
Record Outcome (FS : Type) : Type := mkOutcome {
  o_hr : Z;
  o_pPidlOut : option (option PIDL);
  o_fs : FS;
  o_notified : list Notification
}.
Arguments mkOutcome {FS}.
Arguments o_hr {FS}.
Arguments o_pPidlOut {FS}.
Arguments o_fs {FS}.
Arguments o_notified {FS}.

Section SetNameOf.

Variable reg_HideFileExt : option Z.
Variable reg_ClassOf : string -> option string.
Variable reg_NeverShowExt : string -> bool.
(* PathCombineW(out, dir, file) of shlwapi *)
Variable PathCombineW : option string -> string -> string.
(* the file system: looking a path up, and MoveFileW(src, dest), which
   reports success and leaves a new file system *)
Variable FS : Type.
Variable stat : FS -> string -> option WIN32_FIND_DATAW.
Variable MoveFileW : FS -> string -> string -> bool * FS.

Definition HideExtension : string -> bool :=
  SHELL_FS_HideExtension reg_HideFileExt reg_ClassOf reg_NeverShowExt.

(* build source path *)
Definition source_path (this : CFSFolder) (wszName : string) : string :=
  PathCombineW (sPathTarget this) wszName.

(* build destination path, before the extension is looked at *)
Definition plain_destination (this : CFSFolder) (lpName : string)
           (dwFlags : Z) : string :=
  if (dwFlags =? SHGDN_NORMAL) || tst dwFlags SHGDN_INFOLDER
  then PathCombineW (sPathTarget this) lpName
  else lstrcpynW lpName MAX_PATH.

(* the destination path the rename uses *)
Definition destination_path (this : CFSFolder) (wszName lpName : string)
           (dwFlags : Z) : string :=
  let szSrc := source_path this wszName in
  let szDest := plain_destination this lpName dwFlags in
  if negb (tst dwFlags SHGDN_FORPARSING) && HideExtension szSrc then
    let ext := PathFindExtensionW szSrc in
    match ext with
    | EmptyString => szDest
    | _ =>
        let len := wcslen szDest in
        lstrcpynW_at_end szDest ext (MAX_PATH - len)
    end
  else szDest.

(* pPidlOut ? _ILCreateFromPathW(szDest, pPidlOut) : S_OK *)
Definition create_out (fs : FS) (szDest : string)
           (pPidlOut : option (option PIDL)) : Z * option (option PIDL) :=
  match pPidlOut with
  | Some cell =>
      let (hr, cell') := _ILCreateFromPathW (stat fs) szDest cell in
      (hr, Some cell')
  | None => (S_OK, None)
  end.

Definition SetNameOf (this : CFSFolder) (fs : FS) (pidl : PIDL)
           (lpName : string) (dwFlags : Z)
           (pPidlOut : option (option PIDL)) : Outcome FS :=
  let bIsFolder := _ILIsFolder (ILFindLastID pidl) in
  match _ILGetFileStructW pidl with
  | None => mkOutcome E_INVALIDARG pPidlOut fs []
  | Some wszName =>
      let szSrc := source_path this wszName in
      let szDest := destination_path this wszName lpName dwFlags in
      if wcs_eq szSrc szDest then
        (* src and destination is the same *)
        let (hr, out) := create_out fs szDest pPidlOut in
        mkOutcome hr out fs []
      else
        let (moved, fs') := MoveFileW fs szSrc szDest in
        if moved then
          let (hr, out) := create_out fs' szDest pPidlOut in
          mkOutcome hr out fs'
            [mkNotify (if bIsFolder then SHCNE_RENAMEFOLDER
                       else SHCNE_RENAMEITEM) szSrc szDest]
        else mkOutcome E_FAIL pPidlOut fs' []
  end.

End SetNameOf.

End Rename.

(** ** Display names: CFSFolder::GetDisplayNameOf *)

Module Display.

(** Modelled from the spec: the macros GET_SHGDN_FOR and
    GET_SHGDN_RELATION are not in src/.  They split the format flags into
    the "for" part (parsing, editing, address bar) and the relation part
    (normal, in-folder). *)
Definition GET_SHGDN_FOR (dwFlags : Z) : Z := Z.land dwFlags 0xFF00.
Definition GET_SHGDN_RELATION (dwFlags : Z) : Z := Z.land dwFlags 0xFF.

(** Modelled from the spec: PathRemoveExtensionW (shlwapi) is not in
    src/.  It strips the extension: the text is cut where
    PathFindExtensionW finds the extension. *)
Definition PathRemoveExtensionW (s : string) : string :=
  String.substring 0 (String.length s - String.length (PathFindExtensionW s))
                   s.

(** Modelled from the spec: _ILIsPidlSimple (pidl.c) is not in src/.  A
    list is simple when it is NULL, empty, or holds exactly one
    identifier. *)
Definition _ILIsPidlSimple (pidl : option PIDL) : bool :=
  match pidl with
  | Some (_ :: _ :: _) => false
  | _ => true
  end.

(* szPath[0] != '.' *)
Definition first_is_not_dot (szPath : string) : bool :=
  match szPath with
  | String c _ => negb (Ascii.eqb c dot_char)
  | EmptyString => true
  end.

Section GetDisplayNameOf.

Variable reg_HideFileExt : option Z.
Variable reg_ClassOf : string -> option string.
Variable reg_NeverShowExt : string -> bool.
Variable PathAddBackslashW : string -> string.
(* SHELL32_GetDisplayNameOfChild(this, pidl, dwFlags, strRet) of
   shlfolder.cpp: the returned value and the text left in strRet *)
Variable SHELL32_GetDisplayNameOfChild :
  CFSFolder -> PIDL -> Z -> Z * option string.
(* what _ILSimpleGetTextW leaves in the buffer for an identifier that has
   no wide-name block (pidl.c, not in src/) *)
Variable other_text : PIDL -> string.

(* void SHELL_FS_ProcessDisplayFilename(LPWSTR szPath, DWORD dwFlags) *)
Definition SHELL_FS_ProcessDisplayFilename (szPath : string) (dwFlags : Z)
  : string :=
  if negb (tst dwFlags SHGDN_FORPARSING)
     && (tst dwFlags SHGDN_INFOLDER || (dwFlags =? SHGDN_NORMAL))
  then
    if Rename.SHELL_FS_HideExtension reg_HideFileExt reg_ClassOf
         reg_NeverShowExt szPath
       && first_is_not_dot szPath
    then PathRemoveExtensionW szPath
    else szPath
  else szPath.

(* _ILSimpleGetTextW(pidl, szOut, uOutSize) *)
Definition _ILSimpleGetTextW (pidl : PIDL) (uOutSize : nat) : string :=
  match _ILGetFileStructW pidl with
  | Some wszName => lstrcpynW wszName uOutSize
  | None => other_text pidl
  end.

(* HRESULT CFSFolder::GetDisplayNameOf(pidl, dwFlags, strRet): strRet is
   [true] for a non-NULL pointer; the returned value and the text left in
   strRet *)
Definition GetDisplayNameOf (this : CFSFolder) (pidl : option PIDL)
           (dwFlags : Z) (strRet : bool) : Z * option string :=
  if negb strRet then (E_INVALIDARG, None)
  else if negb (_ILIsPidlSimple pidl) then
    (* If it is a complex pidl, let the child handle it *)
    SHELL32_GetDisplayNameOfChild this (pidl_or_null pidl) dwFlags
  else
    let for_parsing_full :=
      tst (GET_SHGDN_FOR dwFlags) SHGDN_FORPARSING
      && negb (GET_SHGDN_RELATION dwFlags =? SHGDN_INFOLDER) in
    match pidl with
    | Some [] =>
        (* If it is an empty pidl return only the path of the folder *)
        match sPathTarget this with
        | Some path =>
            if for_parsing_full then (S_OK, Some path)
            else (E_INVALIDARG, None)
        | None => (E_INVALIDARG, None)
        end
    | _ =>
        let pszPath :=
          match sPathTarget this with
          | Some path =>
              if for_parsing_full
              then PathAddBackslashW (lstrcpynW path MAX_PATH)
              else EmptyString
          | None => EmptyString
          end in
        let len := wcslen pszPath in
        let pszPath :=
          String.append pszPath
            (_ILSimpleGetTextW (pidl_or_null pidl) (MAX_PATH + 1 - len)) in
        let pszPath :=
          if negb (_ILIsFolder (pidl_or_null pidl))
          then SHELL_FS_ProcessDisplayFilename pszPath dwFlags
          else pszPath in
        (S_OK, Some pszPath)
    end.

End GetDisplayNameOf.

End Display.

(** ** The folder's state: Initialize, InitializeEx, GetCurFolder *)

(* the members of PERSIST_FOLDER_TARGET_INFO *)
Record PERSIST_FOLDER_TARGET_INFO : Type := mkTargetInfo {
  pidlTargetFolder : option PIDL;
  szTargetParsingName : string;
  szNetworkProvider : string;
  dwAttributes : Z;
  csidl : Z
}.

Module Persist.

Definition E_POINTER : Z := 0x80004003 - 0x100000000.
Definition CSIDL_FLAG_CREATE : Z := 0x8000.

(** Modelled from the spec: ILClone is not in src/.  A clone is list-equal
    to the list cloned; the clone of NULL is NULL. *)
Definition ILClone (pidl : option PIDL) : option PIDL := pidl.

Section Initialize.

(* SHGetPathFromIDListW(pidl, wszTemp): the path when it returns TRUE *)
Variable SHGetPathFromIDListW : option PIDL -> option string.
(* SHGetSpecialFolderPathW(0, wszTemp, csidl, fCreate): the path when it
   returns TRUE *)
Variable SHGetSpecialFolderPathW : Z -> bool -> option string.

(* HRESULT CFSFolder::Initialize(LPCITEMIDLIST pidl): the returned value
   and the folder afterwards *)
Definition Initialize (this : CFSFolder) (pidl : option PIDL)
  : Z * CFSFolder :=
  let pidlRoot := ILClone pidl in            (* set my pidl *)
  let sPathTarget : option string := None in
  (* set my path *)
  match SHGetPathFromIDListW pidl with
  | Some wszTemp => (S_OK, mkFolder pidlRoot (Some wszTemp))
  | None => (S_OK, mkFolder pidlRoot sPathTarget)
  end.

(* HRESULT CFSFolder::GetCurFolder(LPITEMIDLIST *pidl): the returned value
   and the final *pidl *)
Definition GetCurFolder (this : CFSFolder) (pidl : option (option PIDL))
  : Z * option (option PIDL) :=
  match pidl with
  | None => (E_POINTER, None)
  | Some _ => (S_OK, Some (ILClone (pidlRoot this)))
  end.

(* HRESULT CFSFolder::InitializeEx(pbc, pidlRootx, ppfti): the returned
   value and the folder afterwards *)
Definition InitializeEx (this : CFSFolder) (pidlRootx : option PIDL)
           (ppfti : option PERSIST_FOLDER_TARGET_INFO) : Z * CFSFolder :=
  (* free the old *)
  let sPathTarget : option string := None in
  (* Root path and pidl *)
  let pidlRoot := ILClone pidlRootx in
  (* the target folder is specified in csidl OR pidlTargetFolder OR
     szTargetParsingName *)
  let sPathTarget :=
    match ppfti with
    | Some pfti =>
        if negb (csidl pfti =? -1) then
          match SHGetSpecialFolderPathW (csidl pfti)
                  (tst (csidl pfti) CSIDL_FLAG_CREATE) with
          | Some wszTemp => Some wszTemp
          | None => sPathTarget
          end
        else
          match szTargetParsingName pfti with
          | String _ _ => Some (szTargetParsingName pfti)
          | EmptyString =>
              match pidlTargetFolder pfti with
              | Some target =>
                  match SHGetPathFromIDListW (Some target) with
                  | Some wszTemp => Some wszTemp
                  | None => sPathTarget
                  end
              | None => sPathTarget
              end
          end
    | None => sPathTarget
    end in
  (match sPathTarget with Some _ => S_OK | None => E_FAIL end,
   mkFolder pidlRoot sPathTarget).

End Initialize.

End Persist.

(** ** File types: OpenKeyFromFileType, GetCLSIDForFileType *)

Module FileType.

Definition E_ACCESSDENIED : Z := 0x80070005 - 0x100000000.

Section Registry.

(* The registry, through the calls made here: RegOpenKeyExW on a subkey
   of HKEY_CLASSES_ROOT (the key when it opens), RegGetValueW for the
   default string of a subkey of HKEY_CLASSES_ROOT and of an open key
   (the string when it reads), and whether the list of blocked shell
   extensions under HKEY_LOCAL_MACHINE has a value of the given name.
   CLSIDFromString(text, pclsid) gives its result and the content of
   *pclsid afterwards, given the content before. *)
Variable HKEY : Type.
Variable RegOpenKey_HKCR : string -> option HKEY.
Variable RegGetValue_HKCR : string -> option string.
Variable RegGetValue_key : HKEY -> option string.
Variable Blocked : string -> bool.
Variable CLSID : Type.
Variable CLSIDFromString : string -> CLSID -> Z * CLSID.

(* wsprintf(FullName, L"%s\\%s", a, b); the buffer's size is not
   modelled *)
Definition key_path (a b : string) : string :=
  String.append a (String.append "\" b).

(* HKEY OpenKeyFromFileType(PCUIDLIST_RELATIVE pidl, LPCWSTR KeyName) *)
Definition OpenKeyFromFileType (pidl : PIDL) (KeyName : string)
  : option HKEY :=
  if negb (_ILIsValue pidl) then None
  else
    match _ILGetFileStructW pidl with
    | None => None
    | Some wszName =>
        let pExtension := PathFindExtensionW wszName in
        match pExtension with
        | EmptyString => None
        | _ =>
            match RegOpenKey_HKCR (key_path pExtension KeyName) with
            | Some hkey => Some hkey
            | None =>
                match RegGetValue_HKCR pExtension with
                | None => None
                | Some FullName =>
                    RegOpenKey_HKCR (key_path FullName KeyName)
                end
            end
        end
    end.

(* HRESULT GetCLSIDForFileType(pidl, KeyName, pclsid): the returned value
   and the final *pclsid *)
Definition GetCLSIDForFileType (pidl : PIDL) (KeyName : string)
           (pclsid : CLSID) : Z * CLSID :=
  match OpenKeyFromFileType pidl KeyName with
  | None => (S_FALSE, pclsid)
  | Some hkeyProgId =>
      match RegGetValue_key hkeyProgId with
      | None => (S_FALSE, pclsid)
      | Some wszCLSIDValue =>
          if Blocked wszCLSIDValue then (E_ACCESSDENIED, pclsid)
          else
            let (hres, pclsid) := CLSIDFromString wszCLSIDValue pclsid in
            if FAILED hres then (hres, pclsid) else (S_OK, pclsid)
      end
  end.

End Registry.

End FileType.

(** ** Binding: CFSFolder::BindToObject *)

Module Bind.

(** Modelled from the spec: StringCchCopyW and StringCchCatW (strsafe.h)
    are not in src/.  They copy and append within a buffer of cch
    characters, cutting the text at cch - 1. *)
Definition StringCchCopyW (cch : nat) (src : string) : string :=
  String.substring 0 (cch - 1) src.
Definition StringCchCatW (dest : string) (cch : nat) (src : string)
  : string :=
  String.substring 0 (cch - 1) (String.append dest src).

Section BindToObject.

Variable HKEY : Type.
Variable RegOpenKey_HKCR : string -> option HKEY.
Variable RegGetValue_HKCR : string -> option string.
Variable RegGetValue_key : HKEY -> option string.
Variable Blocked : string -> bool.
Variable CLSID : Type.
Variable CLSIDFromString : string -> CLSID -> Z * CLSID.
Variable CLSID_ShellFSFolder : CLSID.
(* what the local clsidFolder holds before anything is stored in it *)
Variable unset_CLSID : CLSID.
(* GetPrivateProfileStringW(".ShellClassInfo", "CLSID", "", ..., file):
   the value when the call returns a non-zero length *)
Variable ini_CLSID : string -> option string.
Variable PathCombineW : option string -> string -> string.
(* SHELL32_BindToSF(pidlRoot, &pfti, pidl, &clsid, riid, ppvOut) of
   shlfolder.cpp: the returned value and the final *ppvOut *)
Variable IID : Type.
Variable Obj : Type.
Variable SHELL32_BindToSF :
  option PIDL -> PERSIST_FOLDER_TARGET_INFO -> PIDL -> CLSID -> IID ->
  Z * option Obj.

(* void SHELL32_GetCLSIDForDirectory(LPCWSTR pwszDir, CLSID *pclsidFolder):
   the final *pclsidFolder *)
Definition SHELL32_GetCLSIDForDirectory (pwszDir : string)
           (pclsidFolder : CLSID) : CLSID :=
  let wszDesktopIni := StringCchCopyW MAX_PATH pwszDir in
  let wszDesktopIni := StringCchCatW wszDesktopIni MAX_PATH "\desktop.ini" in
  match ini_CLSID wszDesktopIni with
  | Some wszCLSIDValue => snd (CLSIDFromString wszCLSIDValue pclsidFolder)
  | None => pclsidFolder
  end.

(* HRESULT CFSFolder::BindToObject(pidl, pbc, riid, ppvOut): the returned
   value and the final *ppvOut *)
Definition BindToObject (this : CFSFolder) (pidl : option PIDL) (riid : IID)
           (ppvOut : option (option Obj)) : Z * option (option Obj) :=
  match pidlRoot this, ppvOut, pidl with
  | Some _, Some _, Some (item :: rest) =>
      let pidl := item :: rest in
      (* Get the pidl data *)
      match _ILGetFileStructW pidl with
      | None => (E_INVALIDARG, ppvOut)
      | Some wszName =>
          (* Create the target folder info *)
          let pfti :=
            {| pidlTargetFolder := None;
               szTargetParsingName :=
                 PathCombineW (sPathTarget this) wszName;
               szNetworkProvider := EmptyString;
               dwAttributes := DWORD_ALL;
               csidl := -1 |} in
          let bind (clsidFolder : CLSID) : Z * option (option Obj) :=
            let (hr, obj) :=
              SHELL32_BindToSF (pidlRoot this) pfti pidl clsidFolder riid in
            if FAILED hr then (hr, Some obj) else (S_OK, Some obj) in
          (* Get the CLSID to bind to *)
          if _ILIsFolder pidl then
            let clsidFolder := CLSID_ShellFSFolder in
            let clsidFolder :=
              if negb (Z.land (uFileAttribs item)
                              (Z.lor FILE_ATTRIBUTE_SYSTEM
                                     FILE_ATTRIBUTE_READONLY) =? 0)
              then SHELL32_GetCLSIDForDirectory
                     (szTargetParsingName pfti) clsidFolder
              else clsidFolder in
            bind clsidFolder
          else
            let (hr, clsidFolder) :=
              FileType.GetCLSIDForFileType HKEY RegOpenKey_HKCR
                RegGetValue_HKCR RegGetValue_key Blocked CLSID
                CLSIDFromString pidl "CLSID" unset_CLSID in
            if hr =? S_FALSE then
              (HRESULT_FROM_WIN32 ERROR_FILE_NOT_FOUND, Some None)
            else if negb (hr =? S_OK) then (hr, Some None)
            else bind clsidFolder
      end
  | _, _, _ => (E_INVALIDARG, ppvOut)
  end.

End BindToObject.

End Bind.

(** ** Setup library: device utilities (pOpenDevice, pNtEnumDevicesPnP) *)

Module DevUtils.

(** Modelled from the spec: the NT and configuration-manager constants
    (ntstatus.h, winnt.h, cfgmgr32.h) are not in src/; they are the public
    values of those headers. *)
Definition STATUS_SUCCESS : Z := 0.
Definition STATUS_UNSUCCESSFUL : Z := 0xC0000001 - 0x100000000.
Definition NT_SUCCESS (Status : Z) : bool := 0 <=? Status.
Definition CR_SUCCESS : Z := 0.
Definition CR_OUT_OF_MEMORY : Z := 0x2.
Definition CR_BUFFER_SMALL : Z := 0x1A.
Definition SYNCHRONIZE : Z := 0x100000.
Definition FILE_READ_DATA : Z := 0x1.
Definition FILE_READ_ATTRIBUTES : Z := 0x80.
Definition FILE_SHARE_VALID_FLAGS : Z := 0x7.
Definition OBJ_CASE_INSENSITIVE : Z := 0x40.
Definition FILE_SYNCHRONOUS_IO_NONALERT : Z := 0x20.

(* '?' *)
Definition question_mark : ascii := Ascii.ascii_of_nat 63.

(* Normalize the interface path in case it is of Win32-style: a path
   longer than four characters that starts with \\?\ gets its second
   character replaced by '?', in place *)
Definition normalize_interface (iface : string) : string :=
  match iface with
  | String c0 (String c1 (String c2 (String c3 (String c4 rest)))) =>
      if Ascii.eqb c0 backslash && Ascii.eqb c1 backslash
         && Ascii.eqb c2 question_mark && Ascii.eqb c3 backslash
      then String c0 (String question_mark
                        (String c2 (String c3 (String c4 rest))))
      else iface
  | _ => iface
  end.

(** Modelled from the spec: RtlInitUnicodeString (ntdll) is not in src/.
    A counted string holds at most 32766 characters of the text. *)
Definition RtlInitUnicodeString (SourceString : string) : string :=
  String.substring 0 (Z.to_nat 32766) SourceString.

(* what the enumeration does that is visible from outside *)
Inductive Event (HANDLE : Type) : Type :=
| Called_back (iface : string) (DeviceHandle : HANDLE)
| Closed (DeviceHandle : HANDLE).
Arguments Called_back {HANDLE}.
Arguments Closed {HANDLE}.

Section Devices.

Variable HANDLE : Type.
(* NtOpenFile(&h, DesiredAccess, &ObjectAttributes, &iosb, ShareAccess,
   OpenOptions) on the object name and attributes given: the status and
   the handle *)
Variable NtOpenFile : string -> Z -> Z -> Z -> Z -> Z * HANDLE.
(* the configuration manager at the n-th round of the retry loop:
   CM_Get_Device_Interface_List_SizeW gives its result and the length,
   CM_Get_Device_Interface_ListW, given the buffer length, its result and
   the interface paths it stored, in order *)
Variable CM_Get_Device_Interface_List_SizeW : nat -> Z * Z.
Variable CM_Get_Device_Interface_ListW : nat -> Z -> Z * list string.

(* NTSTATUS pOpenDeviceEx(DevicePath, DeviceHandle, DesiredAccess,
   ShareAccess) *)
Definition pOpenDeviceEx (DevicePath : string) (DesiredAccess : Z)
           (ShareAccess : Z) : Z * HANDLE :=
  NtOpenFile (RtlInitUnicodeString DevicePath) OBJ_CASE_INSENSITIVE
             (Z.lor DesiredAccess SYNCHRONIZE) ShareAccess
             FILE_SYNCHRONOUS_IO_NONALERT.

(* NTSTATUS pOpenDevice(DevicePath, DeviceHandle) *)
Definition pOpenDevice (DevicePath : string) : Z * HANDLE :=
  pOpenDeviceEx DevicePath (Z.lor FILE_READ_DATA FILE_READ_ATTRIBUTES)
                FILE_SHARE_VALID_FLAGS.

(* do { size; allocate; list } while (cr == CR_BUFFER_SMALL): the last
   result and the list read, [None] when the rounds allowed run out *)
Fixpoint retrieve_list (rounds round : nat) : option (Z * list string) :=
  match rounds with
  | O => None
  | S rounds' =>
      let (cr, DevIFaceListLength) :=
        CM_Get_Device_Interface_List_SizeW round in
      if negb (cr =? CR_SUCCESS) then Some (cr, [])
      else
        let (cr, DevIFaceList) :=
          CM_Get_Device_Interface_ListW round DevIFaceListLength in
        if cr =? CR_BUFFER_SMALL then retrieve_list rounds' (S round)
        else Some (cr, DevIFaceList)
  end.

(* for (CurrentIFace = DevIFaceList; *CurrentIFace;
        CurrentIFace += wcslen(CurrentIFace) + 1) *)
Fixpoint enumerate (Callback : bool) (DevIFaceList : list string)
  : list (Event HANDLE) :=
  match DevIFaceList with
  | [] => []
  | EmptyString :: _ => []
  | iface :: rest =>
      let CurrentIFace := normalize_interface iface in
      let (Status, DeviceHandle) := pOpenDevice CurrentIFace in
      ((if NT_SUCCESS Status then
          (* Do the callback *)
          (if Callback then [Called_back CurrentIFace DeviceHandle]
           else []) ++ [Closed DeviceHandle]
        else []) ++ enumerate Callback rest)%list
  end.

(* NTSTATUS pNtEnumDevicesPnP(InterfaceClassGuid, Callback, Context):
   [Callback] is [true] for a non-NULL callback; the returned status and
   what happened, [None] when the retry loop does not end within the
   rounds allowed *)
Definition pNtEnumDevicesPnP (rounds : nat) (Callback : bool)
  : option (Z * list (Event HANDLE)) :=
  match retrieve_list rounds 0 with
  | None => None
  | Some (cr, DevIFaceList) =>
      if negb (cr =? CR_SUCCESS) then Some (STATUS_UNSUCCESSFUL, [])
      else Some (STATUS_SUCCESS, enumerate Callback DevIFaceList)
  end.

End Devices.

End DevUtils.

(** ** Recycle bin: the ROUND_UP macro *)

Module RecycleBin.

(* #define ROUND_UP(N, S) ((( (N) + (S) - 1) / (S) ) * (S) ), on DWORD
   operands: every operation wraps at 2^32 *)
Definition ROUND_UP (N S : Z) : Z :=
  (((N + S - 1) mod 0x100000000) / S * S) mod 0x100000000.

End RecycleBin.

(** * Sample inputs

    Concrete collaborators and identifiers the examples below run the
    code on. *)

(* PathAddBackslashW on a path that does not end in a backslash *)
Definition add_backslash (s : string) : string := String.append s "\".

(* A directory D holding the folder Sub and the 10-byte file Doc.txt. *)
Definition rec_Sub : WIN32_FIND_DATAW :=
  mkFIND_DATA FILE_ATTRIBUTE_DIRECTORY 0x5A21 0x6000 0 "Sub".
Definition rec_Doc : WIN32_FIND_DATAW :=
  mkFIND_DATA 0x20 0x5A21 0x6000 10 "Doc.txt".

(* the scan of D runs to the end *)
Definition dir_D (pattern : string)
  : option (WIN32_FIND_DATAW * Enum.FindHandle) :=
  if String.eqb pattern "C:\D\*.*"
  then Some (rec_Sub, Enum.mkHandle [rec_Doc] ERROR_NO_MORE_FILES)
  else None.

(* the scan of D returns Sub and then FindNextFileW fails with
   ERROR_ACCESS_DENIED *)
Definition dir_D_failing (pattern : string)
  : option (WIN32_FIND_DATAW * Enum.FindHandle) :=
  if String.eqb pattern "C:\D\*.*"
  then Some (rec_Sub, Enum.mkHandle [] ERROR_ACCESS_DENIED)
  else None.

(* a directory E: the entries ".", "..", the folder Sub, the hidden folder
   Hid and the file Doc.txt *)
Definition rec_dot : WIN32_FIND_DATAW :=
  mkFIND_DATA FILE_ATTRIBUTE_DIRECTORY 0x5A21 0x6000 0 ".".
Definition rec_dotdot : WIN32_FIND_DATAW :=
  mkFIND_DATA FILE_ATTRIBUTE_DIRECTORY 0x5A21 0x6000 0 "..".
Definition rec_Hid : WIN32_FIND_DATAW :=
  mkFIND_DATA (Z.lor FILE_ATTRIBUTE_DIRECTORY FILE_ATTRIBUTE_HIDDEN)
              0x5A21 0x6000 0 "Hid".
Definition dir_E (pattern : string)
  : option (WIN32_FIND_DATAW * Enum.FindHandle) :=
  if String.eqb pattern "C:\E\*.*"
  then Some (rec_dot,
             Enum.mkHandle [rec_dotdot; rec_Sub; rec_Hid; rec_Doc]
                           ERROR_NO_MORE_FILES)
  else None.

(* the folder C:\D, a child of the drive C: *)
Definition folder_D : CFSFolder :=
  mkFolder (Some [mkITEMID PT_DRIVE 0 0 0 0 None;
                  mkITEMID PT_FOLDER 0 0x5A21 0x6000 0x10 (Some "D"%string)])
           (Some "C:\D"%string).

(* the identifiers of Sub and Doc.txt *)
Definition id_Sub : PIDL := [_ILCreateFromFindDataW rec_Sub].
Definition id_Doc : PIDL := [_ILCreateFromFindDataW rec_Doc].

(* a folder whose children cannot be bound to *)
Definition no_bind (this : CFSFolder) (pidl : PIDL) : option unit := None.
Definition no_enum (psf2 : unit) : option (list ITEMID) := None.
(* a parent folder that is never reached *)
Definition no_parent (pidlRoot : option PIDL) : Z := E_FAIL.
Definition no_parent_attributes (pidlRoot : option PIDL) (rpidl : PIDL)
           (rgf : Z) : Z * Z := (E_FAIL, rgf).

(* files of 0, 0x60000000, 0x80000000 and 0xC0000000 bytes *)
Definition file_of_size (name : string) (size : Z) : PIDL :=
  [_ILCreateFromFindDataW (mkFIND_DATA 0x20 0x5A21 0x6000 size name)].
Definition id_empty : PIDL := file_of_size "a.bin" 0.
Definition id_1536M : PIDL := file_of_size "b.bin" 0x60000000.
Definition id_2G : PIDL := file_of_size "c.bin" 0x80000000.
Definition id_3G : PIDL := file_of_size "d.bin" 0xC0000000.

(* the Size column *)
Definition column_Size : Z := 3.

(* Parsing "B\C" under D: B does not exist, the caller's bind context
   carries the record of a 10-byte file for it, and the child's parser
   does not find C. *)
Definition empty_disk (path : string) : option WIN32_FIND_DATAW := None.
Definition child_finds_nothing (this : CFSFolder)
           (pbc : option Parse.BindCtx) (pidlTemp : option PIDL)
           (szNext : string) (pchEaten pdwAttributes : option Z)
  : Z * option PIDL * option Z * option Z :=
  (HRESULT_FROM_WIN32 ERROR_FILE_NOT_FOUND, None, pchEaten, pdwAttributes).

(* PathCombineW on a directory and a relative file name *)
Definition combine (dir : option string) (file : string) : string :=
  String.append (path_text dir) (String.append "\" file).

(* A small disk: the files by full path.  Moving fails when the source is
   missing or the destination exists. *)
Definition Disk : Type := list (string * WIN32_FIND_DATAW).

Fixpoint disk_stat (d : Disk) (path : string) : option WIN32_FIND_DATAW :=
  match d with
  | [] => None
  | (p, r) :: d' => if String.eqb p path then Some r else disk_stat d' path
  end.

Fixpoint disk_rename (d : Disk) (src dest : string) : Disk :=
  match d with
  | [] => []
  | (p, r) :: d' =>
      (if String.eqb p src then (dest, r) else (p, r))
      :: disk_rename d' src dest
  end.

Definition disk_move (d : Disk) (src dest : string) : bool * Disk :=
  match disk_stat d src, disk_stat d dest with
  | Some _, None => (true, disk_rename d src dest)
  | _, _ => (false, d)
  end.

(* D as the scan above saw it, and D after Doc.txt has been deleted *)
Definition disk_D : Disk :=
  [("C:\D\Sub"%string, rec_Sub); ("C:\D\Doc.txt"%string, rec_Doc)].
Definition disk_D_without_Doc : Disk :=
  [("C:\D\Sub"%string, rec_Sub)].

(* a registry that shows every extension, and one with HideFileExt = 1 *)
Definition reg_no_class (ext : string) : option string := None.
Definition reg_never (classname : string) : bool := false.
Definition reg_show_all : option Z := None.
Definition reg_hide_known : option Z := Some 1.

(* generic comparators that find the identifiers equal *)
Definition details_equal (lParam : Z) (pidl1 pidl2 : PIDL) : Z := S_OK.
Definition children_equal (lParam : Z) (pidl1 pidl2 : PIDL) : Z := S_OK.

(* a file written one day before Doc.txt *)
Definition id_Old : PIDL :=
  [_ILCreateFromFindDataW (mkFIND_DATA 0x20 0x5A20 0x6000 10 "Old.txt")].

(* a child folder that cannot be bound to *)
Definition no_child (pidl : PIDL) : option unit := None.

(** * Reading an enumeration's events *)

Module DevTrace.

(* the interface paths the enumeration loop visits: those in front of the
   first empty string *)
Fixpoint visited (DevIFaceList : list string) : list string :=
  match DevIFaceList with
  | [] => []
  | EmptyString :: _ => []
  | iface :: rest => iface :: visited rest
  end.

(* the callback invocations of a run, in order *)
Fixpoint callbacks {HANDLE : Type} (events : list (DevUtils.Event HANDLE))
  : list (string * HANDLE) :=
  match events with
  | [] => []
  | DevUtils.Called_back iface h :: rest => (iface, h) :: callbacks rest
  | DevUtils.Closed _ :: rest => callbacks rest
  end.

(* the handles closed in a run, in order *)
Fixpoint closes {HANDLE : Type} (events : list (DevUtils.Event HANDLE))
  : list HANDLE :=
  match events with
  | [] => []
  | DevUtils.Called_back _ _ :: rest => closes rest
  | DevUtils.Closed h :: rest => h :: closes rest
  end.

End DevTrace.

(* a machine with two disk interfaces, the second of which cannot be
   opened; the configuration manager asks for a larger buffer once *)
Definition two_disks : list string :=
  ["\\?\disk0"%string; "\\?\disk1"%string].
Definition open_disk0 (ObjectName : string) (Attributes DesiredAccess
           ShareAccess OpenOptions : Z) : Z * Z :=
  if String.eqb ObjectName "\??\disk0"
  then (DevUtils.STATUS_SUCCESS, 100)
  else (DevUtils.STATUS_UNSUCCESSFUL, 0).
Definition list_size (round : nat) : Z * Z := (DevUtils.CR_SUCCESS, 20).
Definition list_second_time (round : nat) (length : Z) : Z * list string :=
  match round with
  | O => (DevUtils.CR_BUFFER_SMALL, [])
  | _ => (DevUtils.CR_SUCCESS, two_disks)
  end.

(* a registry in which .txt files are of class txtfile, whose CLSID key
   names a handler; the handlers named "bad" are blocked *)
Definition reg_open (name : string) : option nat :=
  if String.eqb name "txtfile\CLSID" then Some 1%nat else None.
Definition reg_class (ext : string) : option string :=
  if String.eqb ext ".txt" then Some "txtfile"%string else None.
Definition reg_value (hkey : nat) : option string := Some "{handler}"%string.
Definition reg_blocked (value : string) : bool := String.eqb value "bad".
Definition parse_clsid (value : string) (old : string) : Z * string :=
  (S_OK, value).
Definition binder_fails (pidlRoot : option PIDL)
           (pfti : PERSIST_FOLDER_TARGET_INFO) (pidl : PIDL)
           (clsid : string) (riid : unit) : Z * option unit :=
  (E_FAIL, None).
Definition binder_binds (pidlRoot : option PIDL)
           (pfti : PERSIST_FOLDER_TARGET_INFO) (pidl : PIDL)
           (clsid : string) (riid : unit) : Z * option unit :=
  (S_FALSE, Some tt).
Definition no_ini (file : string) : option string := None.

(** * Properties *)

(** ** The enumerator *)

Section EnumProofs.

Import Enum.

Lemma scan_entry_keeps (dwFlags : Z) (e : WIN32_FIND_DATAW)
      (enum : list ITEMID) :
  scan_entry dwFlags e true enum
  = (true,
     (enum ++ map _ILCreateFromFindDataW
                  (filter (passes_mask dwFlags) [e]))%list).
Proof.
  unfold scan_entry, passes_mask, is_hidden, is_directory, AddToEnumList,
    wcs_eq. cbn [filter].
  generalize (tst (dwFileAttributes e) FILE_ATTRIBUTE_HIDDEN) as h.
  generalize (tst dwFlags SHCONTF_INCLUDEHIDDEN) as ih.
  generalize (tst (dwFileAttributes e) FILE_ATTRIBUTE_DIRECTORY) as d.
  generalize (tst dwFlags SHCONTF_FOLDERS) as f.
  generalize (tst dwFlags SHCONTF_NONFOLDERS) as nf.
  generalize (String.eqb (cFileName e) ".") as d1.
  generalize (String.eqb (cFileName e) "..") as d2.
  intros [] [] [] [] [] [] []; cbn; rewrite ?app_nil_r; reflexivity.
Qed.

Lemma scan_loop_collects (dwFlags err : Z) (rest : list WIN32_FIND_DATAW) :
  forall (e : WIN32_FIND_DATAW) (enum : list ITEMID),
    snd (scan_loop dwFlags e rest err true enum)
    = (enum ++ map _ILCreateFromFindDataW
                   (filter (passes_mask dwFlags) (e :: rest)))%list.
Proof.
  induction rest as [| next rest IH]; intros e enum.
  - cbn [scan_loop]. rewrite scan_entry_keeps.
    destruct (err =? ERROR_NO_MORE_FILES); reflexivity.
  - cbn [scan_loop]. rewrite scan_entry_keeps. rewrite IH.
    cbn [filter]. destruct (passes_mask dwFlags e); cbn [map app].
    + rewrite <- app_assoc. reflexivity.
    + rewrite app_nil_r. reflexivity.
Qed.

Lemma scan_loop_flag (dwFlags err : Z) (rest : list WIN32_FIND_DATAW) :
  forall (e : WIN32_FIND_DATAW) (enum : list ITEMID),
    fst (scan_loop dwFlags e rest err true enum)
    = (err =? ERROR_NO_MORE_FILES).
Proof.
  induction rest as [| next rest IH]; intros e enum.
  - cbn [scan_loop]. rewrite scan_entry_keeps.
    destruct (err =? ERROR_NO_MORE_FILES); reflexivity.
  - cbn [scan_loop]. rewrite scan_entry_keeps. apply IH.
Qed.

Variable PathAddBackslashW : string -> string.
Variable FindFirstFileW : string -> option (WIN32_FIND_DATAW * FindHandle).

(** C4: for every directory scan the enumerator's list is exactly the
    scanned records that pass the content-mask filter, converted to
    identifiers, in scan order: a hidden record is left out unless the mask
    has the hidden-inclusion bit, a directory is taken only when the mask
    requests folders and its name is neither "." nor "..", and any other
    record only when the mask requests non-folders. *)
Theorem Initialize_lists_filtered_scan (lpszPath : option string)
        (dwFlags : Z) :
  snd (Initialize PathAddBackslashW FindFirstFileW lpszPath dwFlags)
  = map _ILCreateFromFindDataW
        (filter (passes_mask dwFlags)
                (scanned PathAddBackslashW FindFirstFileW lpszPath)).
Proof.
  unfold Initialize, scanned.
  destruct lpszPath as [[| c path] |]; try reflexivity.
  destruct (FindFirstFileW _) as [[first hFile] |]; try reflexivity.
  pose proof (scan_loop_collects dwFlags (final_error hFile)
                (pending hFile) first []) as H.
  destruct (scan_loop _ _ _ _ _ _) as [succeeded enum].
  cbn [snd] in *. rewrite H. reflexivity.
Qed.

(* What Initialize returns once the search handle is open: the BOOL
   [succeeded], which is FALSE exactly when the scan ended on an error
   other than "no more files". *)
Lemma Initialize_returns_flag (path : string) (dwFlags : Z)
      (first : WIN32_FIND_DATAW) (hFile : FindHandle) :
  path <> EmptyString ->
  FindFirstFileW (search_pattern PathAddBackslashW path)
  = Some (first, hFile) ->
  fst (Initialize PathAddBackslashW FindFirstFileW (Some path) dwFlags)
  = BOOL_to_LONG (final_error hFile =? ERROR_NO_MORE_FILES).
Proof.
  intros Hne Hopen. unfold Initialize.
  destruct path as [| c path]; [congruence |].
  rewrite Hopen.
  pose proof (scan_loop_flag dwFlags (final_error hFile)
                (pending hFile) first []) as H.
  destruct (scan_loop _ _ _ _ _ _) as [succeeded enum].
  cbn [fst] in *. rewrite H. reflexivity.
Qed.

End EnumProofs.

Example Initialize_D_lists_Sub_then_Doc :
  Enum.Initialize add_backslash dir_D (Some "C:\D"%string)
    (Z.lor SHCONTF_FOLDERS SHCONTF_NONFOLDERS)
  = (BOOL_to_LONG true,
     [_ILCreateFromFindDataW rec_Sub; _ILCreateFromFindDataW rec_Doc]).
Proof. vm_compute. reflexivity. Qed.

Example Initialize_E_folders_only :
  snd (Enum.Initialize add_backslash dir_E (Some "C:\E"%string)
         SHCONTF_FOLDERS)
  = [_ILCreateFromFindDataW rec_Sub].
Proof. vm_compute. reflexivity. Qed.

Example Initialize_E_folders_and_hidden :
  snd (Enum.Initialize add_backslash dir_E (Some "C:\E"%string)
         (Z.lor SHCONTF_FOLDERS SHCONTF_INCLUDEHIDDEN))
  = [_ILCreateFromFindDataW rec_Sub; _ILCreateFromFindDataW rec_Hid].
Proof. vm_compute. reflexivity. Qed.

(** C9: on a scan that returns the folder Sub and then fails with
    ERROR_ACCESS_DENIED, Initialize sets its BOOL [succeeded] to FALSE and
    returns it through its HRESULT return type: the returned value is 0,
    which is S_OK, so the call counts as succeeded, and the enumerator
    still holds the identifier of Sub collected before the failure. *)
Theorem Initialize_scan_error_returns_S_OK :
  Enum.Initialize add_backslash dir_D_failing (Some "C:\D"%string)
    (Z.lor SHCONTF_FOLDERS SHCONTF_NONFOLDERS)
  = (S_OK, [_ILCreateFromFindDataW rec_Sub])
  /\ SUCCEEDED
       (fst (Enum.Initialize add_backslash dir_D_failing (Some "C:\D"%string)
               (Z.lor SHCONTF_FOLDERS SHCONTF_NONFOLDERS))) = true.
Proof. split; vm_compute; reflexivity. Qed.

(* The same scan seen from EnumObjects: the caller gets S_OK and an
   enumerator that holds Sub only. *)
Example EnumObjects_scan_error_partial_listing :
  Enum.EnumObjects add_backslash dir_D_failing (sPathTarget folder_D)
    (Z.lor SHCONTF_FOLDERS SHCONTF_NONFOLDERS)
  = (S_OK, Some [_ILCreateFromFindDataW rec_Sub]).
Proof. vm_compute. reflexivity. Qed.

(** ** The attribute query *)

Lemma land_dw_not_clears (x m : Z) :
  0 <= m <= DWORD_ALL -> Z.land (Z.land x (dw_not m)) m = 0.
Proof.
  intros Hm. unfold dw_not, DWORD_ALL in *.
  apply Z.bits_inj'. intros n Hn.
  rewrite !Z.land_spec, Z.lxor_spec, Z.land_spec, Z.bits_0.
  destruct (Z.testbit m n) eqn:Em; [| apply andb_false_r].
  destruct (Z.testbit 4294967295 n) eqn:Ea.
  - rewrite andb_true_r. cbn. rewrite andb_false_r. reflexivity.
  - exfalso.
    assert (Hlt : n < 32 \/ 32 <= n) by lia. destruct Hlt as [Hlt | Hge].
    + change 4294967295 with (Z.ones 32) in Ea.
      rewrite Z.ones_spec_low in Ea by lia. discriminate.
    + assert (Hz : Z.testbit m n = false).
      { destruct (Z.eq_dec m 0) as [-> | Hnz]; [apply Z.bits_0 |].
        apply Z.bits_above_log2; [lia |].
        assert (Z.log2 m < 32); [| lia].
        apply Z.log2_lt_pow2; [lia |]. change (2 ^ 32) with 4294967296. lia. }
      congruence.
Qed.

Section AttributeProofs.

Import Attributes.

Variable SF : Type.
Variable BindToObject : CFSFolder -> PIDL -> option SF.
Variable EnumObjects_FOLDERS : SF -> option (list ITEMID).
Variable SHBindToParent : option PIDL -> Z.
Variable Parent_GetAttributesOf : option PIDL -> PIDL -> Z -> Z * Z.

(* the folder's GetAttributesOf over these collaborators *)
Let GetAttributesOf :=
  Attributes.GetAttributesOf SF BindToObject EnumObjects_FOLDERS
    SHBindToParent Parent_GetAttributesOf.

(** C1: whenever GetAttributesOf returns successfully it has written a
    capability bitmask, and that bitmask does not have the SFGAO_VALIDATE
    bit, whatever the folder, the identifiers and the requested mask. *)
Theorem GetAttributesOf_clears_VALIDATE (this : CFSFolder) (cidl : nat)
        (apidl : option (list (option PIDL))) (rgfInOut : option Z) :
  SUCCEEDED (fst (GetAttributesOf this cidl apidl rgfInOut)) = true ->
  exists rgf : Z,
    snd (GetAttributesOf this cidl apidl rgfInOut) = Some rgf
    /\ Z.land rgf SFGAO_VALIDATE = 0.
Proof.
  unfold GetAttributesOf, Attributes.GetAttributesOf.
  destruct rgfInOut as [rgf |]; [| cbn; discriminate].
  destruct (negb (Nat.eqb cidl 0) && _); [cbn; discriminate |].
  intros _.
  match goal with
  | |- context [let (_, _) := ?c in _] => destruct c as [hr rgf']
  end.
  cbn [snd]. exists (Z.land rgf' (dw_not SFGAO_VALIDATE)). split.
  - reflexivity.
  - apply land_dw_not_clears. unfold SFGAO_VALIDATE, DWORD_ALL. lia.
Qed.


End AttributeProofs.

Lemma GetAttributesOf_clears_VALIDATE_witness :
  SUCCEEDED
    (fst (Attributes.GetAttributesOf unit no_bind no_enum no_parent
            no_parent_attributes folder_D 1 (Some [Some id_Doc])
            (Some DWORD_ALL))) = true
  /\ exists rgf : Z,
      snd (Attributes.GetAttributesOf unit no_bind no_enum no_parent
             no_parent_attributes folder_D 1 (Some [Some id_Doc])
             (Some DWORD_ALL)) = Some rgf
      /\ Z.land rgf SFGAO_VALIDATE = 0.
Proof.
  split.
  - vm_compute. reflexivity.
  - apply (GetAttributesOf_clears_VALIDATE unit no_bind no_enum no_parent
             no_parent_attributes folder_D 1 (Some [Some id_Doc])
             (Some DWORD_ALL)).
    vm_compute. reflexivity.
Defined.


(** ** The classifier *)

Lemma tst_lor_l (a b m : Z) : tst a m = true -> tst (Z.lor a b) m = true.
Proof.
  unfold tst. rewrite !negb_true_iff, !Z.eqb_neq, Z.land_lor_distr_l.
  intros Ha Hz. apply Z.lor_eq_0_iff in Hz. tauto.
Qed.

Lemma tst_lor_r (a b m : Z) : tst b m = true -> tst (Z.lor a b) m = true.
Proof. rewrite Z.lor_comm. apply tst_lor_l. Qed.

(* find a bit in one operand of a chain of ORs *)
Ltac has_bit :=
  solve [ reflexivity
        | apply tst_lor_r; has_bit
        | apply tst_lor_l; has_bit ].

(* For every file or folder identifier whose raw attributes have the
   directory bit, the classifier's result has the has-subfolder bit,
   whatever was requested and whatever the probe finds. *)
Lemma GetFSItemAttributes_directory_has_subfolder (SF : Type)
      (BindToObject : PIDL -> option SF)
      (EnumObjects_FOLDERS : SF -> option (list ITEMID))
      (pidl : PIDL) (pdwAttributes : Z) :
  _ILIsFolder pidl || _ILIsValue pidl = true ->
  tst (_ILGetFileAttributes pidl) FILE_ATTRIBUTE_DIRECTORY = true ->
  tst (snd (Attr.SHELL32_GetFSItemAttributes SF BindToObject
              EnumObjects_FOLDERS pidl pdwAttributes))
      SFGAO_HASSUBFOLDER = true.
Proof.
  intros Hkind Hdir. unfold Attr.SHELL32_GetFSItemAttributes.
  assert (Hneg : negb (_ILIsFolder pidl) && negb (_ILIsValue pidl) = false).
  { destruct (_ILIsFolder pidl), (_ILIsValue pidl);
      try reflexivity; discriminate. }
  rewrite Hneg, Hdir. cbn [snd].
  repeat match goal with
         | |- context [if ?c then _ else _] => destruct c
         | |- context [match ?c with Some _ => _ | None => _ end] =>
             destruct c
         end;
    has_bit.
Qed.

(** C6: for the folder identifier Sub (directory attribute set) the
    classifier reports has-subfolder when the bit was not requested, and
    also when it was requested and the probe could not even bind to the
    child: the bit comes from the directory attribute alone. *)
Theorem GetFSItemAttributes_subfolder_without_probe (SF : Type)
        (BindToObject : PIDL -> option SF)
        (EnumObjects_FOLDERS : SF -> option (list ITEMID)) :
  tst (snd (Attr.SHELL32_GetFSItemAttributes SF BindToObject
              EnumObjects_FOLDERS id_Sub SFGAO_FOLDER))
      SFGAO_HASSUBFOLDER = true
  /\ tst (snd (Attr.SHELL32_GetFSItemAttributes SF (fun _ => None)
                 EnumObjects_FOLDERS id_Sub SFGAO_HASSUBFOLDER))
         SFGAO_HASSUBFOLDER = true.
Proof. split; vm_compute; reflexivity. Qed.

(** ** Comparison *)

Section CompareProofs.

Import Compare.

Variable SHELL32_CompareDetails : Z -> PIDL -> PIDL -> Z.
Variable SHELL32_CompareChildren : Z -> PIDL -> PIDL -> Z.

(* the folder's CompareIDs over these comparators *)
Let CompareIDs :=
  Compare.CompareIDs SHELL32_CompareDetails SHELL32_CompareChildren.

Lemma compare_result_lessthan : compare_result S_LESSTHAN = -1.
Proof. reflexivity. Qed.

Lemma compare_result_greaterthan : compare_result S_GREATERTHAN = 1.
Proof. reflexivity. Qed.

(** X8: between a folder and a non-folder that both carry file data, and
    under any of the six columns, the folder compares as less and the
    non-folder as greater. *)
Lemma CompareIDs_folder_first (lParam : Z) (pidl1 pidl2 : PIDL)
      (name1 name2 : string) :
  _ILGetFileStructW pidl1 = Some name1 ->
  _ILGetFileStructW pidl2 = Some name2 ->
  LOWORD lParam < GENERICSHELLVIEWCOLUMNS ->
  _ILIsFolder pidl1 = true ->
  _ILIsFolder pidl2 = false ->
  CompareIDs lParam pidl1 pidl2 = S_LESSTHAN
  /\ CompareIDs lParam pidl2 pidl1 = S_GREATERTHAN.
Proof.
  intros H1 H2 Hcol Hf1 Hf2.
  unfold CompareIDs, Compare.CompareIDs.
  rewrite H1, H2, Hf1, Hf2.
  assert (Hge : (LOWORD lParam >=? GENERICSHELLVIEWCOLUMNS) = false).
  { rewrite Z.geb_leb. apply Z.leb_gt. exact Hcol. }
  rewrite Hge. cbn. split; reflexivity.
Qed.

(* under the Name column the folder Sub sorts before the file Doc.txt *)
Example CompareIDs_Sub_before_Doc :
  compare_result (CompareIDs 0 id_Sub id_Doc) = -1.
Proof. vm_compute. reflexivity. Qed.

(** C2: under the Size column the comparison is not an ordering.  The
    empty file and the file of 0x80000000 bytes each compare as less than
    the other; and the files of 0, 0x60000000 and 0xC0000000 bytes compare
    as first less than second, second less than third, and first greater
    than third.  The DWORD difference of the sizes is stored in an int, so
    its sign is lost once the sizes are 2^31 or more apart. *)
Theorem CompareIDs_size_difference_wraps :
  (CompareIDs column_Size id_empty id_2G = S_LESSTHAN
   /\ CompareIDs column_Size id_2G id_empty = S_LESSTHAN)
  /\ (CompareIDs column_Size id_empty id_1536M = S_LESSTHAN
      /\ CompareIDs column_Size id_1536M id_3G = S_LESSTHAN
      /\ CompareIDs column_Size id_empty id_3G = S_GREATERTHAN).
Proof. repeat split; vm_compute; reflexivity. Qed.

End CompareProofs.

(** ** Parsing *)

Section ParseProofs.

Import Parse.

Variable PathAddBackslashW : string -> string.
Variable stat : string -> option WIN32_FIND_DATAW.
Variable SHELL32_ParseNextElement :
  CFSFolder -> option BindCtx -> option PIDL -> string ->
  option Z -> option Z -> Z * option PIDL * option Z * option Z.
Variable SF : Type.
Variable BindToObject : CFSFolder -> PIDL -> option SF.
Variable EnumObjects_FOLDERS : SF -> option (list ITEMID).

(* the folder's ParseDisplayName over these collaborators *)
Let ParseDisplayName :=
  Parse.ParseDisplayName PathAddBackslashW stat SHELL32_ParseNextElement
    SF BindToObject EnumObjects_FOLDERS.

Lemma set_abID0_is_folder (i : ITEMID) :
  _ILIsFolder (set_abID0 [i] PT_FOLDER) = true.
Proof. reflexivity. Qed.


(** C5: ParseDisplayName returns E_INVALIDARG when the text is NULL, and
    for the empty text it returns E_INVALIDARG too, with no identifier,
    while the characters-consumed output, when the caller asked for it, is
    set to 0. *)
Theorem ParseDisplayName_null_or_empty_text (this : CFSFolder)
        (pbc : option BindCtx) (pchEaten : option Z)
        (ppidl : option (option PIDL)) (cell : option PIDL)
        (pdwAttributes : option Z) (eaten : Z) :
  r_hr (ParseDisplayName this pbc None pchEaten ppidl pdwAttributes)
  = E_INVALIDARG
  /\ r_hr (ParseDisplayName this pbc (Some EmptyString) pchEaten ppidl
             pdwAttributes)
     = E_INVALIDARG
  /\ ParseDisplayName this pbc (Some EmptyString) (Some eaten) (Some cell)
       pdwAttributes
     = mkResult E_INVALIDARG (Some None) (Some 0) pdwAttributes
  /\ ParseDisplayName this pbc (Some EmptyString) None (Some cell)
       pdwAttributes
     = mkResult E_INVALIDARG (Some None) None pdwAttributes.
Proof.
  unfold ParseDisplayName, Parse.ParseDisplayName.
  repeat split; destruct ppidl; reflexivity.
Qed.

End ParseProofs.


(** ** Renaming *)

Lemma substring_all (s : string) (n : nat) :
  (String.length s <= n)%nat -> String.substring 0 n s = s.
Proof.
  revert n. induction s as [| c s IH]; intros n Hn.
  - destruct n; reflexivity.
  - destruct n as [| n]; cbn in Hn; [lia |].
    cbn. rewrite IH by lia. reflexivity.
Qed.

Section RenameProofs.

Import Rename.

Variable reg_HideFileExt : option Z.
Variable reg_ClassOf : string -> option string.
Variable reg_NeverShowExt : string -> bool.
Variable PathCombineW : option string -> string -> string.
Variable FS : Type.
Variable stat : FS -> string -> option WIN32_FIND_DATAW.
Variable MoveFileW : FS -> string -> string -> bool * FS.

(* the folder's rename over these collaborators *)
Let SetNameOf :=
  Rename.SetNameOf reg_HideFileExt reg_ClassOf reg_NeverShowExt
    PathCombineW FS stat MoveFileW.
Let source_path := Rename.source_path PathCombineW.
Let plain_destination := Rename.plain_destination PathCombineW.
Let destination_path :=
  Rename.destination_path reg_HideFileExt reg_ClassOf reg_NeverShowExt
    PathCombineW.
Let HideExtension :=
  Rename.HideExtension reg_HideFileExt reg_ClassOf reg_NeverShowExt.

(** C7, as the code has it: when the source path and the destination path
    are equal, the file system is left as it was and no notification is
    sent.  Without an output identifier the call returns S_OK.  With one,
    the call returns what creating an identifier from the destination path
    returns: S_OK and the identifier of the file found there, or the
    not-found failure when nothing is there. *)
Theorem SetNameOf_same_path (this : CFSFolder) (fs : FS) (pidl : PIDL)
        (wszName lpName : string) (dwFlags : Z)
        (pPidlOut : option (option PIDL)) :
  _ILGetFileStructW pidl = Some wszName ->
  source_path this wszName = destination_path this wszName lpName dwFlags ->
  let r := SetNameOf this fs pidl lpName dwFlags pPidlOut in
  let szDest := destination_path this wszName lpName dwFlags in
  o_fs r = fs
  /\ o_notified r = []
  /\ (pPidlOut = None -> o_hr r = S_OK /\ o_pPidlOut r = None)
  /\ (forall (cell : option PIDL) (found : WIN32_FIND_DATAW),
         pPidlOut = Some cell -> stat fs szDest = Some found ->
         o_hr r = S_OK
         /\ o_pPidlOut r = Some (Some [_ILCreateFromFindDataW found]))
  /\ (forall cell : option PIDL,
         pPidlOut = Some cell -> stat fs szDest = None ->
         o_hr r = HRESULT_FROM_WIN32 ERROR_FILE_NOT_FOUND
         /\ o_pPidlOut r = Some cell).
Proof.
  intros Hname Hsame r szDest. subst r szDest.
  unfold SetNameOf, Rename.SetNameOf.
  rewrite Hname.
  unfold source_path, destination_path in *.
  rewrite <- Hsame. unfold wcs_eq. rewrite String.eqb_refl.
  unfold create_out, _ILCreateFromPathW.
  destruct pPidlOut as [cell |].
  - destruct (stat fs (Rename.source_path PathCombineW this wszName))
      as [found |] eqn:Hstat; cbn.
    + split; [reflexivity |]. split; [reflexivity |].
      split; [discriminate |]. split.
      * intros cell' found' _ Hf.
        injection Hf as <-. split; reflexivity.
      * intros cell' _ Hf. discriminate.
    + split; [reflexivity |]. split; [reflexivity |].
      split; [discriminate |]. split.
      * intros cell' found' _ Hf. discriminate.
      * intros cell' Hc _. injection Hc as <-. split; reflexivity.
  - cbn. split; [reflexivity |]. split; [reflexivity |].
    split; [intros _; split; reflexivity |].
    split; intros; discriminate.
Qed.


End RenameProofs.

Lemma SetNameOf_same_path_witness :
  _ILGetFileStructW id_Doc = Some "Doc.txt"%string
  /\ Rename.source_path combine folder_D "Doc.txt"
     = Rename.destination_path reg_show_all reg_no_class reg_never combine
         folder_D "Doc.txt" "Doc.txt" SHGDN_INFOLDER
  /\ Rename.o_fs (Rename.SetNameOf reg_show_all reg_no_class reg_never combine
             Disk disk_stat disk_move folder_D disk_D id_Doc "Doc.txt"
             SHGDN_INFOLDER (Some None)) = disk_D
  /\ Rename.o_notified (Rename.SetNameOf reg_show_all reg_no_class reg_never
                   combine Disk disk_stat disk_move folder_D disk_D id_Doc
                   "Doc.txt" SHGDN_INFOLDER (Some None)) = []
  /\ Rename.o_hr (Rename.SetNameOf reg_show_all reg_no_class reg_never combine
             Disk disk_stat disk_move folder_D disk_D id_Doc "Doc.txt"
             SHGDN_INFOLDER (Some None)) = S_OK
  /\ Rename.o_pPidlOut (Rename.SetNameOf reg_show_all reg_no_class reg_never
                   combine Disk disk_stat disk_move folder_D disk_D id_Doc
                   "Doc.txt" SHGDN_INFOLDER (Some None))
     = Some (Some id_Doc).
Proof.
  assert (Hname : _ILGetFileStructW id_Doc = Some "Doc.txt"%string)
    by (vm_compute; reflexivity).
  assert (Hsame : Rename.source_path combine folder_D "Doc.txt"
                  = Rename.destination_path reg_show_all reg_no_class
                      reg_never combine folder_D "Doc.txt" "Doc.txt"
                      SHGDN_INFOLDER)
    by (vm_compute; reflexivity).
  destruct (SetNameOf_same_path reg_show_all reg_no_class reg_never combine
              Disk disk_stat disk_move folder_D disk_D id_Doc "Doc.txt"
              "Doc.txt" SHGDN_INFOLDER (Some None) Hname Hsame)
    as (Hfs & Hnote & _ & Hfound & _).
  destruct (Hfound None rec_Doc) as (Hhr & Hout);
    [reflexivity | vm_compute; reflexivity |].
  exact (conj Hname (conj Hsame (conj Hfs (conj Hnote (conj Hhr Hout))))).
Defined.

(** C7, as stated, fails: Doc.txt has been deleted from D, the identifier
    of Doc.txt is renamed to "Doc.txt" and an output identifier is asked
    for.  Source and destination paths are equal, yet the call does not
    succeed: it returns the not-found failure and no identifier. *)
Lemma SetNameOf_same_path_not_found :
  Rename.source_path combine folder_D "Doc.txt"
  = Rename.destination_path reg_show_all reg_no_class reg_never combine
      folder_D "Doc.txt" "Doc.txt" SHGDN_INFOLDER
  /\ SUCCEEDED
       (Rename.o_hr (Rename.SetNameOf reg_show_all reg_no_class reg_never combine
                Disk disk_stat disk_move folder_D disk_D_without_Doc id_Doc
                "Doc.txt" SHGDN_INFOLDER (Some None))) = false
  /\ Rename.o_pPidlOut (Rename.SetNameOf reg_show_all reg_no_class reg_never
                   combine Disk disk_stat disk_move folder_D
                   disk_D_without_Doc id_Doc "Doc.txt" SHGDN_INFOLDER
                   (Some None)) = Some None.
Proof. repeat split; vm_compute; reflexivity. Qed.



(** * Further properties of the code *)

(** ** The enumerator's listing *)

Section EnumListing.

Import Enum.

Variable PathAddBackslashW : string -> string.
Variable FindFirstFileW : string -> option (WIN32_FIND_DATAW * FindHandle).

(* the list Initialize leaves, spelled out *)
Lemma enum_list_filtered (lpszPath : option string) (dwFlags : Z) :
  snd (Initialize PathAddBackslashW FindFirstFileW lpszPath dwFlags)
  = map _ILCreateFromFindDataW
        (filter (passes_mask dwFlags)
                (scanned PathAddBackslashW FindFirstFileW lpszPath)).
Proof.
  unfold Initialize, scanned.
  destruct lpszPath as [[| c path] |]; try reflexivity.
  destruct (FindFirstFileW _) as [[first hFile] |]; try reflexivity.
  pose proof (scan_loop_collects dwFlags (final_error hFile)
                (pending hFile) first []) as H.
  destruct (scan_loop _ _ _ _ _ _) as [succeeded enum].
  cbn [snd] in *. rewrite H. reflexivity.
Qed.

Lemma listed_from_record (lpszPath : option string) (dwFlags : Z)
      (p : ITEMID) :
  In p (snd (Initialize PathAddBackslashW FindFirstFileW lpszPath dwFlags)) ->
  exists e : WIN32_FIND_DATAW,
    p = _ILCreateFromFindDataW e /\ passes_mask dwFlags e = true.
Proof.
  rewrite enum_list_filtered. intros Hin.
  apply in_map_iff in Hin. destruct Hin as (e & <- & He).
  apply filter_In in He. exists e. split; [reflexivity | apply He].
Qed.

Lemma created_is_folder (e : WIN32_FIND_DATAW) :
  _ILIsFolder [_ILCreateFromFindDataW e] = is_directory e.
Proof.
  unfold _ILIsFolder, _ILCreateFromFindDataW, is_directory. cbn.
  destruct (tst (dwFileAttributes e) FILE_ATTRIBUTE_DIRECTORY); reflexivity.
Qed.

Lemma created_is_value (e : WIN32_FIND_DATAW) :
  _ILIsValue [_ILCreateFromFindDataW e] = negb (is_directory e).
Proof.
  unfold _ILIsValue, _ILCreateFromFindDataW, is_directory. cbn.
  destruct (tst (dwFileAttributes e) FILE_ATTRIBUTE_DIRECTORY); reflexivity.
Qed.

Lemma tst_low_word (a m : Z) :
  0 <= m <= 0xFFFF -> tst (Z.land a 0xFFFF) m = tst a m.
Proof.
  intros Hm. unfold tst. f_equal. f_equal.
  rewrite <- Z.land_assoc. f_equal.
  apply Z.bits_inj'. intros n Hn. rewrite Z.land_spec.
  destruct (Z.testbit m n) eqn:Em; [| apply andb_false_r].
  rewrite andb_true_r.
  assert (Hlt : n < 16).
  { destruct (Z.eq_dec m 0) as [-> | Hnz];
      [rewrite Z.bits_0 in Em; discriminate |].
    destruct (Z.lt_ge_cases n 16) as [H | H]; [exact H |].
    rewrite Z.bits_above_log2 in Em; [discriminate | lia |].
    assert (Z.log2 m < 16); [| lia].
    apply Z.log2_lt_pow2; [lia |]. change (2 ^ 16) with 65536. lia. }
  change 65535 with (Z.ones 16). apply Z.ones_spec_low. lia.
Qed.

(** X1: under a mask that does not request non-folders, every identifier
    the enumerator lists is a folder, and no listed folder is named "."
    or "..". *)
Theorem Initialize_folders_only (lpszPath : option string) (dwFlags : Z)
        (p : ITEMID) :
  tst dwFlags SHCONTF_NONFOLDERS = false ->
  In p (snd (Initialize PathAddBackslashW FindFirstFileW lpszPath dwFlags)) ->
  _ILIsFolder [p] = true
  /\ wszName p <> Some "."%string /\ wszName p <> Some ".."%string.
Proof.
  intros Hmask Hin.
  destruct (listed_from_record _ _ _ Hin) as (e & -> & Hpass).
  rewrite created_is_folder.
  unfold passes_mask in Hpass. rewrite Hmask in Hpass.
  destruct (is_hidden e && negb (tst dwFlags SHCONTF_INCLUDEHIDDEN));
    [discriminate |].
  destruct (is_directory e); [| discriminate].
  apply andb_true_iff in Hpass. destruct Hpass as [Hpass Hdd].
  apply andb_true_iff in Hpass. destruct Hpass as [_ Hd].
  apply negb_true_iff in Hd, Hdd. apply String.eqb_neq in Hd, Hdd.
  cbn [wszName _ILCreateFromFindDataW].
  repeat split; congruence.
Qed.

(** X2: under a mask without the hidden-inclusion bit, no identifier the
    enumerator lists carries the hidden attribute. *)
Theorem Initialize_hides_hidden (lpszPath : option string) (dwFlags : Z)
        (p : ITEMID) :
  tst dwFlags SHCONTF_INCLUDEHIDDEN = false ->
  In p (snd (Initialize PathAddBackslashW FindFirstFileW lpszPath dwFlags)) ->
  tst (uFileAttribs p) FILE_ATTRIBUTE_HIDDEN = false.
Proof.
  intros Hmask Hin.
  destruct (listed_from_record _ _ _ Hin) as (e & -> & Hpass).
  cbn [uFileAttribs _ILCreateFromFindDataW].
  rewrite tst_low_word by (unfold FILE_ATTRIBUTE_HIDDEN; lia).
  unfold passes_mask, is_hidden in Hpass. rewrite Hmask in Hpass.
  destruct (tst (dwFileAttributes e) FILE_ATTRIBUTE_HIDDEN);
    [discriminate | reflexivity].
Qed.

(* Under a mask that does not request folders, every identifier the
    enumerator lists is a file. *)
Theorem Initialize_nonfolders_only (lpszPath : option string) (dwFlags : Z)
        (p : ITEMID) :
  tst dwFlags SHCONTF_FOLDERS = false ->
  In p (snd (Initialize PathAddBackslashW FindFirstFileW lpszPath dwFlags)) ->
  _ILIsValue [p] = true.
Proof.
  intros Hmask Hin.
  destruct (listed_from_record _ _ _ Hin) as (e & -> & Hpass).
  rewrite created_is_value.
  unfold passes_mask in Hpass. rewrite Hmask in Hpass.
  destruct (is_hidden e && negb (tst dwFlags SHCONTF_INCLUDEHIDDEN));
    [discriminate |].
  destruct (is_directory e); [discriminate | reflexivity].
Qed.

End EnumListing.

Lemma Initialize_folders_only_witness :
  tst SHCONTF_FOLDERS SHCONTF_NONFOLDERS = false
  /\ In (_ILCreateFromFindDataW rec_Sub)
        (snd (Enum.Initialize add_backslash dir_E (Some "C:\E"%string)
                SHCONTF_FOLDERS))
  /\ _ILIsFolder [_ILCreateFromFindDataW rec_Sub] = true
  /\ wszName (_ILCreateFromFindDataW rec_Sub) <> Some "."%string
  /\ wszName (_ILCreateFromFindDataW rec_Sub) <> Some ".."%string.
Proof.
  assert (Hmask : tst SHCONTF_FOLDERS SHCONTF_NONFOLDERS = false)
    by (vm_compute; reflexivity).
  assert (Hin : In (_ILCreateFromFindDataW rec_Sub)
                   (snd (Enum.Initialize add_backslash dir_E
                           (Some "C:\E"%string) SHCONTF_FOLDERS)))
    by (vm_compute; left; reflexivity).
  split; [exact Hmask |]. split; [exact Hin |].
  exact (Initialize_folders_only add_backslash dir_E (Some "C:\E"%string)
           SHCONTF_FOLDERS (_ILCreateFromFindDataW rec_Sub) Hmask Hin).
Defined.

Lemma Initialize_hides_hidden_witness :
  tst SHCONTF_FOLDERS SHCONTF_INCLUDEHIDDEN = false
  /\ In (_ILCreateFromFindDataW rec_Sub)
        (snd (Enum.Initialize add_backslash dir_E (Some "C:\E"%string)
                SHCONTF_FOLDERS))
  /\ tst (uFileAttribs (_ILCreateFromFindDataW rec_Sub))
         FILE_ATTRIBUTE_HIDDEN = false.
Proof.
  assert (Hmask : tst SHCONTF_FOLDERS SHCONTF_INCLUDEHIDDEN = false)
    by (vm_compute; reflexivity).
  assert (Hin : In (_ILCreateFromFindDataW rec_Sub)
                   (snd (Enum.Initialize add_backslash dir_E
                           (Some "C:\E"%string) SHCONTF_FOLDERS)))
    by (vm_compute; left; reflexivity).
  split; [exact Hmask |]. split; [exact Hin |].
  exact (Initialize_hides_hidden add_backslash dir_E (Some "C:\E"%string)
           SHCONTF_FOLDERS (_ILCreateFromFindDataW rec_Sub) Hmask Hin).
Defined.

Lemma Initialize_nonfolders_only_witness :
  tst SHCONTF_NONFOLDERS SHCONTF_FOLDERS = false
  /\ In (_ILCreateFromFindDataW rec_Doc)
        (snd (Enum.Initialize add_backslash dir_E (Some "C:\E"%string)
                SHCONTF_NONFOLDERS))
  /\ _ILIsValue [_ILCreateFromFindDataW rec_Doc] = true.
Proof.
  assert (Hmask : tst SHCONTF_NONFOLDERS SHCONTF_FOLDERS = false)
    by (vm_compute; reflexivity).
  assert (Hin : In (_ILCreateFromFindDataW rec_Doc)
                   (snd (Enum.Initialize add_backslash dir_E
                           (Some "C:\E"%string) SHCONTF_NONFOLDERS)))
    by (vm_compute; left; reflexivity).
  split; [exact Hmask |]. split; [exact Hin |].
  exact (Initialize_nonfolders_only add_backslash dir_E
           (Some "C:\E"%string) SHCONTF_NONFOLDERS
           (_ILCreateFromFindDataW rec_Doc) Hmask Hin).
Defined.

Lemma Initialize_returns_flag_witness :
  "C:\D"%string <> EmptyString
  /\ dir_D_failing (Enum.search_pattern add_backslash "C:\D")
     = Some (rec_Sub, Enum.mkHandle [] ERROR_ACCESS_DENIED)
  /\ fst (Enum.Initialize add_backslash dir_D_failing (Some "C:\D"%string)
            SHCONTF_FOLDERS)
     = BOOL_to_LONG (ERROR_ACCESS_DENIED =? ERROR_NO_MORE_FILES).
Proof.
  assert (Hne : "C:\D"%string <> EmptyString) by discriminate.
  assert (Hopen : dir_D_failing (Enum.search_pattern add_backslash "C:\D")
                  = Some (rec_Sub, Enum.mkHandle [] ERROR_ACCESS_DENIED))
    by (vm_compute; reflexivity).
  split; [exact Hne |]. split; [exact Hopen |].
  exact (Initialize_returns_flag add_backslash dir_D_failing "C:\D"
           SHCONTF_FOLDERS rec_Sub (Enum.mkHandle [] ERROR_ACCESS_DENIED)
           Hne Hopen).
Defined.

(** ** The classifier's bits *)

Section ClassifierBits.

Variable SF : Type.
Variable BindToObject : PIDL -> option SF.
Variable EnumObjects_FOLDERS : SF -> option (list ITEMID).

(* the classifier's result bitmask *)
Let attributes_of (pidl : PIDL) (requested : Z) : Z :=
  snd (Attr.SHELL32_GetFSItemAttributes SF BindToObject EnumObjects_FOLDERS
         pidl requested).

(* the capabilities every file-system item gets *)
Let common_attributes : Z :=
  Z.lor SFGAO_CANCOPY (Z.lor SFGAO_CANMOVE (Z.lor SFGAO_CANLINK
  (Z.lor SFGAO_CANRENAME (Z.lor SFGAO_CANDELETE (Z.lor SFGAO_HASPROPSHEET
  (Z.lor SFGAO_DROPTARGET SFGAO_FILESYSTEM)))))).

(* whether the probe finds a folder below the item *)
Let probe_finds_folder (pidl : PIDL) : bool :=
  match BindToObject pidl with
  | Some psf2 =>
      match EnumObjects_FOLDERS psf2 with
      | Some pEnumIL => Attr.Skip1_is_S_OK pEnumIL
      | None => false
      end
  | None => false
  end.

(* whether the item's extension is "lnk", in any letter case *)
Let is_shortcut (pidl : PIDL) : bool :=
  match _ILGetExtension pidl with
  | Some ext => wcsicmp ext "lnk" =? 0
  | None => false
  end.

Lemma fs_item_not_rejected (pidl : PIDL) :
  _ILIsFolder pidl || _ILIsValue pidl = true ->
  negb (_ILIsFolder pidl) && negb (_ILIsValue pidl) = false.
Proof.
  destruct (_ILIsFolder pidl), (_ILIsValue pidl);
    try reflexivity; discriminate.
Qed.

(* case analysis on every condition the classifier tests *)
Ltac classify :=
  unfold attributes_of, probe_finds_folder, is_shortcut,
    Attr.SHELL32_GetFSItemAttributes;
  repeat match goal with
         | H : _ || _ = true |- _ =>
             rewrite (fs_item_not_rejected _ H); clear H
         | H : tst _ _ = _ |- _ => rewrite H; clear H
         end;
  repeat match goal with
         | |- context [tst (_ILGetFileAttributes ?p) ?m] =>
             destruct (tst (_ILGetFileAttributes p) m)
         | |- context [tst ?c ?r] => is_var r; destruct (tst c r)
         | |- context [match _ILGetExtension ?p with _ => _ end] =>
             destruct (_ILGetExtension p)
         | |- context [wcsicmp ?e ?l =? 0] => destruct (wcsicmp e l =? 0)
         | |- context [match BindToObject ?p with _ => _ end] =>
             destruct (BindToObject p)
         | |- context [match EnumObjects_FOLDERS ?s with _ => _ end] =>
             destruct (EnumObjects_FOLDERS s)
         | |- context [Attr.Skip1_is_S_OK ?l] =>
             destruct (Attr.Skip1_is_S_OK l)
         end;
  cbn [snd]; repeat split; reflexivity.

(** X3: for a file or folder identifier the classifier's result always
    has the eight common capabilities, has the folder bit exactly when the
    raw attributes have the directory bit and the stream bit exactly when
    they do not, and has the hidden and read-only bits exactly when the
    raw attributes have them. *)
Theorem GetFSItemAttributes_attribute_bits (pidl : PIDL) (requested : Z) :
  _ILIsFolder pidl || _ILIsValue pidl = true ->
  Z.land (attributes_of pidl requested) common_attributes
  = common_attributes
  /\ tst (attributes_of pidl requested) SFGAO_FOLDER
     = tst (_ILGetFileAttributes pidl) FILE_ATTRIBUTE_DIRECTORY
  /\ tst (attributes_of pidl requested) SFGAO_STREAM
     = negb (tst (_ILGetFileAttributes pidl) FILE_ATTRIBUTE_DIRECTORY)
  /\ tst (attributes_of pidl requested) SFGAO_HIDDEN
     = tst (_ILGetFileAttributes pidl) FILE_ATTRIBUTE_HIDDEN
  /\ tst (attributes_of pidl requested) SFGAO_READONLY
     = tst (_ILGetFileAttributes pidl) FILE_ATTRIBUTE_READONLY.
Proof. intros Hkind. classify. Qed.

(** X4: for a file or folder identifier the result has the link bit
    exactly when the link bit was requested and the name's extension is
    "lnk" in any letter case. *)
Theorem GetFSItemAttributes_link_bit (pidl : PIDL) (requested : Z) :
  _ILIsFolder pidl || _ILIsValue pidl = true ->
  tst (attributes_of pidl requested) SFGAO_LINK
  = tst SFGAO_LINK requested && is_shortcut pidl.
Proof. intros Hkind. classify. Qed.

(** X5: for a file or folder identifier whose raw attributes lack the
    directory bit, the result has the has-subfolder bit exactly when that
    bit was requested and the probe (bind to the item, enumerate its
    folders, skip one) found a folder. *)
Theorem GetFSItemAttributes_probe_decides_for_files (pidl : PIDL)
        (requested : Z) :
  _ILIsFolder pidl || _ILIsValue pidl = true ->
  tst (_ILGetFileAttributes pidl) FILE_ATTRIBUTE_DIRECTORY = false ->
  tst (attributes_of pidl requested) SFGAO_HASSUBFOLDER
  = tst SFGAO_HASSUBFOLDER requested && probe_finds_folder pidl.
Proof. intros Hkind Hdir. classify. Qed.

(** X6: the requested mask is not intersected with the result: for a file
    or folder identifier, two requests that agree on the link bit and on
    the has-subfolder bit get the same answer. *)
Theorem GetFSItemAttributes_request_only_gates (pidl : PIDL)
        (requested1 requested2 : Z) :
  _ILIsFolder pidl || _ILIsValue pidl = true ->
  tst SFGAO_LINK requested1 = tst SFGAO_LINK requested2 ->
  tst SFGAO_HASSUBFOLDER requested1 = tst SFGAO_HASSUBFOLDER requested2 ->
  Attr.SHELL32_GetFSItemAttributes SF BindToObject EnumObjects_FOLDERS
    pidl requested1
  = Attr.SHELL32_GetFSItemAttributes SF BindToObject EnumObjects_FOLDERS
      pidl requested2.
Proof.
  intros Hkind Hlink Hsub. unfold Attr.SHELL32_GetFSItemAttributes.
  rewrite (fs_item_not_rejected _ Hkind), Hlink, Hsub. reflexivity.
Qed.

End ClassifierBits.

(** ** Comparison by column *)

Lemma wcsicmp_antisym (a : string) :
  forall b : string, wcsicmp b a = - wcsicmp a b.
Proof.
  induction a as [| c a IH]; intros [| d b]; cbn [wcsicmp]; try lia.
  rewrite (Z.eqb_sym (towlower d) (towlower c)).
  destruct (towlower c =? towlower d); [apply IH | lia].
Qed.

Lemma to_int_small (x : Z) :
  - 0x80000000 <= x < 0x80000000 -> to_int x = x.
Proof.
  intros Hx. unfold to_int. cbv zeta.
  destruct (x mod 4294967296 <? 2147483648) eqn:E;
    [apply Z.ltb_lt in E | apply Z.ltb_ge in E];
    Z.div_mod_to_equations; lia.
Qed.

Section CompareColumns.

Import Compare.

Variable SHELL32_CompareDetails : Z -> PIDL -> PIDL -> Z.
Variable SHELL32_CompareChildren : Z -> PIDL -> PIDL -> Z.

(* the folder's CompareIDs over these comparators *)
Let CompareIDs :=
  Compare.CompareIDs SHELL32_CompareDetails SHELL32_CompareChildren.

Lemma MAKE_COMPARE_HRESULT_neg (x : Z) :
  x < 0 -> MAKE_COMPARE_HRESULT x = S_LESSTHAN.
Proof.
  intros Hx. unfold MAKE_COMPARE_HRESULT.
  destruct (x >? 0) eqn:E1; [apply Z.gtb_lt in E1; lia |].
  destruct (x <? 0) eqn:E2; [reflexivity | apply Z.ltb_ge in E2; lia].
Qed.

Lemma MAKE_COMPARE_HRESULT_pos (x : Z) :
  0 < x -> MAKE_COMPARE_HRESULT x = S_GREATERTHAN.
Proof.
  intros Hx. unfold MAKE_COMPARE_HRESULT.
  destruct (x >? 0) eqn:E1; [reflexivity |].
  rewrite Z.gtb_ltb in E1. apply Z.ltb_ge in E1. lia.
Qed.

(* a comparison decided by a non-zero key *)
Lemma decided_by_key (lParam : Z) (pidl1 pidl2 : PIDL) (key : Z) :
  key <> 0 ->
  (if key =? 0 then SHELL32_CompareChildren lParam pidl1 pidl2
   else MAKE_COMPARE_HRESULT key)
  = if key <? 0 then S_LESSTHAN else S_GREATERTHAN.
Proof.
  intros Hk. destruct (key =? 0) eqn:E; [apply Z.eqb_eq in E; lia |].
  destruct (key <? 0) eqn:E2.
  - apply Z.ltb_lt in E2. apply MAKE_COMPARE_HRESULT_neg. exact E2.
  - apply Z.ltb_ge in E2. apply MAKE_COMPARE_HRESULT_pos. lia.
Qed.

(* two identifiers with file data and of the same kind reach the column
   switch *)
Ltac reach_switch Hn1 Hn2 Hkind Hcol :=
  unfold CompareIDs, Compare.CompareIDs;
  rewrite ?Hn1, ?Hn2, ?Hkind, ?Bool.eqb_reflx, ?Hcol;
  change (negb true) with false; cbv iota;
  cbn [Z.geb Z.compare Pos.compare Pos.compare_cont GENERICSHELLVIEWCOLUMNS].

(** X7: CompareIDs returns E_INVALIDARG, and calls neither generic
    comparator, when either identifier carries no file data or when the
    low word of lParam is not one of the six columns. *)
Theorem CompareIDs_rejects (lParam : Z) (pidl1 pidl2 : PIDL) :
  _ILGetFileStructW pidl1 = None \/ _ILGetFileStructW pidl2 = None
  \/ GENERICSHELLVIEWCOLUMNS <= LOWORD lParam ->
  CompareIDs lParam pidl1 pidl2 = E_INVALIDARG.
Proof.
  intros H. unfold CompareIDs, Compare.CompareIDs.
  destruct (_ILGetFileStructW pidl1) as [n1 |];
    destruct (_ILGetFileStructW pidl2) as [n2 |];
    try reflexivity;
    destruct H as [H | [H | H]]; try discriminate.
  assert (Hge : (LOWORD lParam >=? GENERICSHELLVIEWCOLUMNS) = true).
  { rewrite Z.geb_leb. apply Z.leb_le. exact H. }
  rewrite Hge. reflexivity.
Qed.

(** X9: under the Name column, two identifiers of the same kind whose
    names differ when letter case is ignored are ordered by that
    case-insensitive comparison, and swapping them swaps the answer. *)
Theorem CompareIDs_by_name (lParam : Z) (pidl1 pidl2 : PIDL)
        (name1 name2 : string) :
  _ILGetFileStructW pidl1 = Some name1 ->
  _ILGetFileStructW pidl2 = Some name2 ->
  _ILIsFolder pidl1 = _ILIsFolder pidl2 ->
  LOWORD lParam = 0 ->
  wcsicmp name1 name2 <> 0 ->
  CompareIDs lParam pidl1 pidl2
  = (if wcsicmp name1 name2 <? 0 then S_LESSTHAN else S_GREATERTHAN)
  /\ CompareIDs lParam pidl2 pidl1
     = (if wcsicmp name1 name2 <? 0 then S_GREATERTHAN else S_LESSTHAN).
Proof.
  intros Hn1 Hn2 Hkind Hcol Hdiff. split.
  - reach_switch Hn1 Hn2 Hkind Hcol. apply decided_by_key. exact Hdiff.
  - reach_switch Hn1 Hn2 Hkind Hcol.
    rewrite decided_by_key by (rewrite wcsicmp_antisym; lia).
    rewrite wcsicmp_antisym.
    destruct (wcsicmp name1 name2 <? 0) eqn:E;
      [apply Z.ltb_lt in E | apply Z.ltb_ge in E];
      destruct (- wcsicmp name1 name2 <? 0) eqn:E2;
      [apply Z.ltb_lt in E2 | apply Z.ltb_ge in E2
       | apply Z.ltb_lt in E2 | apply Z.ltb_ge in E2];
      try reflexivity; lia.
Qed.

(** X10: under the Modified column, of two identifiers of the same kind
    the one with the earlier date, or with the same date and the earlier
    time, compares as less, and as greater when the two are swapped. *)
Theorem CompareIDs_by_date_then_time (lParam : Z) (pidl1 pidl2 : PIDL)
        (name1 name2 : string) :
  _ILGetFileStructW pidl1 = Some name1 ->
  _ILGetFileStructW pidl2 = Some name2 ->
  _ILIsFolder pidl1 = _ILIsFolder pidl2 ->
  LOWORD lParam = 4 ->
  uFileDate (file_of pidl1) < uFileDate (file_of pidl2)
  \/ (uFileDate (file_of pidl1) = uFileDate (file_of pidl2)
      /\ uFileTime (file_of pidl1) < uFileTime (file_of pidl2)) ->
  CompareIDs lParam pidl1 pidl2 = S_LESSTHAN
  /\ CompareIDs lParam pidl2 pidl1 = S_GREATERTHAN.
Proof.
  intros Hn1 Hn2 Hkind Hcol Hlt. split.
  - reach_switch Hn1 Hn2 Hkind Hcol. cbv zeta.
    destruct (uFileDate (file_of pidl1) - uFileDate (file_of pidl2) =? 0)
      eqn:Ed; [apply Z.eqb_eq in Ed | apply Z.eqb_neq in Ed].
    + rewrite decided_by_key by lia.
      destruct (_ <? 0) eqn:E; [reflexivity | apply Z.ltb_ge in E; lia].
    + rewrite decided_by_key by lia.
      destruct (_ <? 0) eqn:E; [reflexivity | apply Z.ltb_ge in E; lia].
  - reach_switch Hn1 Hn2 Hkind Hcol. cbv zeta.
    destruct (uFileDate (file_of pidl2) - uFileDate (file_of pidl1) =? 0)
      eqn:Ed; [apply Z.eqb_eq in Ed | apply Z.eqb_neq in Ed].
    + rewrite decided_by_key by lia.
      destruct (_ <? 0) eqn:E; [apply Z.ltb_lt in E; lia | reflexivity].
    + rewrite decided_by_key by lia.
      destruct (_ <? 0) eqn:E; [apply Z.ltb_lt in E; lia | reflexivity].
Qed.

(** X11: under the Size column, two identifiers of the same kind whose
    sizes are DWORD values less than 2^31 apart are ordered by size: the
    smaller compares as less, and as greater when the two are swapped. *)
Theorem CompareIDs_by_size_when_close (lParam : Z) (pidl1 pidl2 : PIDL)
        (name1 name2 : string) :
  _ILGetFileStructW pidl1 = Some name1 ->
  _ILGetFileStructW pidl2 = Some name2 ->
  _ILIsFolder pidl1 = _ILIsFolder pidl2 ->
  LOWORD lParam = 3 ->
  0 <= dwFileSize (file_of pidl1) < dwFileSize (file_of pidl2) ->
  dwFileSize (file_of pidl2) - dwFileSize (file_of pidl1) < 0x80000000 ->
  CompareIDs lParam pidl1 pidl2 = S_LESSTHAN
  /\ CompareIDs lParam pidl2 pidl1 = S_GREATERTHAN.
Proof.
  intros Hn1 Hn2 Hkind Hcol Hlt Hclose. split.
  - reach_switch Hn1 Hn2 Hkind Hcol.
    rewrite to_int_small by lia. rewrite decided_by_key by lia.
    destruct (_ <? 0) eqn:E; [reflexivity | apply Z.ltb_ge in E; lia].
  - reach_switch Hn1 Hn2 Hkind Hcol.
    rewrite to_int_small by lia. rewrite decided_by_key by lia.
    destruct (_ <? 0) eqn:E; [apply Z.ltb_lt in E; lia | reflexivity].
Qed.

End CompareColumns.

Lemma GetFSItemAttributes_attribute_bits_witness :
  _ILIsFolder id_Doc || _ILIsValue id_Doc = true
  /\ tst (snd (Attr.SHELL32_GetFSItemAttributes unit no_child no_enum
                 id_Doc DWORD_ALL)) SFGAO_FOLDER
     = tst (_ILGetFileAttributes id_Doc) FILE_ATTRIBUTE_DIRECTORY
  /\ tst (snd (Attr.SHELL32_GetFSItemAttributes unit no_child no_enum
                 id_Doc DWORD_ALL)) SFGAO_STREAM
     = negb (tst (_ILGetFileAttributes id_Doc) FILE_ATTRIBUTE_DIRECTORY).
Proof.
  assert (Hkind : _ILIsFolder id_Doc || _ILIsValue id_Doc = true)
    by (vm_compute; reflexivity).
  destruct (GetFSItemAttributes_attribute_bits unit no_child no_enum id_Doc
              DWORD_ALL Hkind) as (_ & Hfolder & Hstream & _).
  exact (conj Hkind (conj Hfolder Hstream)).
Defined.

Lemma GetFSItemAttributes_link_bit_witness :
  _ILIsFolder id_Doc || _ILIsValue id_Doc = true
  /\ tst (snd (Attr.SHELL32_GetFSItemAttributes unit no_child no_enum
                 id_Doc SFGAO_LINK)) SFGAO_LINK
     = tst SFGAO_LINK SFGAO_LINK
       && match _ILGetExtension id_Doc with
          | Some ext => wcsicmp ext "lnk" =? 0
          | None => false
          end.
Proof.
  assert (Hkind : _ILIsFolder id_Doc || _ILIsValue id_Doc = true)
    by (vm_compute; reflexivity).
  split; [exact Hkind |].
  exact (GetFSItemAttributes_link_bit unit no_child no_enum id_Doc
           SFGAO_LINK Hkind).
Defined.

Lemma GetFSItemAttributes_probe_decides_for_files_witness :
  _ILIsFolder id_Doc || _ILIsValue id_Doc = true
  /\ tst (_ILGetFileAttributes id_Doc) FILE_ATTRIBUTE_DIRECTORY = false
  /\ tst (snd (Attr.SHELL32_GetFSItemAttributes unit no_child no_enum
                 id_Doc SFGAO_HASSUBFOLDER)) SFGAO_HASSUBFOLDER
     = tst SFGAO_HASSUBFOLDER SFGAO_HASSUBFOLDER
       && match no_child id_Doc with
          | Some psf2 =>
              match no_enum psf2 with
              | Some pEnumIL => Attr.Skip1_is_S_OK pEnumIL
              | None => false
              end
          | None => false
          end.
Proof.
  assert (Hkind : _ILIsFolder id_Doc || _ILIsValue id_Doc = true)
    by (vm_compute; reflexivity).
  assert (Hdir : tst (_ILGetFileAttributes id_Doc) FILE_ATTRIBUTE_DIRECTORY
                 = false)
    by (vm_compute; reflexivity).
  split; [exact Hkind |]. split; [exact Hdir |].
  exact (GetFSItemAttributes_probe_decides_for_files unit no_child no_enum
           id_Doc SFGAO_HASSUBFOLDER Hkind Hdir).
Defined.

Lemma GetFSItemAttributes_request_only_gates_witness :
  _ILIsFolder id_Doc || _ILIsValue id_Doc = true
  /\ tst SFGAO_LINK SFGAO_FOLDER = tst SFGAO_LINK SFGAO_CANCOPY
  /\ tst SFGAO_HASSUBFOLDER SFGAO_FOLDER
     = tst SFGAO_HASSUBFOLDER SFGAO_CANCOPY
  /\ Attr.SHELL32_GetFSItemAttributes unit no_child no_enum id_Doc
       SFGAO_FOLDER
     = Attr.SHELL32_GetFSItemAttributes unit no_child no_enum id_Doc
         SFGAO_CANCOPY.
Proof.
  assert (Hkind : _ILIsFolder id_Doc || _ILIsValue id_Doc = true)
    by (vm_compute; reflexivity).
  assert (Hlink : tst SFGAO_LINK SFGAO_FOLDER = tst SFGAO_LINK SFGAO_CANCOPY)
    by (vm_compute; reflexivity).
  assert (Hsub : tst SFGAO_HASSUBFOLDER SFGAO_FOLDER
                 = tst SFGAO_HASSUBFOLDER SFGAO_CANCOPY)
    by (vm_compute; reflexivity).
  split; [exact Hkind |]. split; [exact Hlink |]. split; [exact Hsub |].
  exact (GetFSItemAttributes_request_only_gates unit no_child no_enum
           id_Doc SFGAO_FOLDER SFGAO_CANCOPY Hkind Hlink Hsub).
Defined.

Lemma CompareIDs_rejects_witness :
  (_ILGetFileStructW id_Sub = None \/ _ILGetFileStructW id_Doc = None
   \/ Compare.GENERICSHELLVIEWCOLUMNS <= Compare.LOWORD 6)
  /\ Compare.CompareIDs details_equal children_equal 6 id_Sub id_Doc
     = E_INVALIDARG.
Proof.
  assert (H : _ILGetFileStructW id_Sub = None
              \/ _ILGetFileStructW id_Doc = None
              \/ Compare.GENERICSHELLVIEWCOLUMNS <= Compare.LOWORD 6)
    by (right; right; vm_compute; discriminate).
  split; [exact H |].
  exact (CompareIDs_rejects details_equal children_equal 6 id_Sub id_Doc H).
Defined.

Lemma CompareIDs_folder_first_witness :
  _ILGetFileStructW id_Sub = Some "Sub"%string
  /\ _ILGetFileStructW id_Doc = Some "Doc.txt"%string
  /\ Compare.LOWORD 0 < Compare.GENERICSHELLVIEWCOLUMNS
  /\ _ILIsFolder id_Sub = true
  /\ _ILIsFolder id_Doc = false
  /\ Compare.CompareIDs details_equal children_equal 0 id_Sub id_Doc
     = Compare.S_LESSTHAN
  /\ Compare.CompareIDs details_equal children_equal 0 id_Doc id_Sub
     = Compare.S_GREATERTHAN.
Proof.
  assert (H1 : _ILGetFileStructW id_Sub = Some "Sub"%string)
    by (vm_compute; reflexivity).
  assert (H2 : _ILGetFileStructW id_Doc = Some "Doc.txt"%string)
    by (vm_compute; reflexivity).
  assert (H3 : Compare.LOWORD 0 < Compare.GENERICSHELLVIEWCOLUMNS)
    by (vm_compute; reflexivity).
  assert (H4 : _ILIsFolder id_Sub = true) by (vm_compute; reflexivity).
  assert (H5 : _ILIsFolder id_Doc = false) by (vm_compute; reflexivity).
  destruct (CompareIDs_folder_first details_equal children_equal 0 id_Sub
              id_Doc "Sub" "Doc.txt" H1 H2 H3 H4 H5) as (Ha & Hb).
  exact (conj H1 (conj H2 (conj H3 (conj H4 (conj H5 (conj Ha Hb)))))).
Defined.

Lemma CompareIDs_by_name_witness :
  _ILGetFileStructW id_empty = Some "a.bin"%string
  /\ _ILGetFileStructW id_Doc = Some "Doc.txt"%string
  /\ _ILIsFolder id_empty = _ILIsFolder id_Doc
  /\ Compare.LOWORD 0 = 0
  /\ wcsicmp "a.bin" "Doc.txt" <> 0
  /\ Compare.CompareIDs details_equal children_equal 0 id_empty id_Doc
     = (if wcsicmp "a.bin" "Doc.txt" <? 0
        then Compare.S_LESSTHAN else Compare.S_GREATERTHAN)
  /\ Compare.CompareIDs details_equal children_equal 0 id_Doc id_empty
     = (if wcsicmp "a.bin" "Doc.txt" <? 0
        then Compare.S_GREATERTHAN else Compare.S_LESSTHAN).
Proof.
  assert (H1 : _ILGetFileStructW id_empty = Some "a.bin"%string)
    by (vm_compute; reflexivity).
  assert (H2 : _ILGetFileStructW id_Doc = Some "Doc.txt"%string)
    by (vm_compute; reflexivity).
  assert (H3 : _ILIsFolder id_empty = _ILIsFolder id_Doc)
    by (vm_compute; reflexivity).
  assert (H4 : Compare.LOWORD 0 = 0) by (vm_compute; reflexivity).
  assert (H5 : wcsicmp "a.bin" "Doc.txt" <> 0) by (vm_compute; discriminate).
  destruct (CompareIDs_by_name details_equal children_equal 0 id_empty
              id_Doc "a.bin" "Doc.txt" H1 H2 H3 H4 H5) as (Ha & Hb).
  exact (conj H1 (conj H2 (conj H3 (conj H4 (conj H5 (conj Ha Hb)))))).
Defined.

Lemma CompareIDs_by_date_then_time_witness :
  _ILGetFileStructW id_Old = Some "Old.txt"%string
  /\ _ILGetFileStructW id_Doc = Some "Doc.txt"%string
  /\ _ILIsFolder id_Old = _ILIsFolder id_Doc
  /\ Compare.LOWORD 4 = 4
  /\ (uFileDate (Compare.file_of id_Old) < uFileDate (Compare.file_of id_Doc)
      \/ (uFileDate (Compare.file_of id_Old)
          = uFileDate (Compare.file_of id_Doc)
          /\ uFileTime (Compare.file_of id_Old)
             < uFileTime (Compare.file_of id_Doc)))
  /\ Compare.CompareIDs details_equal children_equal 4 id_Old id_Doc
     = Compare.S_LESSTHAN
  /\ Compare.CompareIDs details_equal children_equal 4 id_Doc id_Old
     = Compare.S_GREATERTHAN.
Proof.
  assert (H1 : _ILGetFileStructW id_Old = Some "Old.txt"%string)
    by (vm_compute; reflexivity).
  assert (H2 : _ILGetFileStructW id_Doc = Some "Doc.txt"%string)
    by (vm_compute; reflexivity).
  assert (H3 : _ILIsFolder id_Old = _ILIsFolder id_Doc)
    by (vm_compute; reflexivity).
  assert (H4 : Compare.LOWORD 4 = 4) by (vm_compute; reflexivity).
  assert (H5 : uFileDate (Compare.file_of id_Old)
               < uFileDate (Compare.file_of id_Doc)
               \/ (uFileDate (Compare.file_of id_Old)
                   = uFileDate (Compare.file_of id_Doc)
                   /\ uFileTime (Compare.file_of id_Old)
                      < uFileTime (Compare.file_of id_Doc)))
    by (left; vm_compute; reflexivity).
  destruct (CompareIDs_by_date_then_time details_equal children_equal 4
              id_Old id_Doc "Old.txt" "Doc.txt" H1 H2 H3 H4 H5) as (Ha & Hb).
  exact (conj H1 (conj H2 (conj H3 (conj H4 (conj H5 (conj Ha Hb)))))).
Defined.

Lemma CompareIDs_by_size_when_close_witness :
  _ILGetFileStructW id_empty = Some "a.bin"%string
  /\ _ILGetFileStructW id_1536M = Some "b.bin"%string
  /\ _ILIsFolder id_empty = _ILIsFolder id_1536M
  /\ Compare.LOWORD 3 = 3
  /\ 0 <= dwFileSize (Compare.file_of id_empty)
       < dwFileSize (Compare.file_of id_1536M)
  /\ dwFileSize (Compare.file_of id_1536M)
     - dwFileSize (Compare.file_of id_empty) < 0x80000000
  /\ Compare.CompareIDs details_equal children_equal 3 id_empty id_1536M
     = Compare.S_LESSTHAN
  /\ Compare.CompareIDs details_equal children_equal 3 id_1536M id_empty
     = Compare.S_GREATERTHAN.
Proof.
  assert (H1 : _ILGetFileStructW id_empty = Some "a.bin"%string)
    by (vm_compute; reflexivity).
  assert (H2 : _ILGetFileStructW id_1536M = Some "b.bin"%string)
    by (vm_compute; reflexivity).
  assert (H3 : _ILIsFolder id_empty = _ILIsFolder id_1536M)
    by (vm_compute; reflexivity).
  assert (H4 : Compare.LOWORD 3 = 3) by (vm_compute; reflexivity).
  assert (H5 : 0 <= dwFileSize (Compare.file_of id_empty)
               < dwFileSize (Compare.file_of id_1536M))
    by (vm_compute; split; [discriminate | reflexivity]).
  assert (H6 : dwFileSize (Compare.file_of id_1536M)
               - dwFileSize (Compare.file_of id_empty) < 0x80000000)
    by (vm_compute; reflexivity).
  destruct (CompareIDs_by_size_when_close details_equal children_equal 3
              id_empty id_1536M "a.bin" "b.bin" H1 H2 H3 H4 H5 H6)
    as (Ha & Hb).
  exact (conj H1 (conj H2 (conj H3 (conj H4 (conj H5
          (conj H6 (conj Ha Hb))))))).
Defined.

(** ** Parsing: failures and the last segment *)

Section ParseOutcomes.

Import Parse.

Variable PathAddBackslashW : string -> string.
Variable stat : string -> option WIN32_FIND_DATAW.
Variable SHELL32_ParseNextElement :
  CFSFolder -> option BindCtx -> option PIDL -> string ->
  option Z -> option Z -> Z * option PIDL * option Z * option Z.
Variable SF : Type.
Variable BindToObject : CFSFolder -> PIDL -> option SF.
Variable EnumObjects_FOLDERS : SF -> option (list ITEMID).

(* the folder's ParseDisplayName over these collaborators *)
Let ParseDisplayName :=
  Parse.ParseDisplayName PathAddBackslashW stat SHELL32_ParseNextElement
    SF BindToObject EnumObjects_FOLDERS.


(** X12: whenever ParseDisplayName is given an identifier output and does
    not return a success code, it leaves NULL in that output: no partial
    identifier list comes back from a failed parse. *)
Theorem ParseDisplayName_failure_returns_NULL (this : CFSFolder)
        (pbc : option BindCtx) (lpszDisplayName : option string)
        (pchEaten : option Z) (cell : option PIDL)
        (pdwAttributes : option Z) :
  SUCCEEDED
    (r_hr (ParseDisplayName this pbc lpszDisplayName pchEaten (Some cell)
             pdwAttributes)) = false ->
  r_ppidl (ParseDisplayName this pbc lpszDisplayName pchEaten (Some cell)
             pdwAttributes) = Some None.
Proof.
  unfold ParseDisplayName, Parse.ParseDisplayName.
  destruct lpszDisplayName as [[| c text] |]; try reflexivity.
  destruct (GetNextElementW (String c text) MAX_PATH) as [szElement szNext].
  match goal with
  | |- context [let (_, _) := ?x in _] => destruct x as [hr0 pidlTemp]
  end.
  destruct (if SUCCEEDED hr0 then _ else _)
    as [[[hr1 pidl1] eaten1] attrs1].
  destruct (SUCCEEDED hr1) eqn:E; cbn [r_hr r_ppidl]; intros H;
    [congruence | reflexivity].
Qed.


End ParseOutcomes.

Lemma ParseDisplayName_failure_returns_NULL_witness :
  SUCCEEDED
    (Parse.r_hr
       (Parse.ParseDisplayName add_backslash empty_disk child_finds_nothing
          unit no_bind no_enum folder_D None (Some "Gone.txt"%string)
          None (Some (Some id_Doc)) None)) = false
  /\ Parse.r_ppidl
       (Parse.ParseDisplayName add_backslash empty_disk child_finds_nothing
          unit no_bind no_enum folder_D None (Some "Gone.txt"%string)
          None (Some (Some id_Doc)) None) = Some None.
Proof.
  assert (H : SUCCEEDED
                (Parse.r_hr
                   (Parse.ParseDisplayName add_backslash empty_disk
                      child_finds_nothing unit no_bind no_enum folder_D
                      None (Some "Gone.txt"%string) None
                      (Some (Some id_Doc)) None)) = false)
    by (vm_compute; reflexivity).
  split; [exact H |].
  exact (ParseDisplayName_failure_returns_NULL add_backslash empty_disk
           child_finds_nothing unit no_bind no_enum folder_D None
           (Some "Gone.txt"%string) None (Some id_Doc) None H).
Defined.


(** ** Renaming: the move and its notification *)

Section RenameOutcomes.

Import Rename.

Variable reg_HideFileExt : option Z.
Variable reg_ClassOf : string -> option string.
Variable reg_NeverShowExt : string -> bool.
Variable PathCombineW : option string -> string -> string.
Variable FS : Type.
Variable stat : FS -> string -> option WIN32_FIND_DATAW.
Variable MoveFileW : FS -> string -> string -> bool * FS.

(* the folder's rename over these collaborators *)
Let SetNameOf :=
  Rename.SetNameOf reg_HideFileExt reg_ClassOf reg_NeverShowExt
    PathCombineW FS stat MoveFileW.
Let source_path := Rename.source_path PathCombineW.
Let destination_path :=
  Rename.destination_path reg_HideFileExt reg_ClassOf reg_NeverShowExt
    PathCombineW.

(** X14: SetNameOf sends a notification only after MoveFileW has moved
    the source path to a different destination path, and then exactly
    one: it carries the source and the destination path and is tagged as
    a folder rename exactly when the identifier's last item is a folder.
    In every other case nothing is sent.  Both directions are stated:
    whenever the identifier has a name, the two paths differ and
    MoveFileW succeeds, that one notification is sent (whatever the
    creation of the output identifier returns afterwards) and the file
    system left is the one MoveFileW produced; and whenever anything was
    sent, the call was of that kind. *)
Theorem SetNameOf_notifies_only_after_move (this : CFSFolder) (fs : FS)
        (pidl : PIDL) (lpName : string) (dwFlags : Z)
        (pPidlOut : option (option PIDL)) :
  (forall wszName : string,
     _ILGetFileStructW pidl = Some wszName ->
     source_path this wszName
     <> destination_path this wszName lpName dwFlags ->
     fst (MoveFileW fs (source_path this wszName)
                    (destination_path this wszName lpName dwFlags)) = true ->
     o_notified (SetNameOf this fs pidl lpName dwFlags pPidlOut)
     = [mkNotify (if _ILIsFolder (ILFindLastID pidl)
                  then SHCNE_RENAMEFOLDER else SHCNE_RENAMEITEM)
                 (source_path this wszName)
                 (destination_path this wszName lpName dwFlags)]
     /\ o_fs (SetNameOf this fs pidl lpName dwFlags pPidlOut)
        = snd (MoveFileW fs (source_path this wszName)
                         (destination_path this wszName lpName dwFlags)))
  /\ (o_notified (SetNameOf this fs pidl lpName dwFlags pPidlOut) = []
      \/ exists wszName : string,
           _ILGetFileStructW pidl = Some wszName
           /\ source_path this wszName
              <> destination_path this wszName lpName dwFlags
           /\ MoveFileW fs (source_path this wszName)
                        (destination_path this wszName lpName dwFlags)
              = (true, o_fs (SetNameOf this fs pidl lpName dwFlags pPidlOut))
           /\ o_notified (SetNameOf this fs pidl lpName dwFlags pPidlOut)
              = [mkNotify (if _ILIsFolder (ILFindLastID pidl)
                           then SHCNE_RENAMEFOLDER else SHCNE_RENAMEITEM)
                          (source_path this wszName)
                          (destination_path this wszName lpName dwFlags)]).
Proof.
  unfold SetNameOf, Rename.SetNameOf, source_path, destination_path.
  split.
  - intros wszName Hname Hdiff Hmove. rewrite Hname.
    apply String.eqb_neq in Hdiff. unfold wcs_eq. rewrite Hdiff.
    destruct (MoveFileW _ _ _) as [moved fs']. cbn in Hmove. subst moved.
    destruct (create_out _ _ _ _ _). split; reflexivity.
  - destruct (_ILGetFileStructW pidl) as [wszName |]; [| left; reflexivity].
    destruct (wcs_eq _ _) eqn:Eeq.
    + left. destruct (create_out _ _ _ _ _); reflexivity.
    + destruct (MoveFileW _ _ _) as [[|] fs'] eqn:Emove.
      * right. exists wszName. split; [reflexivity |]. split.
        -- intros Hsame. unfold wcs_eq in Eeq. rewrite Hsame in Eeq.
           rewrite String.eqb_refl in Eeq. discriminate.
        -- destruct (create_out _ _ _ _ _). cbn. rewrite Emove.
           split; reflexivity.
      * left. reflexivity.
Qed.

(** X15: when the source and destination paths differ and MoveFileW
    fails, SetNameOf returns E_FAIL, sends no notification and leaves the
    output identifier as it was. *)
Theorem SetNameOf_failed_move (this : CFSFolder) (fs : FS) (pidl : PIDL)
        (wszName lpName : string) (dwFlags : Z)
        (pPidlOut : option (option PIDL)) :
  _ILGetFileStructW pidl = Some wszName ->
  source_path this wszName <> destination_path this wszName lpName dwFlags ->
  fst (MoveFileW fs (source_path this wszName)
                 (destination_path this wszName lpName dwFlags)) = false ->
  o_hr (SetNameOf this fs pidl lpName dwFlags pPidlOut) = E_FAIL
  /\ o_notified (SetNameOf this fs pidl lpName dwFlags pPidlOut) = []
  /\ o_pPidlOut (SetNameOf this fs pidl lpName dwFlags pPidlOut) = pPidlOut.
Proof.
  unfold SetNameOf, Rename.SetNameOf, source_path, destination_path.
  intros Hname Hdiff Hmove. rewrite Hname.
  apply String.eqb_neq in Hdiff. unfold wcs_eq. rewrite Hdiff.
  destruct (MoveFileW _ _ _) as [moved fs']. cbn in Hmove. subst moved.
  cbn. repeat split.
Qed.

End RenameOutcomes.

Lemma SetNameOf_failed_move_witness :
  _ILGetFileStructW id_Doc = Some "Doc.txt"%string
  /\ Rename.source_path combine folder_D "Doc.txt"
     <> Rename.destination_path reg_show_all reg_no_class reg_never combine
          folder_D "Doc.txt" "Sub" SHGDN_INFOLDER
  /\ fst (disk_move disk_D
            (Rename.source_path combine folder_D "Doc.txt")
            (Rename.destination_path reg_show_all reg_no_class reg_never
               combine folder_D "Doc.txt" "Sub" SHGDN_INFOLDER)) = false
  /\ Rename.o_hr (Rename.SetNameOf reg_show_all reg_no_class reg_never
                    combine Disk disk_stat disk_move folder_D disk_D id_Doc
                    "Sub" SHGDN_INFOLDER (Some None)) = E_FAIL
  /\ Rename.o_notified
       (Rename.SetNameOf reg_show_all reg_no_class reg_never combine Disk
          disk_stat disk_move folder_D disk_D id_Doc "Sub" SHGDN_INFOLDER
          (Some None)) = []
  /\ Rename.o_pPidlOut
       (Rename.SetNameOf reg_show_all reg_no_class reg_never combine Disk
          disk_stat disk_move folder_D disk_D id_Doc "Sub" SHGDN_INFOLDER
          (Some None)) = Some None.
Proof.
  assert (H1 : _ILGetFileStructW id_Doc = Some "Doc.txt"%string)
    by (vm_compute; reflexivity).
  assert (H2 : Rename.source_path combine folder_D "Doc.txt"
               <> Rename.destination_path reg_show_all reg_no_class
                    reg_never combine folder_D "Doc.txt" "Sub"
                    SHGDN_INFOLDER)
    by (vm_compute; discriminate).
  assert (H3 : fst (disk_move disk_D
                      (Rename.source_path combine folder_D "Doc.txt")
                      (Rename.destination_path reg_show_all reg_no_class
                         reg_never combine folder_D "Doc.txt" "Sub"
                         SHGDN_INFOLDER)) = false)
    by (vm_compute; reflexivity).
  destruct (SetNameOf_failed_move reg_show_all reg_no_class reg_never
              combine Disk disk_stat disk_move folder_D disk_D id_Doc
              "Doc.txt" "Sub" SHGDN_INFOLDER (Some None) H1 H2 H3)
    as (Ha & Hb & Hc).
  exact (conj H1 (conj H2 (conj H3 (conj Ha (conj Hb Hc))))).
Defined.

Lemma SetNameOf_notifies_only_after_move_witness :
  _ILGetFileStructW id_Doc = Some "Doc.txt"%string
  /\ Rename.source_path combine folder_D "Doc.txt"
     <> Rename.destination_path reg_show_all reg_no_class reg_never combine
          folder_D "Doc.txt" "New.txt" SHGDN_INFOLDER
  /\ fst (disk_move disk_D
            (Rename.source_path combine folder_D "Doc.txt")
            (Rename.destination_path reg_show_all reg_no_class reg_never
               combine folder_D "Doc.txt" "New.txt" SHGDN_INFOLDER)) = true
  /\ Rename.o_notified
       (Rename.SetNameOf reg_show_all reg_no_class reg_never combine Disk
          disk_stat disk_move folder_D disk_D id_Doc "New.txt"
          SHGDN_INFOLDER (Some None))
     = [Rename.mkNotify SHCNE_RENAMEITEM "C:\D\Doc.txt" "C:\D\New.txt"].
Proof.
  assert (H1 : _ILGetFileStructW id_Doc = Some "Doc.txt"%string)
    by (vm_compute; reflexivity).
  assert (H2 : Rename.source_path combine folder_D "Doc.txt"
               <> Rename.destination_path reg_show_all reg_no_class
                    reg_never combine folder_D "Doc.txt" "New.txt"
                    SHGDN_INFOLDER)
    by (vm_compute; discriminate).
  assert (H3 : fst (disk_move disk_D
                      (Rename.source_path combine folder_D "Doc.txt")
                      (Rename.destination_path reg_show_all reg_no_class
                         reg_never combine folder_D "Doc.txt" "New.txt"
                         SHGDN_INFOLDER)) = true)
    by (vm_compute; reflexivity).
  destruct (SetNameOf_notifies_only_after_move reg_show_all reg_no_class
              reg_never combine Disk disk_stat disk_move folder_D disk_D
              id_Doc "New.txt" SHGDN_INFOLDER (Some None))
    as [Hsent _].
  destruct (Hsent "Doc.txt"%string H1 H2 H3) as [Hone _].
  refine (conj H1 (conj H2 (conj H3 (eq_trans Hone _)))).
  vm_compute. reflexivity.
Defined.

(** ** Display names *)

Lemma PathFindExtensionW_is_suffix (s : string) :
  exists stem : string, s = String.append stem (PathFindExtensionW s).
Proof.
  induction s as [| c s IH].
  - exists EmptyString. reflexivity.
  - cbn [PathFindExtensionW].
    destruct (PathFindExtensionW s) as [| e ext] eqn:E.
    + destruct (Ascii.eqb c dot_char && negb (has_sep s)).
      * exists EmptyString. reflexivity.
      * destruct IH as [stem Hstem]. exists (String c stem).
        cbn. rewrite <- Hstem. reflexivity.
    + destruct IH as [stem Hstem]. exists (String c stem).
      cbn. rewrite <- Hstem. reflexivity.
Qed.

Lemma append_length (a b : string) :
  String.length (String.append a b)
  = (String.length a + String.length b)%nat.
Proof. induction a as [| c a IH]; cbn; [reflexivity | rewrite IH; reflexivity]. Qed.

Lemma substring_stem (stem ext : string) :
  String.substring 0 (String.length stem) (String.append stem ext) = stem.
Proof.
  induction stem as [| c stem IH]; cbn.
  - destruct ext; reflexivity.
  - rewrite IH. reflexivity.
Qed.

Lemma PathRemoveExtensionW_stem (s : string) :
  String.append (Display.PathRemoveExtensionW s) (PathFindExtensionW s) = s.
Proof.
  unfold Display.PathRemoveExtensionW.
  destruct (PathFindExtensionW_is_suffix s) as [stem Hstem].
  rewrite Hstem at 1 3. rewrite append_length.
  replace (String.length stem + String.length (PathFindExtensionW s)
           - String.length (PathFindExtensionW s))%nat
    with (String.length stem) by lia.
  rewrite substring_stem. symmetry. exact Hstem.
Qed.

Lemma tst_GET_SHGDN_FOR (dwFlags : Z) :
  tst (Display.GET_SHGDN_FOR dwFlags) SHGDN_FORPARSING
  = tst dwFlags SHGDN_FORPARSING.
Proof.
  unfold tst, Display.GET_SHGDN_FOR. rewrite <- Z.land_assoc. reflexivity.
Qed.

Section DisplayProofs.

Import Display.

Variable reg_HideFileExt : option Z.
Variable reg_ClassOf : string -> option string.
Variable reg_NeverShowExt : string -> bool.
Variable PathAddBackslashW : string -> string.
Variable SHELL32_GetDisplayNameOfChild :
  CFSFolder -> PIDL -> Z -> Z * option string.
Variable other_text : PIDL -> string.

(* the folder's GetDisplayNameOf under the registry at hand, and under a
   registry in which no extension is hidden *)
Let GetDisplayNameOf :=
  Display.GetDisplayNameOf reg_HideFileExt reg_ClassOf reg_NeverShowExt
    PathAddBackslashW SHELL32_GetDisplayNameOfChild other_text.
Let GetDisplayNameOf_nothing_hidden :=
  Display.GetDisplayNameOf None (fun _ => None) (fun _ => false)
    PathAddBackslashW SHELL32_GetDisplayNameOfChild other_text.
Let HideExtension :=
  Rename.SHELL_FS_HideExtension reg_HideFileExt reg_ClassOf
    reg_NeverShowExt.

Lemma nothing_hidden (szPath : string) :
  Rename.SHELL_FS_HideExtension None (fun _ => None) (fun _ => false) szPath
  = false.
Proof.
  unfold Rename.SHELL_FS_HideExtension. cbn.
  destruct (PathFindExtensionW szPath); reflexivity.
Qed.

Lemma first_is_not_dot_copy (s : string) (n : nat) :
  (2 <= n)%nat -> first_is_not_dot (lstrcpynW s n) = first_is_not_dot s.
Proof.
  intros Hn. unfold lstrcpynW. destruct s as [| c s]; cbn.
  - destruct (n - 1)%nat; reflexivity.
  - destruct (n - 1)%nat as [| m] eqn:E; [lia | reflexivity].
Qed.

(* the path prefix of a full parsing name, empty for any other format *)
Let display_prefix (this : CFSFolder) (dwFlags : Z) : string :=
  match sPathTarget this with
  | Some path =>
      if tst (GET_SHGDN_FOR dwFlags) SHGDN_FORPARSING
         && negb (GET_SHGDN_RELATION dwFlags =? SHGDN_INFOLDER)
      then PathAddBackslashW (lstrcpynW path MAX_PATH)
      else EmptyString
  | None => EmptyString
  end.

(* the name before extension hiding is applied *)
Let raw_name (this : CFSFolder) (item : ITEMID) (dwFlags : Z) : string :=
  String.append (display_prefix this dwFlags)
    (_ILSimpleGetTextW other_text [item]
       (MAX_PATH + 1 - wcslen (display_prefix this dwFlags))).

Lemma GetDisplayNameOf_single (hide : option Z)
      (class_of : string -> option string) (never : string -> bool)
      (this : CFSFolder) (item : ITEMID) (dwFlags : Z) :
  Display.GetDisplayNameOf hide class_of never PathAddBackslashW
    SHELL32_GetDisplayNameOfChild other_text this (Some [item]) dwFlags true
  = (S_OK,
     Some (if negb (_ILIsFolder [item])
           then SHELL_FS_ProcessDisplayFilename hide class_of never
                  (raw_name this item dwFlags) dwFlags
           else raw_name this item dwFlags)).
Proof. reflexivity. Qed.

Lemma display_prefix_empty (this : CFSFolder) (dwFlags : Z) :
  tst dwFlags SHGDN_FORPARSING = false ->
  display_prefix this dwFlags = EmptyString.
Proof.
  intros H. unfold display_prefix. rewrite tst_GET_SHGDN_FOR, H.
  destruct (sPathTarget this); reflexivity.
Qed.

Lemma raw_name_display (this : CFSFolder) (item : ITEMID)
      (wszName : string) (dwFlags : Z) :
  _ILGetFileStructW [item] = Some wszName ->
  tst dwFlags SHGDN_FORPARSING = false ->
  raw_name this item dwFlags = lstrcpynW wszName (MAX_PATH + 1).
Proof.
  intros Hname H. unfold raw_name. rewrite display_prefix_empty by exact H.
  unfold _ILSimpleGetTextW. rewrite Hname. reflexivity.
Qed.

Lemma process_keeps (hide : option Z) (class_of : string -> option string)
      (never : string -> bool) (szPath : string) (dwFlags : Z) :
  tst dwFlags SHGDN_FORPARSING = true \/ first_is_not_dot szPath = false ->
  SHELL_FS_ProcessDisplayFilename hide class_of never szPath dwFlags
  = szPath.
Proof.
  intros [H | H]; unfold SHELL_FS_ProcessDisplayFilename; rewrite H.
  - reflexivity.
  - rewrite andb_false_r. destruct (_ && _); reflexivity.
Qed.

(** X16: extension hiding never touches the display name of a folder, a
    name asked for parsing, or a name that starts with a dot: for a
    single identifier with a stored name the answer is the one given when
    no extension is hidden at all. *)
Theorem GetDisplayNameOf_keeps_full_name (this : CFSFolder) (item : ITEMID)
        (wszName : string) (dwFlags : Z) (strRet : bool) :
  _ILGetFileStructW [item] = Some wszName ->
  _ILIsFolder [item] = true \/ tst dwFlags SHGDN_FORPARSING = true
  \/ first_is_not_dot wszName = false ->
  GetDisplayNameOf this (Some [item]) dwFlags strRet
  = GetDisplayNameOf_nothing_hidden this (Some [item]) dwFlags strRet.
Proof.
  intros Hname Hcase.
  unfold GetDisplayNameOf, GetDisplayNameOf_nothing_hidden.
  destruct strRet; [| reflexivity].
  rewrite !GetDisplayNameOf_single.
  destruct (_ILIsFolder [item]) eqn:Efolder; [reflexivity |].
  cbn [negb].
  assert (Hkeep : tst dwFlags SHGDN_FORPARSING = true
                  \/ first_is_not_dot (raw_name this item dwFlags) = false).
  { destruct Hcase as [H | [H | H]]; [discriminate | left; exact H |].
    destruct (tst dwFlags SHGDN_FORPARSING) eqn:Eparse;
      [left; reflexivity | right].
    rewrite (raw_name_display _ _ _ _ Hname Eparse).
    rewrite first_is_not_dot_copy by (unfold MAX_PATH; lia). exact H. }
  rewrite !process_keeps by exact Hkeep. reflexivity.
Qed.

(** X17: for a file whose extension is being hidden, asked for by a
    display format (no parsing flag; in-folder or plain normal), with a
    stored name of at most MAX_PATH characters that does not start with a
    dot, GetDisplayNameOf returns the stored name without its extension:
    the text returned followed by the extension is the stored name. *)
Theorem GetDisplayNameOf_hides_extension (this : CFSFolder) (item : ITEMID)
        (wszName : string) (dwFlags : Z) :
  _ILGetFileStructW [item] = Some wszName ->
  _ILIsFolder [item] = false ->
  tst dwFlags SHGDN_FORPARSING = false ->
  tst dwFlags SHGDN_INFOLDER = true \/ dwFlags = SHGDN_NORMAL ->
  (String.length wszName <= MAX_PATH)%nat ->
  first_is_not_dot wszName = true ->
  HideExtension wszName = true ->
  exists text : string,
    GetDisplayNameOf this (Some [item]) dwFlags true = (S_OK, Some text)
    /\ String.append text (PathFindExtensionW wszName) = wszName.
Proof.
  intros Hname Hfile Hparse Hrel Hlen Hdot Hhide.
  exists (PathRemoveExtensionW wszName). split;
    [| apply PathRemoveExtensionW_stem].
  unfold GetDisplayNameOf. rewrite GetDisplayNameOf_single.
  rewrite Hfile. cbn [negb].
  rewrite (raw_name_display _ _ _ _ Hname Hparse).
  assert (Hcopy : lstrcpynW wszName (MAX_PATH + 1) = wszName).
  { unfold lstrcpynW. apply substring_all. unfold MAX_PATH in *. lia. }
  rewrite Hcopy. unfold SHELL_FS_ProcessDisplayFilename.
  rewrite Hparse. unfold HideExtension in Hhide. rewrite Hhide, Hdot.
  assert (Hshow : tst dwFlags SHGDN_INFOLDER || (dwFlags =? SHGDN_NORMAL)
                  = true).
  { destruct Hrel as [H | H]; [rewrite H; reflexivity |].
    subst dwFlags. apply orb_true_r. }
  rewrite Hshow. reflexivity.
Qed.

End DisplayProofs.

Lemma GetDisplayNameOf_keeps_full_name_witness :
  _ILGetFileStructW id_Doc = Some "Doc.txt"%string
  /\ (_ILIsFolder id_Doc = true
      \/ tst (Z.lor SHGDN_INFOLDER SHGDN_FORPARSING) SHGDN_FORPARSING = true
      \/ Display.first_is_not_dot "Doc.txt" = false)
  /\ Display.GetDisplayNameOf reg_hide_known reg_no_class reg_never
       add_backslash (fun _ _ _ => (E_FAIL, None)) (fun _ => EmptyString)
       folder_D (Some id_Doc) (Z.lor SHGDN_INFOLDER SHGDN_FORPARSING) true
     = Display.GetDisplayNameOf None (fun _ => None) (fun _ => false)
         add_backslash (fun _ _ _ => (E_FAIL, None)) (fun _ => EmptyString)
         folder_D (Some id_Doc) (Z.lor SHGDN_INFOLDER SHGDN_FORPARSING) true.
Proof.
  assert (H1 : _ILGetFileStructW id_Doc = Some "Doc.txt"%string)
    by (vm_compute; reflexivity).
  assert (H2 : _ILIsFolder id_Doc = true
               \/ tst (Z.lor SHGDN_INFOLDER SHGDN_FORPARSING)
                      SHGDN_FORPARSING = true
               \/ Display.first_is_not_dot "Doc.txt" = false)
    by (right; left; vm_compute; reflexivity).
  split; [exact H1 |]. split; [exact H2 |].
  exact (GetDisplayNameOf_keeps_full_name reg_hide_known reg_no_class
           reg_never add_backslash (fun _ _ _ => (E_FAIL, None))
           (fun _ => EmptyString) folder_D (_ILCreateFromFindDataW rec_Doc)
           "Doc.txt" (Z.lor SHGDN_INFOLDER SHGDN_FORPARSING) true H1 H2).
Defined.

Lemma GetDisplayNameOf_hides_extension_witness :
  _ILGetFileStructW id_Doc = Some "Doc.txt"%string
  /\ _ILIsFolder id_Doc = false
  /\ tst SHGDN_INFOLDER SHGDN_FORPARSING = false
  /\ (tst SHGDN_INFOLDER SHGDN_INFOLDER = true
      \/ SHGDN_INFOLDER = SHGDN_NORMAL)
  /\ (String.length "Doc.txt" <= MAX_PATH)%nat
  /\ Display.first_is_not_dot "Doc.txt" = true
  /\ Rename.SHELL_FS_HideExtension reg_hide_known reg_no_class reg_never
       "Doc.txt" = true
  /\ exists text : string,
      Display.GetDisplayNameOf reg_hide_known reg_no_class reg_never
        add_backslash (fun _ _ _ => (E_FAIL, None)) (fun _ => EmptyString)
        folder_D (Some id_Doc) SHGDN_INFOLDER true = (S_OK, Some text)
      /\ String.append text (PathFindExtensionW "Doc.txt")
         = "Doc.txt"%string.
Proof.
  assert (H1 : _ILGetFileStructW id_Doc = Some "Doc.txt"%string)
    by (vm_compute; reflexivity).
  assert (H2 : _ILIsFolder id_Doc = false) by (vm_compute; reflexivity).
  assert (H3 : tst SHGDN_INFOLDER SHGDN_FORPARSING = false)
    by (vm_compute; reflexivity).
  assert (H4 : tst SHGDN_INFOLDER SHGDN_INFOLDER = true
               \/ SHGDN_INFOLDER = SHGDN_NORMAL)
    by (left; vm_compute; reflexivity).
  assert (H5 : (String.length "Doc.txt" <= MAX_PATH)%nat)
    by (vm_compute; lia).
  assert (H6 : Display.first_is_not_dot "Doc.txt" = true)
    by (vm_compute; reflexivity).
  assert (H7 : Rename.SHELL_FS_HideExtension reg_hide_known reg_no_class
                 reg_never "Doc.txt" = true)
    by (vm_compute; reflexivity).
  exact (conj H1 (conj H2 (conj H3 (conj H4 (conj H5 (conj H6 (conj H7
          (GetDisplayNameOf_hides_extension reg_hide_known reg_no_class
             reg_never add_backslash (fun _ _ _ => (E_FAIL, None))
             (fun _ => EmptyString) folder_D
             (_ILCreateFromFindDataW rec_Doc) "Doc.txt" SHGDN_INFOLDER
             H1 H2 H3 H4 H5 H6 H7)))))))).
Defined.

(* with extensions hidden, Doc.txt is shown as "Doc" *)
Example GetDisplayNameOf_Doc_hidden_extension :
  Display.GetDisplayNameOf reg_hide_known reg_no_class reg_never
    add_backslash (fun _ _ _ => (E_FAIL, None)) (fun _ => EmptyString)
    folder_D (Some id_Doc) SHGDN_NORMAL true
  = (S_OK, Some "Doc"%string).
Proof. vm_compute. reflexivity. Qed.

(** ** The folder's state *)

Section PersistProofs.

Import Persist.

Variable SHGetPathFromIDListW : option PIDL -> option string.
Variable SHGetSpecialFolderPathW : Z -> bool -> option string.

Let Initialize := Persist.Initialize SHGetPathFromIDListW.
Let InitializeEx :=
  Persist.InitializeEx SHGetPathFromIDListW SHGetSpecialFolderPathW.

(** X18: InitializeEx always replaces the root identifier list by the one
    given and never keeps the old target path; it returns S_OK exactly
    when it has set a target path and E_FAIL when it has not, in which
    case the folder is left with the new root and no path. *)
Theorem InitializeEx_result (this : CFSFolder) (pidlRootx : option PIDL)
        (ppfti : option PERSIST_FOLDER_TARGET_INFO) :
  pidlRoot (snd (InitializeEx this pidlRootx ppfti)) = pidlRootx
  /\ ((fst (InitializeEx this pidlRootx ppfti) = S_OK
       /\ exists path : string,
           sPathTarget (snd (InitializeEx this pidlRootx ppfti))
           = Some path)
      \/ (fst (InitializeEx this pidlRootx ppfti) = E_FAIL
          /\ sPathTarget (snd (InitializeEx this pidlRootx ppfti)) = None))
  /\ InitializeEx this pidlRootx ppfti
     = InitializeEx (mkFolder None None) pidlRootx ppfti.
Proof.
  unfold InitializeEx, Persist.InitializeEx. cbv zeta.
  split; [reflexivity |]. split; [| reflexivity].
  cbn [fst snd sPathTarget].
  match goal with
  | |- context [match ?x with Some _ => S_OK | None => E_FAIL end] =>
      destruct x as [path |]
  end.
  - left. split; [reflexivity | exists path; reflexivity].
  - right. split; reflexivity.
Qed.

(** X19: the target of InitializeEx is chosen in a fixed order.  A csidl
    other than -1 decides alone: the path is the special folder's, or
    none when that lookup fails, whatever parsing name and target
    identifier list are also given.  With csidl -1 a non-empty parsing
    name is taken as it is, whatever the target identifier list. *)
Theorem InitializeEx_target_order (this : CFSFolder)
        (pidlRootx : option PIDL) (pfti : PERSIST_FOLDER_TARGET_INFO) :
  (csidl pfti <> -1 ->
   sPathTarget (snd (InitializeEx this pidlRootx (Some pfti)))
   = SHGetSpecialFolderPathW (csidl pfti)
       (tst (csidl pfti) CSIDL_FLAG_CREATE))
  /\ (csidl pfti = -1 -> szTargetParsingName pfti <> EmptyString ->
      InitializeEx this pidlRootx (Some pfti)
      = (S_OK, mkFolder pidlRootx (Some (szTargetParsingName pfti)))).
Proof.
  unfold InitializeEx, Persist.InitializeEx. cbv zeta. split.
  - intros Hcsidl. apply Z.eqb_neq in Hcsidl. rewrite Hcsidl.
    cbn [negb fst snd sPathTarget].
    destruct (SHGetSpecialFolderPathW _ _); reflexivity.
  - intros Hcsidl Hname. rewrite Hcsidl. cbn [Z.eqb negb].
    destruct (szTargetParsingName pfti); [congruence | reflexivity].
Qed.

(** X20: Initialize always returns S_OK, also when the path of the
    identifier list cannot be resolved; afterwards GetCurFolder gives
    back the identifier list Initialize was called with, and the target
    path is the resolved path or none. *)
Theorem Initialize_then_GetCurFolder (this : CFSFolder)
        (pidl : option PIDL) (cell : option PIDL) :
  fst (Initialize this pidl) = S_OK
  /\ GetCurFolder (snd (Initialize this pidl)) (Some cell)
     = (S_OK, Some pidl)
  /\ sPathTarget (snd (Initialize this pidl)) = SHGetPathFromIDListW pidl.
Proof.
  unfold Initialize, Persist.Initialize, GetCurFolder. cbv zeta.
  destruct (SHGetPathFromIDListW pidl); repeat split.
Qed.

End PersistProofs.

Lemma InitializeEx_target_order_witness :
  (csidl (mkTargetInfo None "C:\D" EmptyString DWORD_ALL (-1)) = -1)
  /\ szTargetParsingName (mkTargetInfo None "C:\D" EmptyString DWORD_ALL (-1))
     <> EmptyString
  /\ Persist.InitializeEx (fun _ => None) (fun _ _ => None)
       (mkFolder None None) (pidlRoot folder_D)
       (Some (mkTargetInfo None "C:\D" EmptyString DWORD_ALL (-1)))
     = (S_OK, folder_D).
Proof.
  assert (H1 : csidl (mkTargetInfo None "C:\D" EmptyString DWORD_ALL (-1))
               = -1) by reflexivity.
  assert (H2 : szTargetParsingName
                 (mkTargetInfo None "C:\D" EmptyString DWORD_ALL (-1))
               <> EmptyString) by discriminate.
  split; [exact H1 |]. split; [exact H2 |].
  exact (proj2 (InitializeEx_target_order (fun _ => None) (fun _ _ => None)
                  (mkFolder None None) (pidlRoot folder_D)
                  (mkTargetInfo None "C:\D" EmptyString DWORD_ALL (-1)))
               H1 H2).
Defined.

(** ** Names that round-trip *)

Section RoundTrips.

Variable reg_HideFileExt : option Z.
Variable reg_ClassOf : string -> option string.
Variable reg_NeverShowExt : string -> bool.
Variable PathAddBackslashW : string -> string.
Variable SHELL32_GetDisplayNameOfChild :
  CFSFolder -> PIDL -> Z -> Z * option string.
Variable other_text : PIDL -> string.
Variable SHGetPathFromIDListW : option PIDL -> option string.
Variable SHGetSpecialFolderPathW : Z -> bool -> option string.
Variable stat : string -> option WIN32_FIND_DATAW.
Variable SHELL32_ParseNextElement :
  CFSFolder -> option Parse.BindCtx -> option PIDL -> string ->
  option Z -> option Z -> Z * option PIDL * option Z * option Z.
Variable SF : Type.
Variable BindToObject : CFSFolder -> PIDL -> option SF.
Variable EnumObjects_FOLDERS : SF -> option (list ITEMID).

Let GetDisplayNameOf :=
  Display.GetDisplayNameOf reg_HideFileExt reg_ClassOf reg_NeverShowExt
    PathAddBackslashW SHELL32_GetDisplayNameOfChild other_text.
Let InitializeEx :=
  Persist.InitializeEx SHGetPathFromIDListW SHGetSpecialFolderPathW.
Let ParseDisplayName :=
  Parse.ParseDisplayName PathAddBackslashW stat SHELL32_ParseNextElement
    SF BindToObject EnumObjects_FOLDERS.


(** X21: a folder initialised through InitializeEx with a target parsing
    name (and csidl -1) answers the request for its own full parsing
    name, the display name of the empty identifier list, with exactly
    that parsing name. *)
Theorem InitializeEx_then_own_parsing_name (this : CFSFolder)
        (pidlRootx : option PIDL) (pfti : PERSIST_FOLDER_TARGET_INFO)
        (dwFlags : Z) :
  csidl pfti = -1 ->
  szTargetParsingName pfti <> EmptyString ->
  tst dwFlags SHGDN_FORPARSING = true ->
  Display.GET_SHGDN_RELATION dwFlags <> SHGDN_INFOLDER ->
  GetDisplayNameOf (snd (InitializeEx this pidlRootx (Some pfti)))
    (Some []) dwFlags true
  = (S_OK, Some (szTargetParsingName pfti)).
Proof.
  intros Hcsidl Hname Hparse Hrel.
  unfold InitializeEx, Persist.InitializeEx. cbv zeta.
  rewrite Hcsidl. cbn [Z.eqb negb].
  destruct (szTargetParsingName pfti) as [| c rest] eqn:E; [congruence |].
  unfold GetDisplayNameOf, Display.GetDisplayNameOf.
  cbn [negb Display._ILIsPidlSimple snd sPathTarget]. cbv zeta.
  rewrite tst_GET_SHGDN_FOR, Hparse.
  apply Z.eqb_neq in Hrel. rewrite Hrel. reflexivity.
Qed.


End RoundTrips.

Lemma InitializeEx_then_own_parsing_name_witness :
  csidl (mkTargetInfo None "C:\D" EmptyString DWORD_ALL (-1)) = -1
  /\ szTargetParsingName (mkTargetInfo None "C:\D" EmptyString DWORD_ALL (-1))
     <> EmptyString
  /\ tst SHGDN_FORPARSING SHGDN_FORPARSING = true
  /\ Display.GET_SHGDN_RELATION SHGDN_FORPARSING <> SHGDN_INFOLDER
  /\ Display.GetDisplayNameOf reg_show_all reg_no_class reg_never
       add_backslash (fun _ _ _ => (E_FAIL, None)) (fun _ => EmptyString)
       (snd (Persist.InitializeEx (fun _ => None) (fun _ _ => None)
               (mkFolder None None) (pidlRoot folder_D)
               (Some (mkTargetInfo None "C:\D" EmptyString DWORD_ALL (-1)))))
       (Some []) SHGDN_FORPARSING true
     = (S_OK, Some "C:\D"%string).
Proof.
  assert (H1 : csidl (mkTargetInfo None "C:\D" EmptyString DWORD_ALL (-1))
               = -1) by reflexivity.
  assert (H2 : szTargetParsingName
                 (mkTargetInfo None "C:\D" EmptyString DWORD_ALL (-1))
               <> EmptyString) by discriminate.
  assert (H3 : tst SHGDN_FORPARSING SHGDN_FORPARSING = true)
    by (vm_compute; reflexivity).
  assert (H4 : Display.GET_SHGDN_RELATION SHGDN_FORPARSING <> SHGDN_INFOLDER)
    by (vm_compute; discriminate).
  exact (conj H1 (conj H2 (conj H3 (conj H4
          (InitializeEx_then_own_parsing_name reg_show_all reg_no_class
             reg_never add_backslash (fun _ _ _ => (E_FAIL, None))
             (fun _ => EmptyString) (fun _ => None) (fun _ _ => None)
             (mkFolder None None) (pidlRoot folder_D)
             (mkTargetInfo None "C:\D" EmptyString DWORD_ALL (-1))
             SHGDN_FORPARSING H1 H2 H3 H4))))).
Defined.


(** ** File types and binding *)

Section BindProofs.

Variable HKEY : Type.
Variable RegOpenKey_HKCR : string -> option HKEY.
Variable RegGetValue_HKCR : string -> option string.
Variable RegGetValue_key : HKEY -> option string.
Variable Blocked : string -> bool.
Variable CLSID : Type.
Variable CLSIDFromString : string -> CLSID -> Z * CLSID.
Variable CLSID_ShellFSFolder : CLSID.
Variable unset_CLSID : CLSID.
Variable ini_CLSID : string -> option string.
Variable PathCombineW : option string -> string -> string.
Variable IID : Type.
Variable Obj : Type.
Variable SHELL32_BindToSF :
  option PIDL -> PERSIST_FOLDER_TARGET_INFO -> PIDL -> CLSID -> IID ->
  Z * option Obj.

Let OpenKeyFromFileType :=
  FileType.OpenKeyFromFileType HKEY RegOpenKey_HKCR RegGetValue_HKCR.
Let GetCLSIDForFileType :=
  FileType.GetCLSIDForFileType HKEY RegOpenKey_HKCR RegGetValue_HKCR
    RegGetValue_key Blocked CLSID CLSIDFromString.
Let BindToObject :=
  Bind.BindToObject HKEY RegOpenKey_HKCR RegGetValue_HKCR RegGetValue_key
    Blocked CLSID CLSIDFromString CLSID_ShellFSFolder unset_CLSID ini_CLSID
    PathCombineW IID Obj SHELL32_BindToSF.

Lemma FAILED_not_S_OK (hres : Z) : FAILED hres = true -> hres <> S_OK.
Proof. unfold FAILED, S_OK. intros H. apply Z.ltb_lt in H. lia. Qed.

(** X23: GetCLSIDForFileType returns S_OK only when the type's key
    opened, its default value was read, that value is not on the list of
    blocked shell extensions, and CLSIDFromString accepted it; the class
    identifier returned is then the one CLSIDFromString produced. *)
Theorem GetCLSIDForFileType_S_OK_only_if_allowed (pidl : PIDL)
        (KeyName : string) (pclsid : CLSID) :
  fst (GetCLSIDForFileType pidl KeyName pclsid) = S_OK ->
  exists (hkey : HKEY) (value : string),
    OpenKeyFromFileType pidl KeyName = Some hkey
    /\ RegGetValue_key hkey = Some value
    /\ Blocked value = false
    /\ FAILED (fst (CLSIDFromString value pclsid)) = false
    /\ snd (GetCLSIDForFileType pidl KeyName pclsid)
       = snd (CLSIDFromString value pclsid).
Proof.
  unfold GetCLSIDForFileType, FileType.GetCLSIDForFileType,
    OpenKeyFromFileType.
  destruct (FileType.OpenKeyFromFileType _ _ _ _ _) as [hkey |];
    [| cbn; discriminate].
  destruct (RegGetValue_key hkey) as [value |] eqn:Evalue;
    [| cbn; discriminate].
  destruct (Blocked value) eqn:Eblocked; [cbn; discriminate |].
  destruct (CLSIDFromString value pclsid) as [hres clsid] eqn:Eparse.
  destruct (FAILED hres) eqn:Efailed; cbn [fst snd]; intros Hok.
  - exfalso. exact (FAILED_not_S_OK _ Efailed Hok).
  - exists hkey, value. rewrite Eparse. cbn [fst snd].
    split; [reflexivity |]. split; [exact Evalue |].
    split; [exact Eblocked |]. split; [exact Efailed | reflexivity].
Qed.

(* An identifier that is not a file, or a file whose name has no
    extension, has no type handler: GetCLSIDForFileType returns S_FALSE
    and leaves the class identifier untouched, without reading the
    registry. *)
Theorem GetCLSIDForFileType_without_extension (pidl : PIDL)
        (KeyName : string) (pclsid : CLSID) :
  _ILIsValue pidl = false
  \/ (exists wszName : string,
        _ILGetFileStructW pidl = Some wszName
        /\ PathFindExtensionW wszName = EmptyString) ->
  GetCLSIDForFileType pidl KeyName pclsid = (S_FALSE, pclsid).
Proof.
  unfold GetCLSIDForFileType, FileType.GetCLSIDForFileType,
    FileType.OpenKeyFromFileType.
  intros [H | (wszName & Hname & Hext)].
  - rewrite H. reflexivity.
  - rewrite Hname, Hext. destruct (negb (_ILIsValue pidl)); reflexivity.
Qed.

(* a result of GetCLSIDForFileType is S_OK, S_FALSE or a failure *)
Lemma GetCLSIDForFileType_codes (pidl : PIDL) (KeyName : string)
      (pclsid : CLSID) :
  fst (GetCLSIDForFileType pidl KeyName pclsid) = S_OK
  \/ fst (GetCLSIDForFileType pidl KeyName pclsid) = S_FALSE
  \/ FAILED (fst (GetCLSIDForFileType pidl KeyName pclsid)) = true.
Proof.
  unfold GetCLSIDForFileType, FileType.GetCLSIDForFileType.
  destruct (FileType.OpenKeyFromFileType _ _ _ _ _) as [hkey |];
    [| right; left; reflexivity].
  destruct (RegGetValue_key hkey) as [value |];
    [| right; left; reflexivity].
  destruct (Blocked value); [right; right; reflexivity |].
  destruct (CLSIDFromString value pclsid) as [hres clsid].
  destruct (FAILED hres) eqn:E; cbn [fst];
    [right; right; exact E | left; reflexivity].
Qed.

(** X24: the only success code BindToObject returns is S_OK: every other
    code it returns, its own or one passed up from the type lookup or
    from the binder, is a failure code. *)
Theorem BindToObject_success_is_S_OK (this : CFSFolder)
        (pidl : option PIDL) (riid : IID) (ppvOut : option (option Obj)) :
  SUCCEEDED (fst (BindToObject this pidl riid ppvOut)) = true ->
  fst (BindToObject this pidl riid ppvOut) = S_OK.
Proof.
  unfold BindToObject, Bind.BindToObject.
  destruct (pidlRoot this) as [root |]; [| cbn; discriminate].
  destruct ppvOut as [cell |]; [| cbn; discriminate].
  destruct pidl as [[| item rest] |]; try (cbn; discriminate).
  destruct (_ILGetFileStructW (item :: rest)) as [wszName |];
    [| cbn; discriminate].
  cbv zeta.
  destruct (_ILIsFolder (item :: rest)).
  - destruct (SHELL32_BindToSF _ _ _ _ _) as [hr obj].
    destruct (FAILED hr) eqn:E; cbn [fst]; [| reflexivity].
    unfold FAILED, SUCCEEDED in *. apply Z.ltb_lt in E.
    intros H. apply Z.leb_le in H. lia.
  - pose proof (GetCLSIDForFileType_codes (item :: rest) "CLSID"
                  unset_CLSID) as Hcodes.
    unfold GetCLSIDForFileType in Hcodes.
    destruct (FileType.GetCLSIDForFileType _ _ _ _ _ _ _ _ _ _)
      as [hr clsidFolder].
    cbn [fst] in Hcodes.
    destruct Hcodes as [-> | [-> | Hfail]].
    + cbn [Z.eqb S_OK S_FALSE negb].
      destruct (SHELL32_BindToSF _ _ _ _ _) as [hr obj].
      destruct (FAILED hr) eqn:E; cbn [fst]; [| reflexivity].
      unfold FAILED, SUCCEEDED in *. apply Z.ltb_lt in E.
      intros H. apply Z.leb_le in H. lia.
    + cbn. discriminate.
    + unfold FAILED in Hfail. apply Z.ltb_lt in Hfail.
      assert (E1 : (hr =? S_FALSE) = false)
        by (apply Z.eqb_neq; unfold S_FALSE; lia).
      assert (E2 : (hr =? S_OK) = false)
        by (apply Z.eqb_neq; unfold S_OK; lia).
      rewrite E1, E2. cbn [negb fst]. unfold SUCCEEDED.
      intros H. apply Z.leb_le in H. lia.
Qed.

(** X25: a folder identifier without the system and read-only attributes
    is bound as a plain file-system folder: the binder is asked for
    CLSID_ShellFSFolder on the child's path, target attributes and csidl
    -1, and neither the folder's desktop.ini nor the type registry is
    consulted; a failure of the binder is passed up, any success becomes
    S_OK. *)
Theorem BindToObject_plain_folder (this : CFSFolder) (root : PIDL)
        (item : ITEMID) (rest : PIDL) (wszName : string) (riid : IID)
        (cell : option Obj) :
  pidlRoot this = Some root ->
  _ILGetFileStructW (item :: rest) = Some wszName ->
  _ILIsFolder (item :: rest) = true ->
  Z.land (uFileAttribs item)
         (Z.lor FILE_ATTRIBUTE_SYSTEM FILE_ATTRIBUTE_READONLY) = 0 ->
  BindToObject this (Some (item :: rest)) riid (Some cell)
  = (if FAILED
          (fst (SHELL32_BindToSF (Some root)
                  (mkTargetInfo None
                     (PathCombineW (sPathTarget this) wszName)
                     EmptyString DWORD_ALL (-1))
                  (item :: rest) CLSID_ShellFSFolder riid))
     then fst (SHELL32_BindToSF (Some root)
                 (mkTargetInfo None
                    (PathCombineW (sPathTarget this) wszName)
                    EmptyString DWORD_ALL (-1))
                 (item :: rest) CLSID_ShellFSFolder riid)
     else S_OK,
     Some (snd (SHELL32_BindToSF (Some root)
                  (mkTargetInfo None
                     (PathCombineW (sPathTarget this) wszName)
                     EmptyString DWORD_ALL (-1))
                  (item :: rest) CLSID_ShellFSFolder riid))).
Proof.
  intros Hroot Hname Hfolder Hattr.
  unfold BindToObject, Bind.BindToObject.
  rewrite Hroot, Hname, Hfolder, Hattr. cbv zeta. cbn [Z.eqb negb].
  destruct (SHELL32_BindToSF _ _ _ _ _) as [hr obj]. cbn [fst snd].
  destruct (FAILED hr); reflexivity.
Qed.

(** X26: BindToObject on a file whose type has no key in the registry
    fails with the not-found code, stores NULL in the output and does not
    call the binder; without a root, an output pointer, an identifier or
    a stored name it returns E_INVALIDARG and leaves the output alone. *)
Theorem BindToObject_not_found_or_invalid (this : CFSFolder)
        (pidl : option PIDL) (riid : IID) (ppvOut : option (option Obj)) :
  (pidlRoot this = None \/ ppvOut = None \/ pidl = None \/ pidl = Some []
   \/ _ILGetFileStructW (pidl_or_null pidl) = None ->
   BindToObject this pidl riid ppvOut = (E_INVALIDARG, ppvOut))
  /\ (pidlRoot this <> None -> ppvOut <> None ->
      pidl <> None -> pidl <> Some [] ->
      _ILGetFileStructW (pidl_or_null pidl) <> None ->
      _ILIsFolder (pidl_or_null pidl) = false ->
      OpenKeyFromFileType (pidl_or_null pidl) "CLSID" = None ->
      BindToObject this pidl riid ppvOut
      = (HRESULT_FROM_WIN32 ERROR_FILE_NOT_FOUND, Some None)).
Proof.
  unfold BindToObject, Bind.BindToObject, OpenKeyFromFileType. split.
  - intros H.
    destruct (pidlRoot this) as [root |]; [| reflexivity].
    destruct ppvOut as [cell |]; [| reflexivity].
    destruct pidl as [[| item rest] |]; try reflexivity.
    cbn [pidl_or_null] in H.
    destruct H as [H | [H | [H | [H | H]]]]; try discriminate.
    rewrite H. reflexivity.
  - intros Hroot Hout Hpidl Hnonempty Hname Hfile Hkey.
    destruct (pidlRoot this) as [root |];
      [| exfalso; apply Hroot; reflexivity].
    destruct ppvOut as [cell |]; [| exfalso; apply Hout; reflexivity].
    destruct pidl as [[| item rest] |];
      [exfalso; apply Hnonempty; reflexivity |
       | exfalso; apply Hpidl; reflexivity].
    cbn [pidl_or_null] in *.
    destruct (_ILGetFileStructW (item :: rest)) as [wszName |];
      [| congruence].
    cbv zeta. rewrite Hfile.
    unfold FileType.GetCLSIDForFileType. rewrite Hkey. reflexivity.
Qed.

End BindProofs.

Lemma GetCLSIDForFileType_S_OK_only_if_allowed_witness :
  fst (FileType.GetCLSIDForFileType nat reg_open reg_class reg_value
         reg_blocked string parse_clsid id_Doc "CLSID" EmptyString) = S_OK
  /\ exists (hkey : nat) (value : string),
      FileType.OpenKeyFromFileType nat reg_open reg_class id_Doc "CLSID"
      = Some hkey
      /\ reg_value hkey = Some value
      /\ reg_blocked value = false
      /\ FAILED (fst (parse_clsid value EmptyString)) = false
      /\ snd (FileType.GetCLSIDForFileType nat reg_open reg_class reg_value
                reg_blocked string parse_clsid id_Doc "CLSID" EmptyString)
         = snd (parse_clsid value EmptyString).
Proof.
  assert (H : fst (FileType.GetCLSIDForFileType nat reg_open reg_class
                     reg_value reg_blocked string parse_clsid id_Doc
                     "CLSID" EmptyString) = S_OK)
    by (vm_compute; reflexivity).
  split; [exact H |].
  exact (GetCLSIDForFileType_S_OK_only_if_allowed nat reg_open reg_class
           reg_value reg_blocked string parse_clsid id_Doc "CLSID"
           EmptyString H).
Defined.

Lemma GetCLSIDForFileType_without_extension_witness :
  (_ILIsValue id_Sub = false
   \/ exists wszName : string,
       _ILGetFileStructW id_Sub = Some wszName
       /\ PathFindExtensionW wszName = EmptyString)
  /\ FileType.GetCLSIDForFileType nat reg_open reg_class reg_value
       reg_blocked string parse_clsid id_Sub "CLSID" EmptyString
     = (S_FALSE, EmptyString).
Proof.
  assert (H : _ILIsValue id_Sub = false
              \/ exists wszName : string,
                  _ILGetFileStructW id_Sub = Some wszName
                  /\ PathFindExtensionW wszName = EmptyString)
    by (left; vm_compute; reflexivity).
  split; [exact H |].
  exact (GetCLSIDForFileType_without_extension nat reg_open reg_class
           reg_value reg_blocked string parse_clsid id_Sub "CLSID"
           EmptyString H).
Defined.

Lemma BindToObject_success_is_S_OK_witness :
  SUCCEEDED
    (fst (Bind.BindToObject nat reg_open reg_class reg_value reg_blocked
            string parse_clsid "FS"%string EmptyString no_ini combine unit unit
            binder_binds folder_D (Some id_Sub) tt (Some None))) = true
  /\ fst (Bind.BindToObject nat reg_open reg_class reg_value reg_blocked
            string parse_clsid "FS"%string EmptyString no_ini combine unit unit
            binder_binds folder_D (Some id_Sub) tt (Some None)) = S_OK.
Proof.
  assert (H : SUCCEEDED
                (fst (Bind.BindToObject nat reg_open reg_class reg_value
                        reg_blocked string parse_clsid "FS"%string EmptyString
                        no_ini combine unit unit binder_binds folder_D
                        (Some id_Sub) tt (Some None))) = true)
    by (vm_compute; reflexivity).
  split; [exact H |].
  exact (BindToObject_success_is_S_OK nat reg_open reg_class reg_value
           reg_blocked string parse_clsid "FS"%string EmptyString no_ini combine
           unit unit binder_binds folder_D (Some id_Sub) tt (Some None) H).
Defined.

Lemma BindToObject_plain_folder_witness :
  pidlRoot folder_D = Some (pidl_or_null (pidlRoot folder_D))
  /\ _ILGetFileStructW id_Sub = Some "Sub"%string
  /\ _ILIsFolder id_Sub = true
  /\ Z.land (uFileAttribs (_ILCreateFromFindDataW rec_Sub))
            (Z.lor FILE_ATTRIBUTE_SYSTEM FILE_ATTRIBUTE_READONLY) = 0
  /\ Bind.BindToObject nat reg_open reg_class reg_value reg_blocked
       string parse_clsid "FS"%string EmptyString no_ini combine unit unit
       binder_fails folder_D (Some id_Sub) tt (Some None)
     = (E_FAIL, Some None).
Proof.
  assert (H1 : pidlRoot folder_D = Some (pidl_or_null (pidlRoot folder_D)))
    by reflexivity.
  assert (H2 : _ILGetFileStructW id_Sub = Some "Sub"%string)
    by (vm_compute; reflexivity).
  assert (H3 : _ILIsFolder id_Sub = true) by (vm_compute; reflexivity).
  assert (H4 : Z.land (uFileAttribs (_ILCreateFromFindDataW rec_Sub))
                      (Z.lor FILE_ATTRIBUTE_SYSTEM FILE_ATTRIBUTE_READONLY)
               = 0) by (vm_compute; reflexivity).
  split; [exact H1 |]. split; [exact H2 |]. split; [exact H3 |].
  split; [exact H4 |].
  refine (eq_trans
            (BindToObject_plain_folder nat reg_open reg_class reg_value
               reg_blocked string parse_clsid "FS"%string EmptyString
               no_ini combine unit unit binder_fails folder_D
               (pidl_or_null (pidlRoot folder_D))
               (_ILCreateFromFindDataW rec_Sub) [] "Sub" tt None
               H1 H2 H3 H4) _).
  vm_compute. reflexivity.
Defined.

Lemma BindToObject_not_found_or_invalid_witness :
  pidlRoot folder_D <> None
  /\ Some (@None unit) <> None
  /\ Some id_empty <> None
  /\ Some id_empty <> Some []
  /\ _ILGetFileStructW id_empty <> None
  /\ _ILIsFolder id_empty = false
  /\ FileType.OpenKeyFromFileType nat reg_open reg_class id_empty "CLSID"
     = None
  /\ Bind.BindToObject nat reg_open reg_class reg_value reg_blocked
       string parse_clsid "FS"%string EmptyString no_ini combine unit unit
       binder_binds folder_D (Some id_empty) tt (Some None)
     = (HRESULT_FROM_WIN32 ERROR_FILE_NOT_FOUND, Some None).
Proof.
  assert (H1 : pidlRoot folder_D <> None) by discriminate.
  assert (H2 : Some (@None unit) <> None) by discriminate.
  assert (H3 : Some id_empty <> None) by discriminate.
  assert (H4 : Some id_empty <> Some []) by discriminate.
  assert (H5 : _ILGetFileStructW id_empty <> None)
    by (vm_compute; discriminate).
  assert (H6 : _ILIsFolder id_empty = false) by (vm_compute; reflexivity).
  assert (H7 : FileType.OpenKeyFromFileType nat reg_open reg_class
                 id_empty "CLSID" = None) by (vm_compute; reflexivity).
  exact (conj H1 (conj H2 (conj H3 (conj H4 (conj H5 (conj H6 (conj H7
          (proj2 (BindToObject_not_found_or_invalid nat reg_open reg_class
                    reg_value reg_blocked string parse_clsid "FS"%string
                    EmptyString no_ini combine unit unit binder_binds
                    folder_D (Some id_empty) tt (Some None))
                 H1 H2 H3 H4 H5 H6 H7)))))))).
Defined.

(** ** Device enumeration *)

Section DeviceProofs.

Import DevUtils DevTrace.

Variable HANDLE : Type.
Variable NtOpenFile : string -> Z -> Z -> Z -> Z -> Z * HANDLE.
Variable CM_Get_Device_Interface_List_SizeW : nat -> Z * Z.
Variable CM_Get_Device_Interface_ListW : nat -> Z -> Z * list string.

Let pOpenDevice := DevUtils.pOpenDevice HANDLE NtOpenFile.
Let enumerate := DevUtils.enumerate HANDLE NtOpenFile.
Let retrieve_list :=
  DevUtils.retrieve_list CM_Get_Device_Interface_List_SizeW
    CM_Get_Device_Interface_ListW.
Let pNtEnumDevicesPnP :=
  DevUtils.pNtEnumDevicesPnP HANDLE NtOpenFile
    CM_Get_Device_Interface_List_SizeW CM_Get_Device_Interface_ListW.

(* the interface opens *)
Let opens (iface : string) : bool :=
  NT_SUCCESS (fst (pOpenDevice (normalize_interface iface))).

(** X27: normalising an interface path keeps its length and is idempotent;
    a path that starts with \\?\ and goes on is turned into the same path
    starting with \??\. *)
Theorem normalize_interface_spec (iface : string) :
  String.length (normalize_interface iface) = String.length iface
  /\ normalize_interface (normalize_interface iface)
     = normalize_interface iface
  /\ forall (c : ascii) (rest : string),
       normalize_interface (String.append "\\?\" (String c rest))
       = String.append "\??\" (String c rest).
Proof.
  split; [| split].
  - unfold normalize_interface.
    destruct iface as [| c0 [| c1 [| c2 [| c3 [| c4 rest]]]]];
      try reflexivity.
    destruct (_ && _); reflexivity.
  - destruct iface as [| c0 [| c1 [| c2 [| c3 [| c4 rest]]]]];
      try reflexivity.
    cbn [normalize_interface].
    destruct (Ascii.eqb c0 backslash && Ascii.eqb c1 backslash
              && Ascii.eqb c2 question_mark && Ascii.eqb c3 backslash)
      eqn:E.
    + cbn [normalize_interface].
      change (Ascii.eqb question_mark backslash) with false.
      rewrite andb_false_r. reflexivity.
    + cbn [normalize_interface]. rewrite E. reflexivity.
  - intros c rest. reflexivity.
Qed.

(** X28: the enumeration loop visits the interface paths up to the first
    empty string, in order.  The handles it closes are exactly the
    handles of the interfaces that opened; with a callback, the callback
    is invoked exactly for those interfaces, each with its normalised
    path and its handle, whatever earlier callbacks returned; without a
    callback none is invoked. *)
Theorem enumerate_events (DevIFaceList : list string) :
  (forall Callback : bool,
      closes (enumerate Callback DevIFaceList)
      = map (fun iface => snd (pOpenDevice (normalize_interface iface)))
            (filter opens (visited DevIFaceList)))
  /\ callbacks (enumerate true DevIFaceList)
     = map (fun iface =>
              (normalize_interface iface,
               snd (pOpenDevice (normalize_interface iface))))
           (filter opens (visited DevIFaceList))
  /\ callbacks (enumerate false DevIFaceList) = [].
Proof.
  assert (Hcl : forall (a b : list (Event HANDLE)),
             closes (a ++ b) = (closes a ++ closes b)%list).
  { induction a as [| [iface h | h] a IH]; intros b; cbn;
      rewrite ?IH; reflexivity. }
  assert (Hcb : forall (a b : list (Event HANDLE)),
             callbacks (a ++ b) = (callbacks a ++ callbacks b)%list).
  { induction a as [| [iface h | h] a IH]; intros b; cbn;
      rewrite ?IH; reflexivity. }
  unfold enumerate, opens, pOpenDevice.
  induction DevIFaceList as [| iface rest IH].
  - repeat split.
  - destruct IH as (IHclose & IHtrue & IHfalse).
    destruct iface as [| c iface]; [repeat split |].
    cbn [DevUtils.enumerate visited filter].
    destruct (DevUtils.pOpenDevice HANDLE NtOpenFile
                (normalize_interface (String c iface)))
      as [Status DeviceHandle] eqn:Eopen.
    cbn [fst snd].
    destruct (NT_SUCCESS Status); cbn [map]; split; try split;
      try intros Callback; rewrite ?Hcl, ?Hcb, ?IHclose, ?IHtrue, ?IHfalse;
      try destruct Callback; cbn [closes callbacks app fst snd];
      rewrite ?Eopen; reflexivity.
Qed.

Lemma retrieve_list_retries (n : nat) :
  forall (rounds start : nat),
    (forall k : nat,
        (k < n)%nat ->
        fst (CM_Get_Device_Interface_List_SizeW (start + k)) = CR_SUCCESS
        /\ fst (CM_Get_Device_Interface_ListW (start + k)
                  (snd (CM_Get_Device_Interface_List_SizeW (start + k))))
           = CR_BUFFER_SMALL) ->
    retrieve_list (n + rounds) start = retrieve_list rounds (start + n).
Proof.
  unfold retrieve_list.
  induction n as [| n IH]; intros rounds start Hretry.
  - rewrite Nat.add_0_r. reflexivity.
  - cbn [Nat.add DevUtils.retrieve_list].
    destruct (Hretry 0%nat ltac:(lia)) as [Hsize Hlist].
    rewrite Nat.add_0_r in Hsize, Hlist.
    destruct (CM_Get_Device_Interface_List_SizeW start) as [cr len].
    cbn [fst snd] in Hsize, Hlist. subst cr.
    destruct (CM_Get_Device_Interface_ListW start len) as [cr l].
    cbn [fst] in Hlist. subst cr.
    rewrite !Z.eqb_refl. cbn [negb].
    rewrite IH.
    + replace (S start + n)%nat with (start + S n)%nat by lia.
      reflexivity.
    + intros k Hk. specialize (Hretry (S k) ltac:(lia)).
      replace (S start + k)%nat with (start + S k)%nat by lia.
      exact Hretry.
Qed.

(** X29: pNtEnumDevicesPnP ends as soon as the configuration manager
    stops asking for a larger buffer.  If, after n rounds that ended in
    CR_BUFFER_SMALL, the list is read with CR_SUCCESS, the function
    returns STATUS_SUCCESS with the events of the enumeration of that
    list, whether or not any device opened; if instead the size query
    fails in that round, it returns STATUS_UNSUCCESSFUL and neither opens
    a device nor calls back. *)
Theorem pNtEnumDevicesPnP_returns (n rounds : nat) (Callback : bool) :
  (forall k : nat,
      (k < n)%nat ->
      fst (CM_Get_Device_Interface_List_SizeW k) = CR_SUCCESS
      /\ fst (CM_Get_Device_Interface_ListW k
                (snd (CM_Get_Device_Interface_List_SizeW k)))
         = CR_BUFFER_SMALL) ->
  (n < rounds)%nat ->
  (forall DevIFaceList : list string,
      fst (CM_Get_Device_Interface_List_SizeW n) = CR_SUCCESS ->
      CM_Get_Device_Interface_ListW n
        (snd (CM_Get_Device_Interface_List_SizeW n))
      = (CR_SUCCESS, DevIFaceList) ->
      pNtEnumDevicesPnP rounds Callback
      = Some (STATUS_SUCCESS, enumerate Callback DevIFaceList))
  /\ (fst (CM_Get_Device_Interface_List_SizeW n) <> CR_SUCCESS ->
      pNtEnumDevicesPnP rounds Callback = Some (STATUS_UNSUCCESSFUL, [])).
Proof.
  intros Hretry Hrounds.
  assert (Hstep : retrieve_list rounds 0
                  = retrieve_list (rounds - n) n).
  { replace rounds with (n + (rounds - n))%nat at 1 by lia.
    rewrite (retrieve_list_retries n (rounds - n) 0 Hretry).
    reflexivity. }
  unfold pNtEnumDevicesPnP, DevUtils.pNtEnumDevicesPnP.
  fold retrieve_list. rewrite Hstep.
  destruct (rounds - n)%nat as [| more] eqn:E; [lia |].
  unfold retrieve_list. cbn [DevUtils.retrieve_list]. split.
  - intros DevIFaceList Hsize Hlist.
    destruct (CM_Get_Device_Interface_List_SizeW n) as [cr len].
    cbn [fst snd] in Hsize, Hlist. subst cr. rewrite Hlist. reflexivity.
  - intros Hsize.
    destruct (CM_Get_Device_Interface_List_SizeW n) as [cr len].
    cbn [fst] in Hsize. apply Z.eqb_neq in Hsize. rewrite Hsize.
    cbn [negb]. rewrite Hsize. reflexivity.
Qed.

End DeviceProofs.

Lemma pNtEnumDevicesPnP_returns_witness :
  (forall k : nat,
      (k < 1)%nat ->
      fst (list_size k) = DevUtils.CR_SUCCESS
      /\ fst (list_second_time k (snd (list_size k)))
         = DevUtils.CR_BUFFER_SMALL)
  /\ (1 < 3)%nat
  /\ DevUtils.pNtEnumDevicesPnP Z open_disk0 list_size list_second_time 3
       true
     = Some (DevUtils.STATUS_SUCCESS,
             [DevUtils.Called_back "\??\disk0"%string 100;
              DevUtils.Closed 100]).
Proof.
  assert (H1 : forall k : nat,
             (k < 1)%nat ->
             fst (list_size k) = DevUtils.CR_SUCCESS
             /\ fst (list_second_time k (snd (list_size k)))
                = DevUtils.CR_BUFFER_SMALL).
  { intros k Hk. assert (k = 0%nat) by lia. subst k.
    split; reflexivity. }
  assert (H2 : (1 < 3)%nat) by lia.
  split; [exact H1 |]. split; [exact H2 |].
  refine (eq_trans
            (proj1 (pNtEnumDevicesPnP_returns Z open_disk0 list_size
                      list_second_time 1 3 true H1 H2)
                   two_disks eq_refl eq_refl) _).
  vm_compute. reflexivity.
Defined.

(** ** ROUND_UP *)

(** X30: for a positive step S and an N with N + S - 1 below 2^32,
    ROUND_UP(N, S) is the least multiple of S that is not below N: it is
    a multiple of S, it lies in [N, N + S), no smaller multiple of S
    reaches N, and an N that is a multiple of S already is returned
    unchanged. *)
Theorem ROUND_UP_least_multiple (N S : Z) :
  0 < S -> 0 <= N -> N + S - 1 < 0x100000000 ->
  RecycleBin.ROUND_UP N S mod S = 0
  /\ N <= RecycleBin.ROUND_UP N S < N + S
  /\ (forall m : Z, m mod S = 0 -> N <= m -> RecycleBin.ROUND_UP N S <= m)
  /\ (N mod S = 0 -> RecycleBin.ROUND_UP N S = N).
Proof.
  intros HS HN Hfit.
  assert (Hval : forall n : Z,
             0 <= n -> n + S - 1 < 4294967296 ->
             RecycleBin.ROUND_UP n S = (n + S - 1) / S * S).
  { intros n Hn Hf. unfold RecycleBin.ROUND_UP.
    rewrite (Z.mod_small (n + S - 1)) by lia.
    apply Z.mod_small.
    pose proof (Z.mul_div_le (n + S - 1) S HS).
    pose proof (Z.div_pos (n + S - 1) S ltac:(lia) HS). nia. }
  rewrite (Hval N HN Hfit).
  pose proof (Z.mul_div_le (N + S - 1) S HS) as Hle.
  pose proof (Z.mul_succ_div_gt (N + S - 1) S HS) as Hgt.
  set (q := (N + S - 1) / S) in *.
  assert (Hrange : N <= q * S < N + S) by nia.
  assert (Hleast : forall m : Z, m mod S = 0 -> N <= m -> q * S <= m).
  { intros m Hm HNm.
    apply Z.mod_divide in Hm; [| lia]. destruct Hm as [k ->].
    assert (Hqk : q <= k).
    { destruct (Z.le_gt_cases q k) as [H | H]; [exact H |].
      assert (Hk1 : (k + 1) * S <= q * S)
        by (apply Z.mul_le_mono_nonneg_r; lia).
      replace ((k + 1) * S) with (k * S + S) in Hk1 by ring.
      lia. }
    apply Z.mul_le_mono_nonneg_r; lia. }
  split; [apply Z.mod_mul; lia |]. split; [exact Hrange |].
  split; [exact Hleast |].
  intros Hmult. pose proof (Hleast N Hmult ltac:(lia)). lia.
Qed.

Lemma ROUND_UP_least_multiple_witness :
  0 < 8 /\ 0 <= 13 /\ 13 + 8 - 1 < 0x100000000
  /\ RecycleBin.ROUND_UP 13 8 mod 8 = 0
  /\ 13 <= RecycleBin.ROUND_UP 13 8 < 13 + 8.
Proof.
  assert (H1 : 0 < 8) by lia.
  assert (H2 : 0 <= 13) by lia.
  assert (H3 : 13 + 8 - 1 < 0x100000000) by lia.
  destruct (ROUND_UP_least_multiple 13 8 H1 H2 H3) as (Ha & Hb & _).
  exact (conj H1 (conj H2 (conj H3 (conj Ha Hb)))).
Defined.
